(** * FoodieDrops: pricing, modifier validation, reservation, checkout
      sessions and payment reconciliation

    A shallow embedding of the order core of the marketplace:
    - [views/DropDetail.tsx]: [toggleOption], [unitPrice] and the order
      total, [validateSelections], [handlePurchaseClick],
      [handleConfirmCheckout];
    - [services/api.ts]: [savePurchase];
    - [App.tsx]: [handlePurchaseConfirm];
    - [supabase/functions/create-checkout-session]: the gateway handler;
    - [supabase/functions/stripe-webhook]: the reconciliation handler.

    JavaScript numbers that carry money are modelled as exact rationals
    ([Qc]), so no rounding and no NaN or Infinity occur; counts and clock
    readings are integers ([Z]).  JS objects used as dictionaries are finite
    maps; database tables are lists of rows, and an UPDATE ... WHERE is a map
    over the rows. *)

From Stdlib Require Import ZArith QArith Qcanon Qround Lia.
From stdpp Require Import base option list numbers strings pretty gmap fin_maps.

Local Open Scope Z_scope.

(** ** Numbers *)

Module Num.

(** [x || 0] on an optional number. A present zero is falsy in JS and
    yields [0] as well, which is the same value. *)
Definition or_zero (x : option Qc) : Qc := default 0%Qc x.

(** An integer count used in a product with money. *)
Definition of_Z (z : Z) : Qc := Qc_of_Z z.

(** [Math.round]: the nearest integer, halves towards plus infinity. *)
Definition Math_round (q : Qc) : Z := Qfloor (Qplus (this q) (1 # 2)).

(** Sum of a list of amounts. *)
Definition sum (l : list Qc) : Qc := foldr Qcplus 0%Qc l.

(** A JS value used as a condition: a missing or empty string is falsy. *)
Definition truthy (s : option string) : bool :=
  match s with
  | Some EmptyString | None => false
  | Some _ => true
  end.

(** [a || b] on optional strings. *)
Definition or_else (a b : option string) : option string :=
  if truthy a then a else b.

End Num.

(** ** Data model, after [types.ts] *)

Inductive DropApprovalStatus := PENDING | APPROVED | REJECTED.

Inductive PaymentStatus := pending | paid | failed | refunded.

#[global] Instance DropApprovalStatus_eq_dec : EqDecision DropApprovalStatus.
Proof. solve_decision. Defined.

#[global] Instance PaymentStatus_eq_dec : EqDecision PaymentStatus.
Proof. solve_decision. Defined.

Record ModifierOption := {
  mo_id : string;
  mo_name : string;
  additionalPrice : Qc
}.

Record ModifierGroup := {
  mg_id : string;
  mg_name : string;
  minSelect : Z;
  maxSelect : Z;
  options : list ModifierOption
}.

Record MenuItem := {
  mi_id : string;
  mi_name : string;
  basePrice : Qc;
  modifierGroups : list ModifierGroup
}.

Record SelectedGroup := {
  groupId : string;
  groupName : string;
  sg_options : list ModifierOption
}.

Record SelectedItem := {
  itemId : string;
  si_name : string;
  si_basePrice : Qc;
  selectedModifiers : list SelectedGroup
}.

Record Drop := {
  drop_id : string;
  drop_name : string;
  drop_image : string;
  start_date : Z;
  end_date : Z;
  price : Qc;
  tax_rate : option Qc;
  total_quantity : Z;
  quantity_remaining : Z;
  approval_status : DropApprovalStatus;
  menu_items : list MenuItem;
  delivery_fee : option Qc
}.

(** The component state [selections]:
    [Record<string, Record<string, ModifierOption[]>>]. *)
Abbreviation Selections := (gmap string (gmap string (list ModifierOption))).

(** ** Pricing Engine, [views/DropDetail.tsx] lines 73-92 *)

Module Pricing.

(** [opts.forEach(o => itemTotal += o.additionalPrice)] *)
Definition addOptions (itemTotal : Qc) (opts : list ModifierOption) : Qc :=
  fold_left (fun t o => (t + additionalPrice o)%Qc) opts itemTotal.

(** The body of the [forEach] over menu items, up to [total += itemTotal]:
    [Object.values(selections[item.id] || {})] are the option lists of every
    group recorded under the item. *)
Definition itemTotal (selections : Selections) (item : MenuItem) : Qc :=
  let itemSels := default ∅ (selections !! mi_id item) in
  fold_left addOptions (snd <$> map_to_list itemSels) (basePrice item).

Definition unitPrice (drop : Drop) (selections : Selections) : Qc :=
  let total :=
    fold_left (fun t item => (t + itemTotal selections item)%Qc)
              (menu_items drop) 0%Qc in
  if (Z.of_nat (length (menu_items drop)) =? 0) then price drop else total.

Section Totals.
Variables (drop : Drop) (selections : Selections) (qty : Z)
          (deliveryRequested : bool) (bookingFeePerPackage : Qc).

Definition calculatedSubtotal : Qc :=
  (unitPrice drop selections * Num.of_Z qty)%Qc.

Definition deliveryFee : Qc :=
  if deliveryRequested then Num.or_zero (delivery_fee drop) else 0%Qc.

Definition bookingFee : Qc := (bookingFeePerPackage * Num.of_Z qty)%Qc.

Definition taxRate : Qc := Num.or_zero (tax_rate drop).

Definition taxAmount : Qc :=
  ((calculatedSubtotal + deliveryFee + bookingFee) * taxRate)%Qc.

Definition orderTotal : Qc :=
  (calculatedSubtotal + deliveryFee + bookingFee + taxAmount)%Qc.
End Totals.

(** *** The contract of section 4.1, in the specification's words *)

(** The surcharges of the options selected for one item. *)
Definition spec_selectedSurcharges (selections : Selections) (item : MenuItem)
  : Qc :=
  Num.sum (additionalPrice <$>
             concat (snd <$> map_to_list (default ∅ (selections !! mi_id item)))).

(** Sum over all menu items of (base price + selected surcharges), or the
    flat price of a drop without menu items. *)
Definition spec_unitPrice (drop : Drop) (selections : Selections) : Qc :=
  match menu_items drop with
  | [] => price drop
  | items =>
      Num.sum ((fun item =>
                  (basePrice item + spec_selectedSurcharges selections item)%Qc)
                 <$> items)
  end.

End Pricing.

(** ** Modifier selection, [views/DropDetail.tsx] lines 45-71 and 94-105 *)

Module Selection.

(** [selections[itemId]?.[groupId] || []] *)
Definition groupSelections (selections : Selections) (itemId groupId : string)
  : list ModifierOption :=
  default [] ((selections !! itemId) ≫= (fun itemSels => itemSels !! groupId)).

(** The state update passed to [setSelections] by [toggleOption]. *)
Definition toggleOption (itemId groupId : string) (option : ModifierOption)
           (maxSelect : Z) (prev : Selections) : Selections :=
  let itemSels := default ∅ (prev !! itemId) in
  let groupSels := default [] (itemSels !! groupId) in
  let newGroupSels :=
    if existsb (fun o => bool_decide (mo_id o = mo_id option)) groupSels then
      filter (fun o => mo_id o ≠ mo_id option) groupSels
    else if maxSelect =? 1 then [option]
    else if Z.of_nat (length groupSels) <? maxSelect then groupSels ++ [option]
    else groupSels in
  <[itemId := <[groupId := newGroupSels]> itemSels]> prev.

Definition quote : string := String (Ascii.ascii_of_nat 34) EmptyString.

(** The text of the alert raised for a group that lacks selections. *)
Definition alertMessage (item : MenuItem) (group : ModifierGroup) : string :=
  "Please select at least " +:+ pretty (minSelect group)
    +:+ " option(s) for " +:+ quote +:+ mg_name group +:+ quote
    +:+ " in " +:+ quote +:+ mi_name item +:+ quote +:+ ".".

(** The inner loop of [validateSelections]; [Some msg] when the loop
    alerts [msg] and returns false. *)
Fixpoint validateGroups (selections : Selections) (item : MenuItem)
         (groups : list ModifierGroup) : option string :=
  match groups with
  | [] => None
  | group :: rest =>
      let currentSelections :=
        groupSelections selections (mi_id item) (mg_id group) in
      if (0 <? minSelect group)
         && (Z.of_nat (length currentSelections) <? minSelect group)
      then Some (alertMessage item group)
      else validateGroups selections item rest
  end.

(** The outer loop. *)
Fixpoint validateItems (selections : Selections) (items : list MenuItem)
  : option string :=
  match items with
  | [] => None
  | item :: rest =>
      match validateGroups selections item (modifierGroups item) with
      | Some msg => Some msg
      | None => validateItems selections rest
      end
  end.

(** [validateSelections]: [None] stands for the result [true]; [Some msg]
    for the alert [msg] followed by the result [false]. *)
Definition validateSelections (drop : Drop) (selections : Selections)
  : option string :=
  validateItems selections (menu_items drop).

(** [finalSelections] of [handleConfirmCheckout]. *)
Definition finalSelections (drop : Drop) (selections : Selections)
  : list SelectedItem :=
  (fun item =>
     {| itemId := mi_id item;
        si_name := mi_name item;
        si_basePrice := basePrice item;
        selectedModifiers :=
          (fun group =>
             {| groupId := mg_id group;
                groupName := mg_name group;
                sg_options :=
                  groupSelections selections (mi_id item) (mg_id group) |})
            <$> modifierGroups item |})
    <$> menu_items drop.

(** A group that requires more options than are selected for it. *)
Definition lacking (selections : Selections) (item : MenuItem)
           (group : ModifierGroup) : Prop :=
  0 < minSelect group
  ∧ Z.of_nat (length (groupSelections selections (mi_id item) (mg_id group)))
    < minSelect group.

(** The number of options selected in a group. *)
Definition selected (selections : Selections) (itemId groupId : string) : Z :=
  Z.of_nat (length (groupSelections selections itemId groupId)).


End Selection.

(** ** Persistence: the tables [drops] and [purchases] *)

Record PurchaseRow := {
  purchase_id : string;
  user_id : option string;
  customer_name : string;
  customer_email : string;
  quantity : Z;
  total_paid : Qc;
  payment_status : PaymentStatus;
  stripe_checkout_session_id : option string;
  stripe_payment_intent_id : option string;
  paid_at : option Z;
  delivery_requested : bool;
  delivery_address : option string;
  selected_items : list SelectedItem;
  p_drop_id : string;
  p_drop_name : string;
  p_drop_image : string;
  order_notes : option string;
  is_bulk : bool
}.

Record Database := {
  drops : list Drop;
  purchases : list PurchaseRow
}.

Module Db.

(** [UPDATE t SET ... WHERE cond]: every row that meets the condition is
    replaced. *)
Definition update {A} (cond : A → bool) (set : A → A) (table : list A)
  : list A :=
  (fun row => if cond row then set row else row) <$> table.

(** [select ... .eq('id', id).single()]: an error unless exactly one row
    matches. *)
Definition single_purchase (id : string) (table : list PurchaseRow)
  : option PurchaseRow :=
  match filter (fun row => purchase_id row = id) table with
  | [row] => Some row
  | _ => None
  end.

Definition find_drop (id : string) (table : list Drop) : option Drop :=
  List.find (fun d => bool_decide (drop_id d = id)) table.

End Db.

(** ** Inventory Reservation Core *)

Module Reservation.

Inductive RpcError :=
| DropNotApproved
| DropNotLive
| InsufficientInventory
| PersistenceError.

Record RpcParams := {
  rp_drop_id : string;
  rp_user_id : option string;
  rp_customer_name : string;
  rp_customer_email : string;
  rp_quantity : Z;
  rp_total_paid : Qc;
  rp_delivery_requested : bool;
  rp_delivery_address : option string;
  rp_selected_items : list SelectedItem;
  rp_drop_name : string;
  rp_drop_image : string;
  rp_order_notes : option string;
  rp_is_bulk : bool
}.

Definition set_remaining (d : Drop) (r : Z) : Drop :=
  {| drop_id := drop_id d; drop_name := drop_name d;
     drop_image := drop_image d; start_date := start_date d;
     end_date := end_date d; price := price d; tax_rate := tax_rate d;
     total_quantity := total_quantity d; quantity_remaining := r;
     approval_status := approval_status d; menu_items := menu_items d;
     delivery_fee := delivery_fee d |}.

Definition new_order (new_id : string) (p : RpcParams) : PurchaseRow :=
  {| purchase_id := new_id; user_id := rp_user_id p;
     customer_name := rp_customer_name p;
     customer_email := rp_customer_email p;
     quantity := rp_quantity p; total_paid := rp_total_paid p;
     payment_status := pending;
     stripe_checkout_session_id := None;
     stripe_payment_intent_id := None; paid_at := None;
     delivery_requested := rp_delivery_requested p;
     delivery_address := rp_delivery_address p;
     selected_items := rp_selected_items p;
     p_drop_id := rp_drop_id p; p_drop_name := rp_drop_name p;
     p_drop_image := rp_drop_image p; order_notes := rp_order_notes p;
     is_bulk := rp_is_bulk p |}.

(** Modelled from the spec: the stored procedure [purchase_drop_item] of
    [supabase_schema.sql], which [savePurchase] calls and which is not among
    the sources.  After section 4.3: as one atomic unit, (1) verify that the
    drop is approved, within its live window, and that remaining >= quantity;
    (2) decrement remaining by quantity; (3) insert an order row with status
    pending and the total it is given.  A drop that does not exist is a
    persistence error.  [now] is the clock of the transaction and [new_id]
    the identifier the database generates for the order. *)
Definition purchase_drop_item (now : Z) (new_id : string) (p : RpcParams)
           (db : Database) : Database * (RpcError + string) :=
  match Db.find_drop (rp_drop_id p) (drops db) with
  | None => (db, inl PersistenceError)
  | Some d =>
      if negb (bool_decide (approval_status d = APPROVED)) then
        (db, inl DropNotApproved)
      else if negb ((start_date d <=? now) && (now <=? end_date d)) then
        (db, inl DropNotLive)
      else if negb (rp_quantity p <=? quantity_remaining d) then
        (db, inl InsufficientInventory)
      else
        ({| drops :=
              Db.update (fun row => bool_decide (drop_id row = rp_drop_id p))
                        (fun row => set_remaining row
                                      (quantity_remaining row - rp_quantity p))
                        (drops db);
            purchases := purchases db ++ [new_order new_id p] |},
         inr new_id)
  end.

(** *** [savePurchase], [services/api.ts] lines 256-308 *)

Record Payload := {
  pl_userId : option string;
  pl_quantity : Z;
  pl_customerName : string;
  pl_customerEmail : string;
  pl_deliveryRequested : bool;
  pl_selectedItems : option (list SelectedItem);
  pl_deliveryAddress : option string;
  pl_orderNotes : option string;
  pl_isBulk : bool
}.

Inductive Thrown :=
| NotApprovedForBooking
| PurchaseFailed (e : RpcError)
| FetchError.

(** The nested [forEach] that accumulates [modifiersCost]. *)
Definition modifiersCost (items : list SelectedItem) : Qc :=
  fold_left
    (fun cost item =>
       fold_left
         (fun cost group =>
            fold_left (fun cost opt => (cost + additionalPrice opt)%Qc)
                      (sg_options group) cost)
         (selectedModifiers item) cost)
    items 0%Qc.

(** The value of [total] that is sent as [p_total_paid]. *)
Definition savePurchase_total (drop : Drop) (payload : Payload) : Qc :=
  let total := (price drop * Num.of_Z (pl_quantity payload))%Qc in
  let total :=
    if pl_deliveryRequested payload
    then (total + Num.or_zero (delivery_fee drop))%Qc else total in
  match pl_selectedItems payload with
  | Some items =>
      (total + modifiersCost items * Num.of_Z (pl_quantity payload))%Qc
  | None => total
  end.

Definition rpcParams (drop : Drop) (payload : Payload) : RpcParams :=
  {| rp_drop_id := drop_id drop;
     rp_user_id := Num.or_else (pl_userId payload) None;
     rp_customer_name := pl_customerName payload;
     rp_customer_email := pl_customerEmail payload;
     rp_quantity := pl_quantity payload;
     rp_total_paid := savePurchase_total drop payload;
     rp_delivery_requested := pl_deliveryRequested payload;
     rp_delivery_address := Num.or_else (pl_deliveryAddress payload) None;
     rp_selected_items := default [] (pl_selectedItems payload);
     rp_drop_name := drop_name drop;
     rp_drop_image := drop_image drop;
     rp_order_notes := Num.or_else (pl_orderNotes payload) None;
     rp_is_bulk := pl_isBulk payload |}.

(** [drop] is the caller's copy of the drop; the stored procedure reads the
    row of the same id. *)
Definition savePurchase (now : Z) (new_id : string) (drop : Drop)
           (payload : Payload) (db : Database)
  : Database * (Thrown + PurchaseRow) :=
  if negb (bool_decide (approval_status drop = APPROVED)) then
    (db, inl NotApprovedForBooking)
  else
    match purchase_drop_item now new_id (rpcParams drop payload) db with
    | (db', inl e) => (db', inl (PurchaseFailed e))
    | (db', inr id) =>
        match Db.single_purchase id (purchases db') with
        | Some row => (db', inr row)
        | None => (db', inl FetchError)
        end
    end.

End Reservation.

(** ** The edge functions' surroundings *)

(** [Deno.env]: the function secrets. *)
Record Env := {
  SUPABASE_URL : option string;
  SUPABASE_SERVICE_ROLE_KEY : option string;
  STRIPE_SECRET_KEY : option string;
  STRIPE_WEBHOOK_SECRET : option string;
  SITE_URL : option string
}.

Module Http.

Inductive Body :=
| Text (s : string)
| Error (message : string)
| Checkout (url sessionId : string) (reused : bool)
| Received.

Record Response := { status : Z; body : Body }.

Definition jsonResponse (status : Z) (body : Body) : Response :=
  {| status := status; body := body |}.

(** A status of the 2xx class. *)
Definition is_2xx (r : Response) : bool :=
  (200 <=? status r) && (status r <? 300).

End Http.

(** Row updates issued by the edge functions. *)
Module Rows.

Definition set_payment (row : PurchaseRow) (st : PaymentStatus)
           (session intent : option string) (paidAt : option Z) : PurchaseRow :=
  {| purchase_id := purchase_id row; user_id := user_id row;
     customer_name := customer_name row;
     customer_email := customer_email row;
     quantity := quantity row; total_paid := total_paid row;
     payment_status := st;
     stripe_checkout_session_id := session;
     stripe_payment_intent_id := intent; paid_at := paidAt;
     delivery_requested := delivery_requested row;
     delivery_address := delivery_address row;
     selected_items := selected_items row;
     p_drop_id := p_drop_id row; p_drop_name := p_drop_name row;
     p_drop_image := p_drop_image row; order_notes := order_notes row;
     is_bulk := is_bulk row |}.

(** [{ stripe_checkout_session_id: session.id, payment_status: 'pending' }] *)
Definition store_session (sessionId : string) (row : PurchaseRow) :=
  set_payment row pending (Some sessionId)
              (stripe_payment_intent_id row) (paid_at row).

(** [{ payment_status: 'paid', stripe_checkout_session_id,
       stripe_payment_intent_id, paid_at }] *)
Definition mark_paid (sessionId : string) (intent : option string) (now : Z)
           (row : PurchaseRow) :=
  set_payment row paid (Some sessionId) intent (Some now).

(** [{ payment_status: 'failed', stripe_checkout_session_id }] *)
Definition mark_failed (sessionId : string) (row : PurchaseRow) :=
  set_payment row failed (Some sessionId)
              (stripe_payment_intent_id row) (paid_at row).

(** [{ payment_status: 'refunded' }] *)
Definition mark_refunded (row : PurchaseRow) :=
  set_payment row refunded (stripe_checkout_session_id row)
              (stripe_payment_intent_id row) (paid_at row).

End Rows.

(** ** Checkout Session Gateway,
       [supabase/functions/create-checkout-session/index.ts] *)

Module Gateway.

Inductive SessionStatus := open | complete | expired.

#[global] Instance SessionStatus_eq_dec : EqDecision SessionStatus.
Proof. solve_decision. Defined.

(** A checkout session held by the payment provider. *)
Record CheckoutSession := {
  cs_id : string;
  cs_status : SessionStatus;
  cs_url : option string;
  cs_customer_email : string;
  cs_success_url : string;
  cs_cancel_url : string;
  cs_unit_amount : Z;
  cs_product_name : string;
  cs_description : string;
  cs_purchase_id : string;
  cs_drop_id : string
}.

(** The provider's sessions, by identifier. *)
Abbreviation Stripe := (gmap string CheckoutSession).

Record JsonBody := {
  purchaseId : option string;
  returnUrl : option string
}.

(** [json = None]: the body is not JSON. *)
Record Request := {
  method : string;
  origin : option string;
  json : option JsonBody
}.

(** What the call cannot decide itself: the identifier and URL the provider
    gives a new session, and whether the UPDATE of the order succeeds. *)
Record Oracle := {
  fresh_id : string;
  fresh_url : option string;
  update_ok : bool
}.

(** [stripe.checkout.sessions.create]: the new session is open. *)
Definition create (o : Oracle) (siteUrl : string) (amountInCents : Z)
           (purchase : PurchaseRow) : CheckoutSession :=
  {| cs_id := fresh_id o;
     cs_status := open;
     cs_url := fresh_url o;
     cs_customer_email := customer_email purchase;
     cs_success_url := siteUrl +:+ "/#/profile";
     cs_cancel_url := siteUrl +:+ "/#/profile";
     cs_unit_amount := amountInCents;
     cs_product_name :=
       if Num.truthy (Some (p_drop_name purchase))
       then p_drop_name purchase else "FoodieDrops order";
     cs_description :=
       "Order #" +:+ purchase_id purchase +:+ " · Qty "
         +:+ pretty (quantity purchase);
     cs_purchase_id := purchase_id purchase;
     cs_drop_id := p_drop_id purchase |}.

(** The reuse test of lines 557-566: the stored session is retrieved, and
    is taken when it is open and has a URL. A failed retrieval is ignored. *)
Definition reusable (stripe : Stripe) (purchase : PurchaseRow)
  : option CheckoutSession :=
  match stripe_checkout_session_id purchase with
  | Some sid =>
      if Num.truthy (Some sid) then
        match stripe !! sid with
        | Some existing =>
            if bool_decide (cs_status existing = open)
               && Num.truthy (cs_url existing)
            then Some existing else None
        | None => None
        end
      else None
  | None => None
  end.

(** The request passes the checks made before the order is read: it is a
    POST, the secrets are set, the body is JSON and names an order. *)
Definition well_formed (env : Env) (req : Request) (body : JsonBody) : Prop :=
  method req = "POST"
  ∧ Num.truthy (SUPABASE_URL env) = true
  ∧ Num.truthy (SUPABASE_SERVICE_ROLE_KEY env) = true
  ∧ Num.truthy (STRIPE_SECRET_KEY env) = true
  ∧ json req = Some body
  ∧ Num.truthy (purchaseId body) = true.

Definition handler (env : Env) (o : Oracle) (req : Request)
           (db : Database) (stripe : Stripe)
  : Database * Stripe * Http.Response :=
  if bool_decide (method req = "OPTIONS") then
    (db, stripe, Http.jsonResponse 200 (Http.Text "ok"))
  else if negb (bool_decide (method req = "POST")) then
    (db, stripe, Http.jsonResponse 405 (Http.Error "Method not allowed"))
  else if negb (Num.truthy (SUPABASE_URL env)
                && Num.truthy (SUPABASE_SERVICE_ROLE_KEY env)
                && Num.truthy (STRIPE_SECRET_KEY env)) then
    (db, stripe,
     Http.jsonResponse 500 (Http.Error "Missing required function secrets."))
  else
    match json req with
    | None =>
        (db, stripe, Http.jsonResponse 400 (Http.Error "Invalid JSON body."))
    | Some body =>
        if negb (Num.truthy (purchaseId body)) then
          (db, stripe,
           Http.jsonResponse 400 (Http.Error "purchaseId is required."))
        else
          let siteUrl :=
            default "http://localhost:5173"
              (Num.or_else (returnUrl body)
                 (Num.or_else (origin req) (SITE_URL env))) in
          match Db.single_purchase (default EmptyString (purchaseId body))
                                   (purchases db) with
          | None =>
              (db, stripe,
               Http.jsonResponse 404 (Http.Error "Purchase not found."))
          | Some purchase =>
              if bool_decide (payment_status purchase = paid) then
                (db, stripe,
                 Http.jsonResponse 400 (Http.Error "Purchase is already paid."))
              else if bool_decide (payment_status purchase = refunded) then
                (db, stripe,
                 Http.jsonResponse 400
                   (Http.Error
                      "Purchase has been refunded and cannot be repaid."))
              else
                match reusable stripe purchase with
                | Some existing =>
                    (db, stripe,
                     Http.jsonResponse 200
                       (Http.Checkout (default EmptyString (cs_url existing))
                                      (cs_id existing) true))
                | None =>
                    let amountInCents :=
                      Num.Math_round (total_paid purchase * Num.of_Z 100)%Qc in
                    if amountInCents <=? 0 then
                      (db, stripe,
                       Http.jsonResponse 400
                         (Http.Error "Invalid purchase amount."))
                    else
                      let session :=
                        create o siteUrl amountInCents purchase in
                      let stripe' := <[cs_id session := session]> stripe in
                      if negb (update_ok o) then
                        (db, stripe',
                         Http.jsonResponse 500
                           (Http.Error "Failed to store checkout session."))
                      else
                        let db' :=
                          {| drops := drops db;
                             purchases :=
                               Db.update
                                 (fun row =>
                                    bool_decide
                                      (purchase_id row = purchase_id purchase))
                                 (Rows.store_session (cs_id session))
                                 (purchases db) |} in
                        if negb (Num.truthy (cs_url session)) then
                          (db', stripe',
                           Http.jsonResponse 500
                             (Http.Error
                                "Stripe did not return a checkout URL."))
                        else
                          (db', stripe',
                           Http.jsonResponse 200
                             (Http.Checkout
                                (default EmptyString (cs_url session))
                                (cs_id session) false))
                end
          end
    end.

End Gateway.

(** ** Payment Reconciliation Listener,
       [supabase/functions/stripe-webhook/index.ts] *)

Module Webhook.

(** [event.data.object], read as a checkout session or as a charge: its
    [id], [metadata.purchase_id], and [payment_intent] when that is a
    string. *)
Record EventObject := {
  obj_id : string;
  metadata_purchase_id : option string;
  payment_intent : option string
}.

Record Event := {
  ev_type : string;
  ev_object : EventObject
}.

Record Request := {
  method : string;
  stripe_signature : option string;
  body : string
}.

(** The [try] block runs updates against the database until one raises:
    the database so far, and whether the block completed. *)
Definition Try := Database → Database * bool.

Definition andThen (a b : Try) : Try :=
  fun db => match a db with
            | (db', true) => b db'
            | (db', false) => (db', false)
            end.

Definition skip : Try := fun db => (db, true).

(** [await supabase.from('purchases').update(set) ... cond]; the client
    raises when [db_throws]. *)
Definition update_purchases (db_throws : bool) (cond : PurchaseRow → bool)
           (set : PurchaseRow → PurchaseRow) : Try :=
  fun db =>
    if db_throws then (db, false)
    else ({| drops := drops db;
             purchases := Db.update cond set (purchases db) |}, true).

Section Handler.
(** [stripe.webhooks.constructEventAsync(body, signature, secret)]: the
    verified event, or the message of the error it raises. *)
Variable constructEventAsync : string → string → string → string + Event.
Variables (env : Env) (now : Z) (db_throws : bool).

Definition on_completed (event : Event) : Try :=
  if bool_decide (ev_type event = "checkout.session.completed") then
    let session := ev_object event in
    let purchaseId := metadata_purchase_id session in
    if Num.truthy purchaseId then
      update_purchases db_throws
        (fun row => bool_decide (Some (purchase_id row) = purchaseId))
        (Rows.mark_paid (obj_id session) (payment_intent session) now)
    else skip
  else skip.

Definition on_failed (event : Event) : Try :=
  if bool_decide (ev_type event = "checkout.session.async_payment_failed")
     || bool_decide (ev_type event = "checkout.session.expired") then
    let session := ev_object event in
    let purchaseId := metadata_purchase_id session in
    if Num.truthy purchaseId then
      update_purchases db_throws
        (fun row => bool_decide (Some (purchase_id row) = purchaseId)
                    && negb (bool_decide (payment_status row = paid)))
        (Rows.mark_failed (obj_id session))
    else skip
  else skip.

Definition on_refunded (event : Event) : Try :=
  if bool_decide (ev_type event = "charge.refunded") then
    let charge := ev_object event in
    let paymentIntentId := payment_intent charge in
    if Num.truthy paymentIntentId then
      update_purchases db_throws
        (fun row =>
           bool_decide (stripe_payment_intent_id row = paymentIntentId))
        Rows.mark_refunded
    else skip
  else skip.

(** The [try] block of lines 50-95. *)
Definition process (event : Event) : Try :=
  andThen (on_completed event) (andThen (on_failed event) (on_refunded event)).

Definition handler (req : Request) (db : Database)
  : Database * Http.Response :=
  if bool_decide (method req = "OPTIONS") then
    (db, Http.jsonResponse 200 (Http.Text "ok"))
  else if negb (bool_decide (method req = "POST")) then
    (db, Http.jsonResponse 405 (Http.Error "Method not allowed"))
  else if negb (Num.truthy (SUPABASE_URL env)
                && Num.truthy (SUPABASE_SERVICE_ROLE_KEY env)
                && Num.truthy (STRIPE_SECRET_KEY env)
                && Num.truthy (STRIPE_WEBHOOK_SECRET env)) then
    (db, Http.jsonResponse 500
           (Http.Error "Missing required function secrets."))
  else if negb (Num.truthy (stripe_signature req)) then
    (db, Http.jsonResponse 400
           (Http.Error "Missing stripe-signature header."))
  else
    match constructEventAsync (body req)
            (default EmptyString (stripe_signature req))
            (default EmptyString (STRIPE_WEBHOOK_SECRET env)) with
    | inl message => (db, Http.jsonResponse 400 (Http.Error message))
    | inr event =>
        match process event db with
        | (db', true) => (db', Http.jsonResponse 200 Http.Received)
        | (db', false) =>
            (db', Http.jsonResponse 500
                    (Http.Error "Webhook processing failed."))
        end
    end.
(** The request passes every check before the [try] block and carries the
    verified [event]. *)
Definition accepted (req : Request) (event : Event) : Prop :=
  method req = "POST"
  ∧ Num.truthy (SUPABASE_URL env) = true
  ∧ Num.truthy (SUPABASE_SERVICE_ROLE_KEY env) = true
  ∧ Num.truthy (STRIPE_SECRET_KEY env) = true
  ∧ Num.truthy (STRIPE_WEBHOOK_SECRET env) = true
  ∧ Num.truthy (stripe_signature req) = true
  ∧ constructEventAsync (body req)
      (default EmptyString (stripe_signature req))
      (default EmptyString (STRIPE_WEBHOOK_SECRET env)) = inr event.

(** The signature header is missing, or the provider's check of it against
    the raw body fails. *)
Definition unsigned (req : Request) : Prop :=
  Num.truthy (stripe_signature req) = false
  ∨ ∃ message,
      constructEventAsync (body req)
        (default EmptyString (stripe_signature req))
        (default EmptyString (STRIPE_WEBHOOK_SECRET env)) = inl message.
End Handler.

(** The rows a session event is about. *)
Definition targets (event : Event) (row : PurchaseRow) : bool :=
  bool_decide (Some (purchase_id row) = metadata_purchase_id (ev_object event)).

End Webhook.

(** ** The order flow of the client: [App.tsx] and [views/DropDetail.tsx] *)

Module Client.

(** What the surroundings contribute to one order attempt. *)
Record Ambient := {
  env : Env;
  now : Z;
  new_id : string;
  oracle : Gateway.Oracle;
  location_origin : string
}.

Record World := {
  db : Database;
  stripe : Gateway.Stripe
}.

Inductive Failure :=
| PackageNotFound
| SaveFailed (e : Reservation.Thrown)
| CheckoutSessionFailed
| CheckoutUrlMissing.

(** [api.createCheckoutSession]: invokes the gateway function; a response
    outside 2xx is an error, and so is a body without [url]. *)
Definition createCheckoutSession (a : Ambient) (purchaseId : string)
           (returnUrl : string) (w : World) : World * (Failure + string) :=
  let req := {| Gateway.method := "POST";
                Gateway.origin := Some (location_origin a);
                Gateway.json :=
                  Some {| Gateway.purchaseId := Some purchaseId;
                          Gateway.returnUrl := Some returnUrl |} |} in
  match Gateway.handler (env a) (oracle a) req (db w) (stripe w) with
  | (db', stripe', resp) =>
      let w' := {| db := db'; stripe := stripe' |} in
      if negb (Http.is_2xx resp) then (w', inl CheckoutSessionFailed)
      else match Http.body resp with
           | Http.Checkout url _ _ =>
               if Num.truthy (Some url) then (w', inr url)
               else (w', inl CheckoutUrlMissing)
           | _ => (w', inl CheckoutUrlMissing)
           end
  end.

(** [handlePurchaseConfirm] of [App.tsx]; [clientDrops] is the component's
    list of drops. *)
Definition handlePurchaseConfirm (a : Ambient) (clientDrops : list Drop)
           (id : string) (qty : Z) (name email : string)
           (deliveryRequested : bool) (selections : list SelectedItem)
           (deliveryAddress orderNotes : option string) (isBulk : bool)
           (userId : option string) (w : World)
  : World * (Failure + string) :=
  match Db.find_drop id clientDrops with
  | None => (w, inl PackageNotFound)
  | Some drop =>
      let payload :=
        {| Reservation.pl_userId := userId;
           Reservation.pl_quantity := qty;
           Reservation.pl_customerName := name;
           Reservation.pl_customerEmail := email;
           Reservation.pl_deliveryRequested := deliveryRequested;
           Reservation.pl_selectedItems := Some selections;
           Reservation.pl_deliveryAddress := deliveryAddress;
           Reservation.pl_orderNotes := orderNotes;
           Reservation.pl_isBulk := isBulk |} in
      match Reservation.savePurchase (now a) (new_id a) drop payload (db w) with
      | (db', inl e) => ({| db := db'; stripe := stripe w |}, inl (SaveFailed e))
      | (db', inr purchase) =>
          createCheckoutSession a (purchase_id purchase) (location_origin a)
                                {| db := db'; stripe := stripe w |}
      end
  end.

Record User := {
  u_id : string;
  u_name : string;
  u_email : string
}.

(** The props and state of [DropDetail] that an order attempt reads. *)
Record DropDetail := {
  drop : Drop;
  user : option User;
  clientDrops : list Drop;
  qty : Z;
  deliveryRequested : bool;
  selections : Selections
}.

(** [handleConfirmCheckout] *)
Definition handleConfirmCheckout (a : Ambient) (ui : DropDetail)
           (name email : string) (deliveryAddress : option string)
           (w : World) : World * (Failure + string) :=
  handlePurchaseConfirm a (clientDrops ui) (drop_id (drop ui)) (qty ui)
    name email (deliveryRequested ui)
    (Selection.finalSelections (drop ui) (selections ui))
    deliveryAddress None false (u_id <$> user ui) w.

(** What the click on Reserve and Pay leads to. *)
Inductive Outcome :=
| Alerted (message : string)
| QtyError (message : string)
| Redirected (url : string)
| CheckoutFailed (f : Failure)
| CheckoutOpened.

(** [handlePurchaseClick] *)
Definition handlePurchaseClick (a : Ambient) (ui : DropDetail) (w : World)
  : World * Outcome :=
  match Selection.validateSelections (drop ui) (selections ui) with
  | Some message => (w, Alerted message)
  | None =>
      if qty ui <? 1 then (w, QtyError "Quantity must be at least 1.")
      else if quantity_remaining (drop ui) <? qty ui then
        (w, QtyError ("Only " +:+ pretty (quantity_remaining (drop ui))
                        +:+ " left in stock."))
      else
        match user ui with
        | Some u =>
            if negb (deliveryRequested ui) then
              match handleConfirmCheckout a ui (u_name u) (u_email u) None w with
              | (w', inr url) => (w', Redirected url)
              | (w', inl f) => (w', CheckoutFailed f)
              end
            else (w, CheckoutOpened)
        | None => (w, CheckoutOpened)
        end
  end.

End Client.

(** ** Reservation attempts that settle one after another

    The stored procedure is one atomic unit, so any concurrent execution of
    reservation attempts is equivalent to running them in some order; the
    list of attempts stands for that order, and every order is covered by
    quantifying over lists. *)

Module Attempts.
Import Reservation.

(** One call of [savePurchase]: the clock and the identifier the database
    will generate, the caller's copy of the drop, and the payload. *)
Record Attempt := {
  at_now : Z;
  at_new_id : string;
  at_drop : Drop;
  at_payload : Payload
}.

(** A settled attempt: the row of the drop as the attempt found it, and
    what [savePurchase] returned or raised. *)
Record Settled := {
  s_attempt : Attempt;
  s_before : option Drop;
  s_result : Thrown + PurchaseRow
}.

Fixpoint settle (attempts : list Attempt) (db : Database)
  : Database * list Settled :=
  match attempts with
  | [] => (db, [])
  | a :: rest =>
      let r := savePurchase (at_now a) (at_new_id a) (at_drop a)
                            (at_payload a) db in
      let rs := settle rest r.1 in
      (rs.1,
       {| s_attempt := a;
          s_before := Db.find_drop (drop_id (at_drop a)) (drops db);
          s_result := r.2 |} :: rs.2)
  end.

(** The attempt reserved stock and created its order row.  [FetchError] is
    raised after the stored procedure has succeeded, when reading the new
    row back fails. *)
Definition reserved_result (r : Thrown + PurchaseRow) : bool :=
  match r with
  | inr _ | inl FetchError => true
  | inl _ => false
  end.

Definition reserved (s : Settled) : bool := reserved_result (s_result s).

Definition requested (s : Settled) : Z := pl_quantity (at_payload (s_attempt s)).

(** The sum of the quantities of the successful attempts. *)
Definition sold (settled : list Settled) : Z :=
  foldr Z.add 0 (requested <$> filter (fun s => reserved s = true) settled).

(** The order rows of the successful attempts. *)
Definition orders (settled : list Settled) : list PurchaseRow :=
  (fun s => new_order (at_new_id (s_attempt s))
              (rpcParams (at_drop (s_attempt s)) (at_payload (s_attempt s))))
    <$> filter (fun s => reserved s = true) settled.

Definition remaining (id : string) (db : Database) : option Z :=
  quantity_remaining <$> Db.find_drop id (drops db).

(** The drop is purchasable at the clock reading [now]. *)
Definition live (d : Drop) (now : Z) : Prop :=
  start_date d ≤ now ∧ now ≤ end_date d.

(** An attempt against the drop [id], for at least one package. *)
Definition against (id : string) (a : Attempt) : Prop :=
  drop_id (at_drop a) = id ∧ 1 ≤ pl_quantity (at_payload a).

(** The attempt met a row of the drop; if it reserved, the stock it found
    covered its quantity; and if the stock did not cover it while the drop was
    approved and live, it failed with [InsufficientInventory]. *)
Definition no_oversell (s : Settled) : Prop :=
  ∃ d, s_before s = Some d
       ∧ (reserved s = true → requested s ≤ quantity_remaining d)
       ∧ (quantity_remaining d < requested s →
          approval_status (at_drop (s_attempt s)) = APPROVED →
          approval_status d = APPROVED →
          live d (at_now (s_attempt s)) →
          s_result s = inl (PurchaseFailed InsufficientInventory)).

End Attempts.

(** ** The life of an order's payment status *)

Module Lifecycle.

(** What can touch an order after it is created: a provider notification
    delivered to the webhook, or a call of the checkout session gateway. *)
Inductive Action :=
| Notify (env : Env) (now : Z) (db_throws : bool) (req : Webhook.Request)
| Checkout (env : Env) (o : Gateway.Oracle) (req : Gateway.Request).

Section Steps.
Variable constructEventAsync : string → string → string → string + Webhook.Event.

Definition step (w : Client.World) (a : Action) : Client.World :=
  match a with
  | Notify env now db_throws req =>
      {| Client.db :=
           (Webhook.handler constructEventAsync env now db_throws req
                            (Client.db w)).1;
         Client.stripe := Client.stripe w |}
  | Checkout env o req =>
      let r := Gateway.handler env o req (Client.db w) (Client.stripe w) in
      {| Client.db := r.1.1; Client.stripe := r.1.2 |}
  end.

(** The worlds passed through, one per action. *)
Fixpoint trace (w : Client.World) (actions : list Action) : list Client.World :=
  match actions with
  | [] => []
  | a :: rest => step w a :: trace (step w a) rest
  end.
End Steps.

(** The transitions of section 3: pending to paid or failed, paid to
    refunded; a status may also stay as it is. *)
Definition spec_transition (old new : PaymentStatus) : bool :=
  match old, new with
  | pending, (pending | paid | failed) => true
  | paid, (paid | refunded) => true
  | failed, failed => true
  | refunded, refunded => true
  | _, _ => false
  end.

(** The transitions the two functions make: those of section 3; a failed
    order is reopened by the gateway or paid after all; a pending or failed
    order with a recorded payment intent is refunded. No constraint is put on
    an order that is already refunded. *)
Definition code_transition (row row' : PurchaseRow) : bool :=
  match payment_status row, payment_status row' with
  | pending, (pending | paid | failed) => true
  | paid, (paid | refunded) => true
  | failed, (failed | pending | paid) => true
  | (pending | failed), refunded =>
      Num.truthy (stripe_payment_intent_id row)
  | refunded, _ => true
  | paid, (pending | failed) => false
  end.

(** Row by row, the same orders, each changed as [allowed] permits. *)
Definition evolves (allowed : PurchaseRow → PurchaseRow → bool)
           (before after : list PurchaseRow) : Prop :=
  Forall2 (fun row row' => purchase_id row' = purchase_id row
                           ∧ allowed row row' = true)
          before after.

End Lifecycle.

(** ** Sample data *)

Module Examples.

Definition money (z : Z) : Qc := Num.of_Z z.

(** A drop without menu items: flat price 10, no tax, no delivery fee. *)
Definition flatDrop : Drop :=
  {| drop_id := "d1"; drop_name := "Smash Box"; drop_image := "img";
     start_date := 0; end_date := 100; price := money 10;
     tax_rate := None; total_quantity := 1; quantity_remaining := 1;
     approval_status := APPROVED; menu_items := [];
     delivery_fee := None |}.

Definition flatPayload : Reservation.Payload :=
  {| Reservation.pl_userId := None;
     Reservation.pl_quantity := 1;
     Reservation.pl_customerName := "Ana";
     Reservation.pl_customerEmail := "ana@example.com";
     Reservation.pl_deliveryRequested := false;
     Reservation.pl_selectedItems :=
       Some (Selection.finalSelections flatDrop ∅);
     Reservation.pl_deliveryAddress := None;
     Reservation.pl_orderNotes := None;
     Reservation.pl_isBulk := false |}.

Definition flatDb : Database := {| drops := [flatDrop]; purchases := [] |}.

(** Two reservation requests for the last package. *)
Definition lastUnit : list Attempts.Attempt :=
  [ {| Attempts.at_now := 50; Attempts.at_new_id := "o1";
       Attempts.at_drop := flatDrop; Attempts.at_payload := flatPayload |};
    {| Attempts.at_now := 50; Attempts.at_new_id := "o2";
       Attempts.at_drop := flatDrop; Attempts.at_payload := flatPayload |} ].

Definition ketchup : ModifierOption :=
  {| mo_id := "k"; mo_name := "Ketchup"; additionalPrice := money 1 |}.
Definition mayo : ModifierOption :=
  {| mo_id := "m"; mo_name := "Mayo"; additionalPrice := money 2 |}.
Definition fries : ModifierOption :=
  {| mo_id := "f"; mo_name := "Fries"; additionalPrice := money 3 |}.

(** A one-item drop whose only group has the given bounds. *)
Definition burgerDrop (minSel maxSel : Z) : Drop :=
  {| drop_id := "d2"; drop_name := "Burger Box"; drop_image := "img";
     start_date := 0; end_date := 100; price := money 12;
     tax_rate := None; total_quantity := 5; quantity_remaining := 5;
     approval_status := APPROVED;
     menu_items :=
       [ {| mi_id := "i1"; mi_name := "Burger"; basePrice := money 12;
            modifierGroups :=
              [ {| mg_id := "g1"; mg_name := "Extras";
                   minSelect := minSel; maxSelect := maxSel;
                   options := [ketchup; mayo; fries] |} ] |} ];
     delivery_fee := None |}.

Definition burgerDb (minSel maxSel : Z) : Database :=
  {| drops := [burgerDrop minSel maxSel]; purchases := [] |}.

(** One pick, made under a cap of two. *)
Definition onePick : Selections :=
  Selection.toggleOption "i1" "g1" ketchup 2 ∅.

(** Two picks, made under a cap of two. *)
Definition twoPicks : Selections :=
  Selection.toggleOption "i1" "g1" mayo 2 onePick.

(** An order for one flat-priced package, in a given payment state. *)
Definition order (st : PaymentStatus) (session intent : option string)
           (paidAt : option Z) : PurchaseRow :=
  Rows.set_payment
    (Reservation.new_order "o1" (Reservation.rpcParams flatDrop flatPayload))
    st session intent paidAt.

(** The provider's session for that order. *)
Definition session (st : Gateway.SessionStatus) : Gateway.CheckoutSession :=
  {| Gateway.cs_id := "cs_1"; Gateway.cs_status := st;
     Gateway.cs_url := Some "https://pay/cs_1";
     Gateway.cs_customer_email := "ana@example.com";
     Gateway.cs_success_url := "https://app/#/profile";
     Gateway.cs_cancel_url := "https://app/#/profile";
     Gateway.cs_unit_amount := 1000;
     Gateway.cs_product_name := "Smash Box";
     Gateway.cs_description := "Order #o1";
     Gateway.cs_purchase_id := "o1";
     Gateway.cs_drop_id := "d1" |}.

Definition orderDb (row : PurchaseRow) : Database :=
  {| drops := [flatDrop]; purchases := [row] |}.

Definition checkoutBody : Gateway.JsonBody :=
  {| Gateway.purchaseId := Some "o1";
     Gateway.returnUrl := Some "https://app" |}.

Definition checkoutRequest : Gateway.Request :=
  {| Gateway.method := "POST"; Gateway.origin := Some "https://app";
     Gateway.json := Some checkoutBody |}.

Definition firstOracle : Gateway.Oracle :=
  {| Gateway.fresh_id := "cs_1";
     Gateway.fresh_url := Some "https://pay/cs_1";
     Gateway.update_ok := true |}.

Definition secondOracle : Gateway.Oracle :=
  {| Gateway.fresh_id := "cs_2";
     Gateway.fresh_url := Some "https://pay/cs_2";
     Gateway.update_ok := true |}.

(** A stand-in for the provider's library: the signature must be the
    secret followed by the body, and the body names the event. *)
Definition sessionEvent (type : string) : Webhook.Event :=
  {| Webhook.ev_type := type;
     Webhook.ev_object :=
       {| Webhook.obj_id := "cs_1";
          Webhook.metadata_purchase_id := Some "o1";
          Webhook.payment_intent := Some "pi_1" |} |}.

Definition chargeEvent : Webhook.Event :=
  {| Webhook.ev_type := "charge.refunded";
     Webhook.ev_object :=
       {| Webhook.obj_id := "ch_1";
          Webhook.metadata_purchase_id := None;
          Webhook.payment_intent := Some "pi_1" |} |}.

Definition verifier (body signature secret : string) : string + Webhook.Event :=
  if bool_decide (signature = secret +:+ body) then
    if bool_decide (body = "charge.refunded") then inr chargeEvent
    else inr (sessionEvent body)
  else inl "No signatures found matching the expected signature for payload.".

(** A correctly signed notification of the given event type. *)
Definition notification (type : string) : Webhook.Request :=
  {| Webhook.method := "POST";
     Webhook.stripe_signature := Some ("whsec" +:+ type);
     Webhook.body := type |}.

Definition forged : Webhook.Request :=
  {| Webhook.method := "POST";
     Webhook.stripe_signature := Some "guess";
     Webhook.body := "checkout.session.completed" |}.

Definition preflight : Webhook.Request :=
  {| Webhook.method := "OPTIONS";
     Webhook.stripe_signature := None;
     Webhook.body := EmptyString |}.

Definition secrets : Env :=
  {| SUPABASE_URL := Some "https://db";
     SUPABASE_SERVICE_ROLE_KEY := Some "role";
     STRIPE_SECRET_KEY := Some "sk";
     STRIPE_WEBHOOK_SECRET := Some "whsec";
     SITE_URL := None |}.

Definition ambient : Client.Ambient :=
  {| Client.env := secrets; Client.now := 50; Client.new_id := "o1";
     Client.oracle :=
       {| Gateway.fresh_id := "cs_1";
          Gateway.fresh_url := Some "https://pay/cs_1";
          Gateway.update_ok := true |};
     Client.location_origin := "https://app" |}.

Definition ana : Client.User :=
  {| Client.u_id := "u1"; Client.u_name := "Ana";
     Client.u_email := "ana@example.com" |}.

(** The detail page of the burger drop, as the signed-in customer sees it. *)
Definition page (minSel maxSel : Z) (sel : Selections) : Client.DropDetail :=
  {| Client.drop := burgerDrop minSel maxSel;
     Client.user := Some ana;
     Client.clientDrops := [burgerDrop minSel maxSel];
     Client.qty := 1;
     Client.deliveryRequested := false;
     Client.selections := sel |}.

Definition world (minSel maxSel : Z) : Client.World :=
  {| Client.db := burgerDb minSel maxSel; Client.stripe := ∅ |}.

End Examples.

From Stdlib Require Import Sorted.

(** ** Amounts in minor units *)

Module Money.

Definition half : Qc := Q2Qc (1 # 2).


End Money.

(** ** Kinds of provider events *)

Module Events.

Definition is_completed (e : Webhook.Event) : bool :=
  bool_decide (Webhook.ev_type e = "checkout.session.completed").

Definition is_failed (e : Webhook.Event) : bool :=
  bool_decide (Webhook.ev_type e = "checkout.session.async_payment_failed")
  || bool_decide (Webhook.ev_type e = "checkout.session.expired").

Definition is_refunded (e : Webhook.Event) : bool :=
  bool_decide (Webhook.ev_type e = "charge.refunded").

(** The event is of a type the listener handles and carries the field that
    locates orders: the purchase id in the metadata of a session event, the
    payment intent of a refunded charge. *)
Definition names_order (e : Webhook.Event) : bool :=
  ((is_completed e || is_failed e)
   && Num.truthy (Webhook.metadata_purchase_id (Webhook.ev_object e)))
  || (is_refunded e && Num.truthy (Webhook.payment_intent (Webhook.ev_object e))).

(** The rows a failed or expired session may mark: those of the purchase id
    that are not paid. *)
Definition failable (e : Webhook.Event) (row : PurchaseRow) : bool :=
  Webhook.targets e row && negb (bool_decide (payment_status row = paid)).

(** The rows a refunded charge marks: those with its payment intent. *)
Definition charged (e : Webhook.Event) (row : PurchaseRow) : bool :=
  bool_decide (stripe_payment_intent_id row
               = Webhook.payment_intent (Webhook.ev_object e)).

(** [row'] is [row] up to the four payment fields. *)
Definition same_order (row row' : PurchaseRow) : Prop :=
  row' = Rows.set_payment row (payment_status row')
           (stripe_checkout_session_id row') (stripe_payment_intent_id row')
           (paid_at row').

End Events.

(** ** Selections keyed by the groups of their item *)

Module Keys.




(** No price, fee or rate of the drop is negative. *)
Definition nonnegative (drop : Drop) : Prop :=
  (0 <= price drop)%Qc
  ∧ (0 <= Num.or_zero (delivery_fee drop))%Qc
  ∧ (0 <= Num.or_zero (tax_rate drop))%Qc
  ∧ Forall (fun item => (0 <= basePrice item)%Qc) (menu_items drop).

(** Every selected option carries a surcharge that is not negative. *)
Definition nonnegative_picks (selections : Selections) : Prop :=
  ∀ i m g opts, selections !! i = Some m → m !! g = Some opts →
                Forall (fun o => (0 <= additionalPrice o)%Qc) opts.

End Keys.

(** ** The clicks of a customer on the options of a drop *)

Module Page.

(** A click on the button of [c_option], rendered under [c_group] of
    [c_item]; the page calls
    [toggleOption(item.id, group.id, opt, group.maxSelect)]. *)
Record Click := {
  c_item : MenuItem;
  c_group : ModifierGroup;
  c_option : ModifierOption
}.


Definition click (selections : Selections) (c : Click) : Selections :=
  Selection.toggleOption (mi_id (c_item c)) (mg_id (c_group c)) (c_option c)
    (maxSelect (c_group c)) selections.

(** The selections after a series of clicks on a freshly opened page. *)
Definition clicks (cs : list Click) : Selections := fold_left click cs ∅.


End Page.

(** ** The quantity controls, [views/DropDetail.tsx] lines 26-28 and 400-452 *)

Module Quantity.

Definition is_digit (c : Ascii.ascii) : bool :=
  (48 <=? Z.of_nat (Ascii.nat_of_ascii c))
  && (Z.of_nat (Ascii.nat_of_ascii c) <=? 57).

(** [value.replace(/[^\d]/g, '')] *)
Fixpoint digits (s : string) : string :=
  match s with
  | EmptyString => EmptyString
  | String c rest => if is_digit c then String c (digits rest) else digits rest
  end.

(** [parseInt(raw, 10)] of a string of digits, read from the left. *)
Fixpoint parseInt_from (acc : Z) (raw : string) : Z :=
  match raw with
  | EmptyString => acc
  | String c rest =>
      parseInt_from (10 * acc + (Z.of_nat (Ascii.nat_of_ascii c) - 48)) rest
  end.

Definition parseInt (raw : string) : Z := parseInt_from 0 raw.

(** The state [qty], [qtyInput], [qtyError]. *)
Record State := {
  qty : Z;
  qtyInput : string;
  qtyError : option string
}.

Definition initial : State :=
  {| qty := 1; qtyInput := "1"; qtyError := None |}.

Inductive Event :=
| Minus
| Plus
| Change (value : string)
| Blur.

(** The error set after typing: only when [next] exceeds the stock. *)
Definition stockError (remaining next : Z) : option string :=
  if remaining <? next
  then Some ("Only " +:+ pretty remaining +:+ " left in stock.")
  else None.

(** The handlers; [remaining] is [drop.quantity_remaining]. The minus
    button is disabled when [qty <= 1]. *)
Definition handle (remaining : Z) (s : State) (e : Event) : State :=
  match e with
  | Minus =>
      if qty s <=? 1 then s
      else {| qty := Z.max 1 (qty s - 1); qtyInput := qtyInput s;
              qtyError := None |}
  | Plus =>
      {| qty := qty s + 1; qtyInput := qtyInput s; qtyError := None |}
  | Change value =>
      let raw := digits value in
      match raw with
      | EmptyString =>
          {| qty := qty s; qtyInput := raw; qtyError := qtyError s |}
      | _ =>
          let next := parseInt raw in
          {| qty := Z.max 1 next; qtyInput := raw;
             qtyError := stockError remaining next |}
      end
  | Blur =>
      let normalized := digits (qtyInput s) in
      match normalized with
      | EmptyString =>
          {| qty := 1; qtyInput := qtyInput s; qtyError := None |}
      | _ =>
          let next := parseInt normalized in
          if next <? 1 then
            {| qty := 1; qtyInput := qtyInput s; qtyError := None |}
          else
            {| qty := next; qtyInput := qtyInput s;
               qtyError := stockError remaining next |}
      end
  end.

(** [useEffect(() => setQtyInput(String(qty)), [qty])]: runs when [qty] has
    changed. *)
Definition effect (old new : State) : State :=
  if bool_decide (qty new = qty old) then new
  else {| qty := qty new; qtyInput := pretty (qty new);
          qtyError := qtyError new |}.

Definition step (remaining : Z) (s : State) (e : Event) : State :=
  effect s (handle remaining s e).

Definition run (remaining : Z) (events : list Event) : State :=
  fold_left (step remaining) events initial.

End Quantity.

(** ** Reward tiers, [views/DropDetail.tsx] lines 182-183 *)

Module Tiers.

Record QuantityTier := {
  threshold : Z;
  reward : string
}.

(** [drop.quantity_tiers?.find(t => qty < t.threshold) || null] *)
Definition nextTier (tiers : option (list QuantityTier)) (qty : Z)
  : option QuantityTier :=
  match tiers with
  | Some ts => List.find (fun t => qty <? threshold t) ts
  | None => None
  end.

(** [[...(drop.quantity_tiers || [])].reverse().find(t => qty >= t.threshold)] *)
Definition currentTier (tiers : option (list QuantityTier)) (qty : Z)
  : option QuantityTier :=
  List.find (fun t => threshold t <=? qty) (rev (default [] tiers)).

(** The thresholds do not decrease along the list. *)
Definition ascending (ts : list QuantityTier) : Prop :=
  StronglySorted (fun a b => threshold a ≤ threshold b) ts.

End Tiers.

(** ** Users, [services/api.ts] lines 6-68 *)

Module Auth.

Inductive UserTier := TASTER | REGULAR | INSIDER | TASTEMAKER.

Record Profile := {
  pf_id : string;
  pf_name : string;
  pf_email : string;
  is_vendor : bool;
  is_admin : bool
}.

Record User := {
  id : string;
  name : string;
  email : string;
  isVendor : bool;
  isAdmin : bool;
  isInfluencer : bool;
  points : Z;
  tier : UserTier;
  streak : Z;
  unlockedVouchers : Z
}.

Record SessionUser := {
  su_id : string;
  su_email : option string
}.

(** [s.split('@')[0]]: the part before the first at sign. *)
Fixpoint before_at (s : string) : string :=
  match s with
  | EmptyString => EmptyString
  | String c rest =>
      if bool_decide (c = Ascii.ascii_of_nat 64) then EmptyString
      else String c (before_at rest)
  end.

Definition mapProfileToUser (profile : Profile) : User :=
  {| id := pf_id profile;
     name := if Num.truthy (Some (pf_name profile)) then pf_name profile
             else "Foodie";
     email := pf_email profile;
     isVendor := is_vendor profile;
     isAdmin := is_admin profile;
     isInfluencer := true;
     points := 100;
     tier := TASTER;
     streak := 1;
     unlockedVouchers := 0 |}.

Definition mapSessionToUser (sessionUser : SessionUser) : User :=
  {| id := su_id sessionUser;
     name := default "User"
               (Num.or_else (before_at <$> su_email sessionUser) None);
     email := default EmptyString (Num.or_else (su_email sessionUser) None);
     isVendor := false;
     isAdmin := false;
     isInfluencer := false;
     points := 0;
     tier := TASTER;
     streak := 0;
     unlockedVouchers := 0 |}.

(** [getProfile]: the row of the id, or null on any error, among them no row
    or several rows. *)
Definition getProfile (userId : string) (profiles : list Profile)
  : option Profile :=
  match filter (fun p => pf_id p = userId) profiles with
  | [p] => Some p
  | _ => None
  end.

(** What [supabase.auth.getSession()] gives. *)
Inductive SessionResult :=
| SessionError
| NoSession
| Session (user : SessionUser).

(** [getCurrentUser]; [inl tt] when the session error is thrown. *)
Definition getCurrentUser (session : SessionResult) (profiles : list Profile)
  : unit + option User :=
  match session with
  | SessionError => inl tt
  | NoSession => inr None
  | Session user =>
      match getProfile (su_id user) profiles with
      | Some profile => inr (Some (mapProfileToUser profile))
      | None => inr (Some (mapSessionToUser user))
      end
  end.

(** The at sign occurs in the string. *)
Fixpoint has_at (s : string) : bool :=
  match s with
  | EmptyString => false
  | String c rest => bool_decide (c = Ascii.ascii_of_nat 64) || has_at rest
  end.

End Auth.

(** ** Input checks of the checkout form, [utils/security.ts] and
       [components/CheckoutModal.tsx]

    A text is the list of its UTF-16 code units, as [length], the regular
    expressions and [trim] of the source see it. *)

Module Security.

Definition within (lo hi c : N) : bool := ((lo <=? c) && (c <=? hi))%N.

Definition lt_sign : N := 60.
Definition gt_sign : N := 62.
Definition ampersand : N := 38.
Definition double_quote : N := 34.
Definition single_quote : N := 39.
Definition slash : N := 47.
Definition at_sign : N := 64.
Definition dot : N := 46.

(** ["&amp;"], ["&quot;"], ["&#x27;"], ["&#x2F;"] *)
Definition amp_entity : list N := [38; 97; 109; 112; 59]%N.
Definition quot_entity : list N := [38; 113; 117; 111; 116; 59]%N.
Definition apos_entity : list N := [38; 35; 120; 50; 55; 59]%N.
Definition slash_entity : list N := [38; 35; 120; 50; 70; 59]%N.

(** [s.replace(/c/g, by)] for a single character [c]. *)
Definition replace (c : N) (by_ : list N) (s : list N) : list N :=
  flat_map (fun x => if (x =? c)%N then by_ else [x]) s.

(** [s.replace(/[<>]/g, '')] *)
Definition remove_angles (s : list N) : list N :=
  List.filter (fun x => negb ((x =? lt_sign) || (x =? gt_sign))%N) s.

(** The white space and line terminators that [trim] strips. *)
Definition is_space (c : N) : bool :=
  (within 9 13 c || (c =? 32) || (c =? 160) || (c =? 5760)
   || within 8192 8202 c || (c =? 8232) || (c =? 8233) || (c =? 8239)
   || (c =? 8287) || (c =? 12288) || (c =? 65279))%N.

Fixpoint dropWhile (p : N → bool) (s : list N) : list N :=
  match s with
  | [] => []
  | x :: rest => if p x then dropWhile p rest else s
  end.

Definition trim (s : list N) : list N :=
  rev (dropWhile is_space (rev (dropWhile is_space s))).

Definition sanitizeInput (input : list N) : list N :=
  match input with
  | [] => []
  | _ =>
      trim (replace slash slash_entity
              (replace single_quote apos_entity
                 (replace double_quote quot_entity
                    (replace ampersand amp_entity (remove_angles input)))))
  end.

Definition letter (c : N) : bool := within 65 90 c || within 97 122 c.
Definition alnum (c : N) : bool := within 48 57 c || letter c.

(** [[a-zA-Z0-9._-]] *)
Definition local_char (c : N) : bool :=
  (alnum c || (c =? 46) || (c =? 95) || (c =? 45))%N.

(** [[a-zA-Z0-9.-]] *)
Definition domain_char (c : N) : bool := (alnum c || (c =? 46) || (c =? 45))%N.

(** The text before and after the first occurrence of [c]. *)
Fixpoint split_at (c : N) (s : list N) : option (list N * list N) :=
  match s with
  | [] => None
  | x :: rest =>
      if (x =? c)%N then Some ([], rest)
      else match split_at c rest with
           | Some (a, b) => Some (x :: a, b)
           | None => None
           end
  end.

(** [/^[a-zA-Z0-9._-]+@[a-zA-Z0-9.-]+\.[a-zA-Z]{2,6}$/.test(email)]. The
    class before the at sign excludes it, so the text is cut at its first at
    sign; the letters that end the match exclude the dot, so what follows the
    at sign is cut at its last dot. *)
Definition validateEmail (email : list N) : bool :=
  match split_at at_sign email with
  | None => false
  | Some (local, rest) =>
      match split_at dot (rev rest) with
      | None => false
      | Some (tld, domain) =>
          negb (bool_decide (local = [])) && forallb local_char local
          && negb (bool_decide (domain = [])) && forallb domain_char domain
          && (2 <=? length tld)%nat && (length tld <=? 6)%nat
          && forallb letter tld
      end
  end.

Record FormData := {
  fd_name : list N;
  fd_email : list N;
  fd_deliveryAddress : list N
}.

(** [validateStepOne]: the error message shown, or the sanitized values put
    back into the form. *)
Definition validateStepOne (formData : FormData) (deliveryRequested : bool)
  : string + FormData :=
  let safeName := sanitizeInput (fd_name formData) in
  let safeEmail := sanitizeInput (fd_email formData) in
  let safeAddress := sanitizeInput (fd_deliveryAddress formData) in
  if (length safeName <? 2)%nat then inl "Please enter a valid name."
  else if negb (validateEmail safeEmail) then
         inl "Please enter a valid email address."
  else if deliveryRequested && (length safeAddress <? 5)%nat then
         inl "Please enter a valid delivery address."
  else inr {| fd_name := safeName; fd_email := safeEmail;
              fd_deliveryAddress := safeAddress |}.

(** One of the five characters no sanitized text contains. *)
Definition markup (c : N) : bool :=
  ((c =? lt_sign) || (c =? gt_sign) || (c =? double_quote)
   || (c =? single_quote) || (c =? slash))%N.

End Security.

(** ** More sample data *)

Module Samples.

(** The checkout request for order [o1], answered by the gateway with the
    order in a given state. *)
Definition answer (st : PaymentStatus) (session : option string)
           (stripe : Gateway.Stripe) (o : Gateway.Oracle)
  : Database * Gateway.Stripe * Http.Response :=
  Gateway.handler Examples.secrets o Examples.checkoutRequest
    (Examples.orderDb (Examples.order st session None None)) stripe.

(** An order for a free package. *)
Definition freeOrder : PurchaseRow :=
  Reservation.new_order "o1"
    (Reservation.rpcParams
       {| drop_id := "d1"; drop_name := "Smash Box"; drop_image := "img";
          start_date := 0; end_date := 100; price := Num.of_Z 0;
          tax_rate := None; total_quantity := 1; quantity_remaining := 1;
          approval_status := APPROVED; menu_items := [];
          delivery_fee := None |}
       Examples.flatPayload).

Definition failingStore : Gateway.Oracle :=
  {| Gateway.fresh_id := "cs_9";
     Gateway.fresh_url := Some "https://pay/cs_9";
     Gateway.update_ok := false |}.

Definition unknownEvent : Webhook.Request :=
  Examples.notification "invoice.paid".

Definition paidDb : Database :=
  Examples.orderDb (Examples.order paid (Some "cs_1") (Some "pi_1") (Some 1000)).

Definition pendingDb : Database :=
  Examples.orderDb (Examples.order pending (Some "cs_1") None None).

Definition burger : MenuItem :=
  {| mi_id := "i1"; mi_name := "Burger"; basePrice := Examples.money 12;
     modifierGroups :=
       [ {| mg_id := "g1"; mg_name := "Extras";
            minSelect := 0; maxSelect := 2;
            options := [Examples.ketchup; Examples.mayo; Examples.fries] |} ] |}.

Definition extras : ModifierGroup :=
  {| mg_id := "g1"; mg_name := "Extras"; minSelect := 0; maxSelect := 2;
     options := [Examples.ketchup; Examples.mayo; Examples.fries] |}.

(** Ketchup, then mayo. *)
Definition twoClicks : list Page.Click :=
  [ {| Page.c_item := burger; Page.c_group := extras;
       Page.c_option := Examples.ketchup |};
    {| Page.c_item := burger; Page.c_group := extras;
       Page.c_option := Examples.mayo |} ].

Definition burgerPayload : Reservation.Payload :=
  {| Reservation.pl_userId := None;
     Reservation.pl_quantity := 3;
     Reservation.pl_customerName := "Ana";
     Reservation.pl_customerEmail := "ana@example.com";
     Reservation.pl_deliveryRequested := false;
     Reservation.pl_selectedItems :=
       Some (Selection.finalSelections (Examples.burgerDrop 0 2)
               (Page.clicks twoClicks));
     Reservation.pl_deliveryAddress := None;
     Reservation.pl_orderNotes := None;
     Reservation.pl_isBulk := false |}.

Definition tiers : list Tiers.QuantityTier :=
  [ {| Tiers.threshold := 3; Tiers.reward := "Free drink" |};
    {| Tiers.threshold := 5; Tiers.reward := "Free dessert" |} ].

Definition guest : Auth.SessionUser :=
  {| Auth.su_id := "u7"; Auth.su_email := Some "lee@example.com" |}.

(** [ana@example.com] *)
Definition anaEmail : list N :=
  [97; 110; 97; 64; 101; 120; 97; 109; 112; 108; 101; 46; 99; 111; 109]%N.

(** [Ana] followed by a space, and [<b>Tom & "Co"</b>]. *)
Definition anaName : list N := [65; 110; 97; 32]%N.

Definition markupName : list N :=
  [60; 98; 62; 84; 111; 109; 32; 38; 32; 34; 67; 111; 34; 60; 47; 98; 62]%N.

Definition anaForm : Security.FormData :=
  {| Security.fd_name := anaName; Security.fd_email := anaEmail;
     Security.fd_deliveryAddress := [] |}.

(** A form whose name has an ampersand ([R&B]), whose address is typed between
    angle brackets, with the delivery address [1/2 Elm St]. *)
Definition bracketForm : Security.FormData :=
  {| Security.fd_name := [82; 38; 66]%N;
     Security.fd_email := [32; 60]%N ++ anaEmail ++ [62]%N;
     Security.fd_deliveryAddress :=
       [49; 47; 50; 32; 69; 108; 109; 32; 83; 116]%N |}.

Definition storedForm : Security.FormData :=
  {| Security.fd_name := [82; 38; 97; 109; 112; 59; 66]%N;
     Security.fd_email := anaEmail;
     Security.fd_deliveryAddress :=
       [49; 38; 35; 120; 50; 70; 59; 50; 32; 69; 108; 109; 32; 83; 116]%N |}.

End Samples.

(** * Properties *)

(** ** Sums *)

Lemma fold_left_Qcplus {A} (f : A → Qc) (l : list A) (a : Qc) :
  fold_left (fun t x => (t + f x)%Qc) l a = (a + Num.sum (f <$> l))%Qc.
Proof.
  unfold Num.sum.
  revert a; induction l as [|x l IH]; intros a;
    cbn [fold_left foldr fmap list_fmap].
  - ring.
  - rewrite IH. ring.
Qed.

Lemma Num_sum_app (l1 l2 : list Qc) :
  Num.sum (l1 ++ l2) = (Num.sum l1 + Num.sum l2)%Qc.
Proof.
  unfold Num.sum.
  induction l1 as [|x l1 IH]; cbn [foldr app].
  - ring.
  - rewrite IH. ring.
Qed.

Lemma fold_left_addOptions (groups : list (list ModifierOption)) (a : Qc) :
  fold_left Pricing.addOptions groups a
  = (a + Num.sum (additionalPrice <$> concat groups))%Qc.
Proof.
  revert a; induction groups as [|opts groups IH]; intros a;
    cbn [fold_left concat].
  - unfold Num.sum; cbn [foldr fmap list_fmap]. ring.
  - rewrite IH. unfold Pricing.addOptions.
    rewrite fold_left_Qcplus, fmap_app, Num_sum_app. ring.
Qed.

Lemma itemTotal_spec (selections : Selections) (item : MenuItem) :
  Pricing.itemTotal selections item
  = (basePrice item + Pricing.spec_selectedSurcharges selections item)%Qc.
Proof.
  unfold Pricing.itemTotal, Pricing.spec_selectedSurcharges.
  apply fold_left_addOptions.
Qed.

Lemma unitPrice_spec (drop : Drop) (selections : Selections) :
  Pricing.unitPrice drop selections = Pricing.spec_unitPrice drop selections.
Proof.
  unfold Pricing.unitPrice, Pricing.spec_unitPrice.
  destruct (menu_items drop) as [|item items] eqn:E.
  - reflexivity.
  - replace (Z.of_nat (length (item :: items)) =? 0) with false
      by (symmetry; apply Z.eqb_neq; simpl; lia).
    rewrite fold_left_Qcplus.
    assert (H : Pricing.itemTotal selections <$> (item :: items)
                = (fun i => (basePrice i
                             + Pricing.spec_selectedSurcharges selections i)%Qc)
                    <$> (item :: items)).
    { apply list_fmap_ext. intros ? ? _. apply itemTotal_spec. }
    rewrite H. ring.
Qed.


(** A burger (12) with ketchup (1) and mayo (2), one package, a booking fee
    of 1, no tax, no delivery. *)
Example pricing_burger :
  Pricing.unitPrice (Examples.burgerDrop 0 2) Examples.twoPicks
  = Examples.money 15
  ∧ Pricing.orderTotal (Examples.burgerDrop 0 2) Examples.twoPicks 1 false
      (Examples.money 1)
    = Examples.money 16.
Proof. split; apply Qc_is_canon; vm_compute; reflexivity. Qed.

Lemma Qc_neq_by_value (a b : Qc) : Qeq_bool (this a) (this b) = false → a ≠ b.
Proof.
  intros H E. rewrite E in H.
  now rewrite (proj2 (Qeq_bool_iff _ _) (Qeq_refl _)) in H.
Qed.

(** C2. The total that [savePurchase] computes and has persisted as
    [total_paid] is not the total the Pricing Engine displays: for the flat
    drop priced 10 with a booking fee of 1 per package, quantity 1, no
    delivery and no tax, the page shows 11 while [savePurchase] sends 10 and
    the order row stores 10. *)
Theorem C2_server_total_differs :
  Pricing.orderTotal Examples.flatDrop ∅ 1 false (Examples.money 1)
  = Examples.money 11
  ∧ Reservation.savePurchase_total Examples.flatDrop Examples.flatPayload
    = Examples.money 10
  ∧ (total_paid <$>
       purchases (Reservation.savePurchase 50 "o1" Examples.flatDrop
                    Examples.flatPayload Examples.flatDb).1)
    = [Examples.money 10]
  ∧ Reservation.savePurchase_total Examples.flatDrop Examples.flatPayload
    ≠ Pricing.orderTotal Examples.flatDrop ∅ 1 false (Examples.money 1).
Proof.
  repeat split.
  - apply Qc_is_canon. vm_compute. reflexivity.
  - apply Qc_is_canon. vm_compute. reflexivity.
  - vm_compute. f_equal. apply Qc_is_canon. reflexivity.
  - apply Qc_neq_by_value. vm_compute. reflexivity.
Qed.

(** ** Inventory conservation *)

Lemma find_drop_update (id : string) (f : Drop → Drop) (table : list Drop) :
  (∀ d, drop_id (f d) = drop_id d) →
  Db.find_drop id (Db.update (fun row => bool_decide (drop_id row = id)) f table)
  = f <$> Db.find_drop id table.
Proof.
  intros Hid. unfold Db.find_drop, Db.update.
  induction table as [|row table IH]; [reflexivity|].
  cbn [fmap list_fmap List.find].
  destruct (bool_decide (drop_id row = id)) eqn:E.
  - rewrite Hid, E. reflexivity.
  - rewrite E. exact IH.
Qed.

Lemma find_drop_id (id : string) (table : list Drop) (d : Drop) :
  Db.find_drop id table = Some d → drop_id d = id.
Proof.
  unfold Db.find_drop. intros H. apply find_some in H as [_ H].
  now apply bool_decide_eq_true in H.
Qed.

(** One run of the stored procedure: either nothing changes and an error is
    returned, or the stock covers the quantity, is decremented by it, and
    exactly one order row is appended. *)
Lemma purchase_drop_item_step (now : Z) (nid : string)
      (p : Reservation.RpcParams) (db : Database) (d : Drop) :
  Db.find_drop (Reservation.rp_drop_id p) (drops db) = Some d →
  let r := Reservation.purchase_drop_item now nid p db in
  (∃ e, r = (db, inl e)
        ∧ (Reservation.rp_quantity p ≤ quantity_remaining d →
           e ≠ Reservation.InsufficientInventory)
        ∧ (approval_status d = APPROVED → Attempts.live d now →
           e = Reservation.InsufficientInventory))
  ∨ (r.2 = inr nid
     ∧ Reservation.rp_quantity p ≤ quantity_remaining d
     ∧ Db.find_drop (Reservation.rp_drop_id p) (drops r.1)
       = Some (Reservation.set_remaining d
                 (quantity_remaining d - Reservation.rp_quantity p))
     ∧ purchases r.1 = purchases db ++ [Reservation.new_order nid p]).
Proof.
  intros Hd. unfold Reservation.purchase_drop_item. rewrite Hd.
  destruct (bool_decide (approval_status d = APPROVED)) eqn:Ea; cbn [negb].
  2:{ left. eexists. split; [reflexivity|]. split; [discriminate|].
      intros Ha. apply bool_decide_eq_false in Ea. contradiction. }
  destruct ((start_date d <=? now) && (now <=? end_date d)) eqn:El; cbn [negb].
  2:{ left. eexists. split; [reflexivity|]. split; [discriminate|].
      intros _ [H1 H2]. apply andb_false_iff in El as [El|El];
        apply Z.leb_gt in El; lia. }
  destruct (Reservation.rp_quantity p <=? quantity_remaining d) eqn:Eq;
    cbn [negb].
  2:{ left. eexists. split; [reflexivity|]. apply Z.leb_gt in Eq.
      split; [lia|reflexivity]. }
  right. apply Z.leb_le in Eq. cbn [fst snd drops purchases].
  repeat split; try assumption.
  rewrite find_drop_update by reflexivity. now rewrite Hd.
Qed.

Lemma savePurchase_step (now : Z) (nid : string) (drop : Drop)
      (payload : Reservation.Payload) (db : Database) (d : Drop) :
  Db.find_drop (drop_id drop) (drops db) = Some d →
  let r := Reservation.savePurchase now nid drop payload db in
  let q := Reservation.pl_quantity payload in
  (r.1 = db ∧ Attempts.reserved_result r.2 = false
   ∧ (approval_status drop = APPROVED → approval_status d = APPROVED →
      Attempts.live d now →
      r.2 = inl (Reservation.PurchaseFailed Reservation.InsufficientInventory)
      ∧ quantity_remaining d < q))
  ∨ (Attempts.reserved_result r.2 = true
     ∧ q ≤ quantity_remaining d
     ∧ Db.find_drop (drop_id drop) (drops r.1)
       = Some (Reservation.set_remaining d (quantity_remaining d - q))
     ∧ purchases r.1
       = purchases db
           ++ [Reservation.new_order nid (Reservation.rpcParams drop payload)]).
Proof.
  intros Hd. cbv zeta. unfold Reservation.savePurchase.
  destruct (bool_decide (approval_status drop = APPROVED)) eqn:Ea; cbn [negb].
  2:{ left. split; [reflexivity|]. split; [reflexivity|].
      intros Ha. apply bool_decide_eq_false in Ea. contradiction. }
  pose proof (purchase_drop_item_step now nid
                (Reservation.rpcParams drop payload) db d Hd) as H.
  cbv zeta in H. cbn [Reservation.rpcParams Reservation.rp_drop_id
                      Reservation.rp_quantity] in H.
  destruct H as [(e & -> & Hne & He)|(H2 & Hq & Hf & Hp)].
  - left. split; [reflexivity|]. split; [reflexivity|].
    intros _ Had Hl. cbn [snd]. split.
    + now rewrite (He Had Hl).
    + destruct (Z.le_gt_cases (Reservation.pl_quantity payload)
                  (quantity_remaining d)) as [Hle|Hgt]; [|lia].
      exfalso. apply (Hne Hle). now apply He.
  - right.
    destruct (Reservation.purchase_drop_item now nid
                (Reservation.rpcParams drop payload) db) as [db' res].
    cbn [fst snd] in *. subst res.
    destruct (Db.single_purchase nid (purchases db')); cbn; auto.
Qed.

Lemma remaining_Some (id : string) (db : Database) (N : Z) :
  Attempts.remaining id db = Some N ↔
  ∃ d, Db.find_drop id (drops db) = Some d ∧ quantity_remaining d = N.
Proof.
  unfold Attempts.remaining. split.
  - destruct (Db.find_drop id (drops db)) as [d|]; [|discriminate].
    intros [= <-]. eauto.
  - intros (d & -> & <-). reflexivity.
Qed.

Lemma settle_conservation (id : string) (attempts : list Attempts.Attempt) :
  ∀ (db : Database) (N : Z),
    Attempts.remaining id db = Some N → 0 ≤ N →
    Forall (Attempts.against id) attempts →
    let r := Attempts.settle attempts db in
    0 ≤ N - Attempts.sold r.2
    ∧ Z.of_nat (length (filter (fun s => Attempts.reserved s = true) r.2))
      ≤ Attempts.sold r.2
    ∧ Attempts.remaining id r.1 = Some (N - Attempts.sold r.2)
    ∧ purchases r.1 = purchases db ++ Attempts.orders r.2
    ∧ Forall Attempts.no_oversell r.2.
Proof.
  induction attempts as [|a rest IH]; intros db N HN Hpos Hall; cbv zeta.
  - cbn. rewrite Z.sub_0_r, app_nil_r. repeat split; auto; lia.
  - apply Forall_cons in Hall as [[Hid Hq] Hrest].
    apply remaining_Some in HN as (d & Hd & HdN).
    cbn [Attempts.settle fst snd].
    pose proof (savePurchase_step (Attempts.at_now a) (Attempts.at_new_id a)
                  (Attempts.at_drop a) (Attempts.at_payload a) db d) as Hstep.
    rewrite Hid in Hstep. specialize (Hstep Hd). cbv zeta in Hstep.
    set (r0 := Reservation.savePurchase (Attempts.at_now a)
                 (Attempts.at_new_id a) (Attempts.at_drop a)
                 (Attempts.at_payload a) db) in *.
    set (s := {| Attempts.s_attempt := a;
                 Attempts.s_before :=
                   Db.find_drop (drop_id (Attempts.at_drop a)) (drops db);
                 Attempts.s_result := r0.2 |}).
    assert (Hbefore : Attempts.s_before s = Some d)
      by (cbn; now rewrite Hid).
    destruct Hstep as [(Hdb & Hres & Hins)|(Hres & Hle & Hfind & Hpur)].
    + rewrite Hdb in *.
      assert (HN : Attempts.remaining id db = Some N)
        by (apply remaining_Some; eauto).
      destruct (IH db N HN Hpos Hrest) as (I1 & I2 & I3 & I4 & I5).
      assert (Hs : Attempts.reserved s ≠ true)
        by (unfold Attempts.reserved; cbn; rewrite Hres; discriminate).
      unfold Attempts.sold, Attempts.orders in *.
      rewrite (filter_cons_False _ s _ Hs).
      repeat split; auto.
      constructor; [|assumption].
      exists d. split; [assumption|]. split.
      * intros Ht. contradiction.
      * intros _ H1 H2 H3. cbn. now destruct (Hins H1 H2 H3).
    + assert (HN' : Attempts.remaining id r0.1
                    = Some (N - Reservation.pl_quantity (Attempts.at_payload a))).
      { apply remaining_Some. eexists. split; [exact Hfind|]. cbn. lia. }
      destruct (IH r0.1 _ HN' ltac:(lia) Hrest) as (I1 & I2 & I3 & I4 & I5).
      assert (Hs : Attempts.reserved s = true)
        by (unfold Attempts.reserved; cbn; exact Hres).
      unfold Attempts.sold, Attempts.orders in *.
      rewrite (filter_cons_True _ s _ Hs).
      cbn [fmap list_fmap foldr length].
      change (Attempts.requested s)
        with (Reservation.pl_quantity (Attempts.at_payload a)).
      set (S := foldr Z.add 0 _) in *.
      set (n := length _) in *.
      repeat split.
      * lia.
      * lia.
      * rewrite I3. f_equal. lia.
      * rewrite I4, Hpur, <- app_assoc. reflexivity.
      * constructor; [|assumption].
        exists d. split; [assumption|]. split.
        -- intros _. exact Hle.
        -- intros Hlt.
           change (quantity_remaining d
                   < Reservation.pl_quantity (Attempts.at_payload a)) in Hlt.
           lia.
Qed.

(** C1. For every drop with [quantity_remaining = N] and every list of
    reservation attempts against it, each for at least one package, settling
    in any order: the quantities of the successful attempts sum to at most
    [N]; at most [N] attempts succeed; the drop's [quantity_remaining]
    afterwards is [N] minus that sum; the order rows created are exactly
    those of the successful attempts; no attempt was granted more than the
    stock it found, and an attempt that exceeded the stock of an approved,
    live drop failed with [InsufficientInventory]. *)
Theorem C1_inventory_conservation
  (id : string) (N : Z) (db : Database) (attempts : list Attempts.Attempt) :
  Attempts.remaining id db = Some N →
  0 ≤ N →
  Forall (Attempts.against id) attempts →
  let db' := (Attempts.settle attempts db).1 in
  let settled := (Attempts.settle attempts db).2 in
  Attempts.sold settled ≤ N
  ∧ Z.of_nat (length (filter (fun s => Attempts.reserved s = true) settled)) ≤ N
  ∧ Attempts.remaining id db' = Some (N - Attempts.sold settled)
  ∧ purchases db' = purchases db ++ Attempts.orders settled
  ∧ Forall Attempts.no_oversell settled.
Proof.
  intros HN Hpos Hall.
  destruct (settle_conservation id attempts db N HN Hpos Hall)
    as (I1 & I2 & I3 & I4 & I5).
  cbv zeta. repeat split; auto; lia.
Qed.

Lemma C1_witness :
  let db' := (Attempts.settle Examples.lastUnit Examples.flatDb).1 in
  let settled := (Attempts.settle Examples.lastUnit Examples.flatDb).2 in
  Attempts.sold settled ≤ 1
  ∧ Z.of_nat (length (filter (fun s => Attempts.reserved s = true) settled)) ≤ 1
  ∧ Attempts.remaining "d1" db' = Some (1 - Attempts.sold settled)
  ∧ purchases db' = purchases Examples.flatDb ++ Attempts.orders settled
  ∧ Forall Attempts.no_oversell settled.
Proof.
  apply (C1_inventory_conservation "d1" 1 Examples.flatDb Examples.lastUnit).
  - reflexivity.
  - lia.
  - repeat (constructor; [split; [reflexivity|simpl; lia]|]). constructor.
Defined.

(** The scenario of two simultaneous requests for the last package: one
    reserves it and leaves no stock, the other fails for lack of inventory. *)
Example last_unit_scenario :
  let r := Attempts.settle Examples.lastUnit Examples.flatDb in
  Attempts.s_result <$> r.2
  = [ inr (Reservation.new_order "o1"
             (Reservation.rpcParams Examples.flatDrop Examples.flatPayload));
      inl (Reservation.PurchaseFailed Reservation.InsufficientInventory) ]
  ∧ Attempts.remaining "d1" r.1 = Some 0
  ∧ purchase_id <$> purchases r.1 = ["o1"].
Proof. vm_compute. repeat split. Qed.

(** ** The modifier gate *)

Lemma validateGroups_lacking (selections : Selections) (item : MenuItem)
      (groups : list ModifierGroup) (group : ModifierGroup) :
  group ∈ groups → Selection.lacking selections item group →
  ∃ group', group' ∈ groups ∧ Selection.lacking selections item group'
            ∧ Selection.validateGroups selections item groups
              = Some (Selection.alertMessage item group').
Proof.
  induction groups as [|g rest IH]; intros Hin Hlack.
  - inversion Hin.
  - cbn [Selection.validateGroups].
    destruct ((0 <? minSelect g)
              && (Z.of_nat (length (Selection.groupSelections selections
                                      (mi_id item) (mg_id g)))
                  <? minSelect g)) eqn:E.
    + exists g. apply andb_true_iff in E as [E1 E2].
      apply Z.ltb_lt in E1, E2.
      repeat split; auto. left.
    + apply elem_of_cons in Hin as [->|Hin].
      * destruct Hlack as [H1 H2].
        apply Z.ltb_lt in H1, H2. rewrite H1, H2 in E. discriminate.
      * destruct (IH Hin Hlack) as (g' & Hg' & Hl & Hv).
        exists g'. repeat split; try apply Hl; auto. now right.
Qed.

Lemma validateGroups_Some (selections : Selections) (item : MenuItem)
      (groups : list ModifierGroup) (message : string) :
  Selection.validateGroups selections item groups = Some message →
  ∃ group, group ∈ groups ∧ Selection.lacking selections item group
           ∧ message = Selection.alertMessage item group.
Proof.
  induction groups as [|g rest IH]; cbn [Selection.validateGroups];
    [discriminate|].
  destruct ((0 <? minSelect g)
            && (Z.of_nat (length (Selection.groupSelections selections
                                    (mi_id item) (mg_id g)))
                <? minSelect g)) eqn:E.
  - intros [= <-]. exists g. apply andb_true_iff in E as [E1 E2].
    apply Z.ltb_lt in E1, E2. repeat split; auto. left.
  - intros H. destruct (IH H) as (g' & Hg' & Hl & Hm).
    exists g'. repeat split; try apply Hl; auto. now right.
Qed.




(** ** The selection cap *)

Lemma groupSelections_toggle_same
      (itemId groupId : string) (option : ModifierOption) (maxSelect : Z)
      (prev : Selections) :
  Selection.groupSelections
    (Selection.toggleOption itemId groupId option maxSelect prev) itemId groupId
  = let groupSels := Selection.groupSelections prev itemId groupId in
    if existsb (fun o => bool_decide (mo_id o = mo_id option)) groupSels then
      filter (fun o => mo_id o ≠ mo_id option) groupSels
    else if maxSelect =? 1 then [option]
    else if Z.of_nat (length groupSels) <? maxSelect then groupSels ++ [option]
    else groupSels.
Proof.
  unfold Selection.groupSelections, Selection.toggleOption.
  rewrite lookup_insert_eq. cbn [mbind option_bind].
  rewrite lookup_insert_eq. cbn [default].
  destruct (prev !! itemId) as [itemSels|]; cbn [mbind option_bind default];
    [reflexivity|].
  now rewrite lookup_empty.
Qed.







(** ** The checkout session gateway *)

(** The gateway's answer once the order has been read and found payable. *)
Lemma gateway_reuse (env : Env) (o : Gateway.Oracle) (req : Gateway.Request)
      (db : Database) (stripe : Gateway.Stripe) (body : Gateway.JsonBody)
      (purchase : PurchaseRow) (existing : Gateway.CheckoutSession) :
  Gateway.well_formed env req body →
  Db.single_purchase (default EmptyString (Gateway.purchaseId body))
                     (purchases db) = Some purchase →
  payment_status purchase ≠ paid →
  payment_status purchase ≠ refunded →
  Gateway.reusable stripe purchase = Some existing →
  Gateway.handler env o req db stripe
  = (db, stripe,
     Http.jsonResponse 200
       (Http.Checkout (default EmptyString (Gateway.cs_url existing))
                      (Gateway.cs_id existing) true)).
Proof.
  intros (Hm & H1 & H2 & H3 & Hj & Hp) Hrow Hpaid Hrefunded Hreuse.
  unfold Gateway.handler.
  rewrite Hm, H1, H2, H3, Hj, Hp, Hrow, Hreuse.
  rewrite (bool_decide_eq_false_2 _ Hpaid).
  rewrite (bool_decide_eq_false_2 _ Hrefunded).
  reflexivity.
Qed.

(** Whatever the request, an order that is not payable, or whose session
    can be reused, is not written to, and no session is created. *)
Lemma gateway_frame (env : Env) (o : Gateway.Oracle) (req : Gateway.Request)
      (db : Database) (stripe : Gateway.Stripe) (body : Gateway.JsonBody)
      (purchase : PurchaseRow) (existing : Gateway.CheckoutSession) :
  Gateway.json req = Some body →
  Db.single_purchase (default EmptyString (Gateway.purchaseId body))
                     (purchases db) = Some purchase →
  Gateway.reusable stripe purchase = Some existing →
  (Gateway.handler env o req db stripe).1 = (db, stripe).
Proof.
  intros Hj Hrow Hreuse. unfold Gateway.handler.
  rewrite Hj, Hrow, Hreuse.
  repeat match goal with
         | |- context [if ?b then _ else _] => destruct b
         end; reflexivity.
Qed.

Lemma reusable_open (stripe : Gateway.Stripe) (purchase : PurchaseRow)
      (sid : string) (existing : Gateway.CheckoutSession) :
  stripe_checkout_session_id purchase = Some sid →
  Num.truthy (Some sid) = true →
  stripe !! sid = Some existing →
  Gateway.cs_status existing = Gateway.open →
  Num.truthy (Gateway.cs_url existing) = true →
  Gateway.reusable stripe purchase = Some existing.
Proof.
  intros Hs Ht Hl Ho Hu. unfold Gateway.reusable.
  rewrite Hs, Ht, Hl, Hu.
  now rewrite (bool_decide_eq_true_2 _ Ho).
Qed.

(** C10. When the gateway is called for an order that references an
    external session (by a non-empty identifier) that is still open and has
    a URL, the call writes nothing: the table of purchases, hence every field
    of the order row, is unchanged, and no session is created. For a payable order (neither paid
    nor refunded) the answer is the existing URL, marked as reused. *)
Theorem C10_reuse_writes_nothing
  (env : Env) (o : Gateway.Oracle) (req : Gateway.Request)
  (db : Database) (stripe : Gateway.Stripe) (body : Gateway.JsonBody)
  (purchase : PurchaseRow) (sid : string) (existing : Gateway.CheckoutSession) :
  Gateway.well_formed env req body →
  Db.single_purchase (default EmptyString (Gateway.purchaseId body))
                     (purchases db) = Some purchase →
  stripe_checkout_session_id purchase = Some sid →
  Num.truthy (Some sid) = true →
  stripe !! sid = Some existing →
  Gateway.cs_status existing = Gateway.open →
  Num.truthy (Gateway.cs_url existing) = true →
  let r := Gateway.handler env o req db stripe in
  r.1.1 = db
  ∧ Db.single_purchase (purchase_id purchase) (purchases r.1.1) = Some purchase
  ∧ r.1.2 = stripe
  ∧ (payment_status purchase ≠ paid → payment_status purchase ≠ refunded →
     r.2 = Http.jsonResponse 200
             (Http.Checkout (default EmptyString (Gateway.cs_url existing))
                            (Gateway.cs_id existing) true)).
Proof.
  intros Hwf Hrow Hs Ht Hl Ho Hu. cbv zeta.
  pose proof (reusable_open stripe purchase sid existing Hs Ht Hl Ho Hu)
    as Hreuse.
  pose proof Hwf as (_ & _ & _ & _ & Hj & _).
  rewrite (surjective_pairing (Gateway.handler env o req db stripe).1).
  pose proof (gateway_frame env o req db stripe body purchase existing
                Hj Hrow Hreuse) as Hframe.
  rewrite Hframe. cbn [fst snd].
  split; [reflexivity|]. split.
  - assert (Hid : purchase_id purchase
                  = default EmptyString (Gateway.purchaseId body)).
    { unfold Db.single_purchase in Hrow.
      destruct (filter _ (purchases db)) as [|row [|]] eqn:E; try discriminate.
      injection Hrow as ->.
      assert (Hin : purchase ∈ filter
                      (fun row => purchase_id row
                                  = default EmptyString (Gateway.purchaseId body))
                      (purchases db)) by (rewrite E; left).
      now apply list_elem_of_filter in Hin as [Hin _]. }
    now rewrite Hid.
  - split; [reflexivity|].
    intros Hpaid Hrefunded.
    now rewrite (gateway_reuse env o req db stripe body purchase existing).
Qed.

Lemma C10_witness :
  let db := Examples.orderDb (Examples.order pending (Some "cs_1") None None) in
  let stripe : Gateway.Stripe := {[ "cs_1" := Examples.session Gateway.open ]} in
  let r := Gateway.handler Examples.secrets Examples.secondOracle
             Examples.checkoutRequest db stripe in
  r.1.1 = db
  ∧ Db.single_purchase "o1" (purchases r.1.1)
    = Some (Examples.order pending (Some "cs_1") None None)
  ∧ r.1.2 = stripe
  ∧ (pending ≠ paid → pending ≠ refunded →
     r.2 = Http.jsonResponse 200
             (Http.Checkout "https://pay/cs_1" "cs_1" true)).
Proof.
  apply (C10_reuse_writes_nothing Examples.secrets Examples.secondOracle
           Examples.checkoutRequest
           (Examples.orderDb (Examples.order pending (Some "cs_1") None None))
           {[ "cs_1" := Examples.session Gateway.open ]}
           Examples.checkoutBody
           (Examples.order pending (Some "cs_1") None None)
           "cs_1" (Examples.session Gateway.open)).
  - repeat split.
  - reflexivity.
  - reflexivity.
  - reflexivity.
  - reflexivity.
  - reflexivity.
  - reflexivity.
Defined.

Lemma filter_update_id (pid : string) (set : PurchaseRow → PurchaseRow)
      (rows : list PurchaseRow) :
  (∀ row, purchase_id (set row) = purchase_id row) →
  filter (fun row => purchase_id row = pid)
         (Db.update (fun row => bool_decide (purchase_id row = pid)) set rows)
  = set <$> filter (fun row => purchase_id row = pid) rows.
Proof.
  intros Hid. unfold Db.update.
  induction rows as [|row rows IH]; [reflexivity|].
  cbn [fmap list_fmap]. destruct (decide (purchase_id row = pid)) as [E|E].
  - rewrite (bool_decide_eq_true_2 _ E).
    rewrite filter_cons_True by (now rewrite Hid).
    rewrite filter_cons_True by exact E.
    cbn [fmap list_fmap]. f_equal. exact IH.
  - rewrite (bool_decide_eq_false_2 _ E).
    rewrite !filter_cons_False by exact E. exact IH.
Qed.

Lemma single_purchase_id (pid : string) (rows : list PurchaseRow)
      (purchase : PurchaseRow) :
  Db.single_purchase pid rows = Some purchase → purchase_id purchase = pid.
Proof.
  unfold Db.single_purchase. intros H.
  destruct (filter _ rows) as [|row [|]] eqn:E; try discriminate.
  injection H as ->.
  assert (Hin : purchase ∈ filter (fun row => purchase_id row = pid) rows)
    by (rewrite E; left).
  now apply list_elem_of_filter in Hin as [Hin _].
Qed.

Lemma single_purchase_update (pid : string) (set : PurchaseRow → PurchaseRow)
      (rows : list PurchaseRow) (purchase : PurchaseRow) :
  (∀ row, purchase_id (set row) = purchase_id row) →
  Db.single_purchase pid rows = Some purchase →
  Db.single_purchase pid
    (Db.update (fun row => bool_decide (purchase_id row = purchase_id purchase))
               set rows)
  = Some (set purchase).
Proof.
  intros Hid H. rewrite (single_purchase_id pid rows purchase H).
  unfold Db.single_purchase in *. rewrite filter_update_id by exact Hid.
  destruct (filter _ rows) as [|row [|]]; try discriminate.
  injection H as ->. reflexivity.
Qed.

(** What a checkout answer tells about the call that gave it. *)
Lemma gateway_checkout_inv (env : Env) (o : Gateway.Oracle)
      (req : Gateway.Request) (db : Database) (stripe : Gateway.Stripe)
      (url sid : string) (reused : bool) :
  (Gateway.handler env o req db stripe).2
  = Http.jsonResponse 200 (Http.Checkout url sid reused) →
  ∃ body purchase,
    Gateway.well_formed env req body
    ∧ Db.single_purchase (default EmptyString (Gateway.purchaseId body))
                         (purchases db) = Some purchase
    ∧ payment_status purchase ≠ paid
    ∧ payment_status purchase ≠ refunded
    ∧ match Gateway.reusable stripe purchase with
      | Some existing =>
          reused = true
          ∧ url = default EmptyString (Gateway.cs_url existing)
          ∧ sid = Gateway.cs_id existing
      | None =>
          reused = false
          ∧ ∃ session,
              Gateway.cs_id session = sid
              ∧ Gateway.cs_status session = Gateway.open
              ∧ Num.truthy (Gateway.cs_url session) = true
              ∧ url = default EmptyString (Gateway.cs_url session)
              ∧ (Gateway.handler env o req db stripe).1
                = ({| drops := drops db;
                      purchases :=
                        Db.update
                          (fun row =>
                             bool_decide (purchase_id row = purchase_id purchase))
                          (Rows.store_session sid) (purchases db) |},
                   <[sid := session]> stripe)
      end.
Proof.
  unfold Gateway.handler.
  destruct (bool_decide (Gateway.method req = "OPTIONS")); [discriminate|].
  destruct (bool_decide (Gateway.method req = "POST")) eqn:Em;
    cbn [negb]; [|discriminate].
  apply bool_decide_eq_true in Em.
  destruct (Num.truthy (SUPABASE_URL env)) eqn:E1; cbn [andb negb];
    [|discriminate].
  destruct (Num.truthy (SUPABASE_SERVICE_ROLE_KEY env)) eqn:E2;
    cbn [andb negb]; [|discriminate].
  destruct (Num.truthy (STRIPE_SECRET_KEY env)) eqn:E3; cbn [andb negb];
    [|discriminate].
  destruct (Gateway.json req) as [body|] eqn:Ej; [|discriminate].
  destruct (Num.truthy (Gateway.purchaseId body)) eqn:Ep; cbn [negb];
    [|discriminate].
  destruct (Db.single_purchase _ (purchases db)) as [purchase|] eqn:Erow;
    [|discriminate].
  destruct (bool_decide (payment_status purchase = paid)) eqn:Epaid;
    [discriminate|].
  destruct (bool_decide (payment_status purchase = refunded)) eqn:Eref;
    [discriminate|].
  apply bool_decide_eq_false in Epaid, Eref.
  intros H. exists body, purchase.
  split; [repeat split; assumption|].
  split; [exact Erow|]. split; [assumption|]. split; [assumption|].
  destruct (Gateway.reusable stripe purchase) as [existing|].
  - cbn in H. injection H as <- <- <-. auto.
  - destruct (Num.Math_round _ <=? 0); [discriminate|].
    destruct (Gateway.update_ok o); cbn [negb] in *; [|discriminate].
    destruct (Num.truthy (Gateway.cs_url (Gateway.create o _ _ purchase)))
      eqn:Eu; cbn [negb] in *; [|discriminate].
    cbn in H. injection H as <- <- <-.
    split; [reflexivity|].
    match type of Eu with
    | Num.truthy (Gateway.cs_url ?s) = true => exists s
    end.
    split; [reflexivity|]. split; [reflexivity|]. split; [exact Eu|].
    split; reflexivity.
Qed.

(** C9. Two calls of the gateway for the same order, nothing happening
    to the order or its session in between: if the first call answers with a
    checkout URL (for a session it created or found open, under a non-empty
    identifier), the second call answers with the same URL and session,
    marked [reused: true], creates no session and writes nothing. *)
Theorem C9_session_reuse
  (env : Env) (o1 o2 : Gateway.Oracle) (req : Gateway.Request)
  (db : Database) (stripe : Gateway.Stripe) (url sid : string) (reused : bool) :
  (Gateway.handler env o1 req db stripe).2
  = Http.jsonResponse 200 (Http.Checkout url sid reused) →
  Num.truthy (Some sid) = true →
  let first := Gateway.handler env o1 req db stripe in
  let second := Gateway.handler env o2 req first.1.1 first.1.2 in
  second.2 = Http.jsonResponse 200 (Http.Checkout url sid true)
  ∧ second.1.2 = first.1.2
  ∧ second.1.1 = first.1.1.
Proof.
  intros Hresp Hsid. cbv zeta.
  destruct (gateway_checkout_inv env o1 req db stripe url sid reused Hresp)
    as (body & purchase & Hwf & Hrow & Hpaid & Href & Hcase).
  pose proof Hwf as (_ & _ & _ & _ & Hj & _).
  destruct (Gateway.reusable stripe purchase) as [existing|] eqn:Ereuse.
  - destruct Hcase as (-> & -> & ->).
    rewrite (gateway_reuse env o1 req db stripe body purchase existing)
      by assumption.
    cbn [fst snd].
    rewrite (gateway_reuse env o2 req db stripe body purchase existing)
      by assumption.
    repeat split.
  - destruct Hcase as (-> & session & Hid & Hopen & Hurl & -> & Hfirst).
    rewrite Hfirst. cbn [fst snd].
    set (db1 := {| drops := drops db; purchases := _ |}).
    set (stripe1 := <[sid := session]> stripe).
    assert (Hrow1 : Db.single_purchase
                      (default EmptyString (Gateway.purchaseId body))
                      (purchases db1)
                    = Some (Rows.store_session sid purchase))
      by (apply single_purchase_update; [reflexivity|exact Hrow]).
    assert (Hreuse1 : Gateway.reusable stripe1 (Rows.store_session sid purchase)
                      = Some session).
    { apply (reusable_open stripe1 _ sid session); auto.
      apply lookup_insert_eq. }
    rewrite (gateway_reuse env o2 req db1 stripe1 body
               (Rows.store_session sid purchase) session Hwf Hrow1)
      by (assumption || discriminate).
    rewrite Hid. repeat split.
Qed.

Lemma C9_witness :
  let db := Examples.orderDb (Examples.order pending None None None) in
  let first := Gateway.handler Examples.secrets Examples.firstOracle
                 Examples.checkoutRequest db ∅ in
  let second := Gateway.handler Examples.secrets Examples.secondOracle
                  Examples.checkoutRequest first.1.1 first.1.2 in
  second.2
  = Http.jsonResponse 200 (Http.Checkout "https://pay/cs_1" "cs_1" true)
  ∧ second.1.2 = first.1.2
  ∧ second.1.1 = first.1.1.
Proof.
  apply (C9_session_reuse Examples.secrets Examples.firstOracle
           Examples.secondOracle Examples.checkoutRequest
           (Examples.orderDb (Examples.order pending None None None)) ∅
           "https://pay/cs_1" "cs_1" false).
  - vm_compute. reflexivity.
  - reflexivity.
Defined.

(** ** The reconciliation listener *)

(** C6, as the code has it. The signature is verified before the [try]
    block that holds every write: a request whose signature is missing or
    does not verify leaves the database as it was, and, unless it is a
    preflight ([OPTIONS], answered [200 ok] before any check), it is answered
    outside the 2xx class with an error body. *)
Theorem C6_signature_before_mutation
  (constructEventAsync : string → string → string → string + Webhook.Event)
  (env : Env) (now : Z) (db_throws : bool) (req : Webhook.Request)
  (db : Database) :
  Webhook.unsigned constructEventAsync env req →
  let r := Webhook.handler constructEventAsync env now db_throws req db in
  r.1 = db
  ∧ (Webhook.method req ≠ "OPTIONS" →
     Http.is_2xx r.2 = false ∧ ∃ message, Http.body r.2 = Http.Error message).
Proof.
  intros Hunsigned. cbv zeta. unfold Webhook.handler.
  destruct (bool_decide (Webhook.method req = "OPTIONS")) eqn:Eo.
  { apply bool_decide_eq_true in Eo. split; [reflexivity|]. contradiction. }
  destruct (bool_decide (Webhook.method req = "POST")); cbn [negb];
    [|split; [reflexivity|intros _; split; [reflexivity|eauto]]].
  destruct (_ && _); cbn [negb];
    [|split; [reflexivity|intros _; split; [reflexivity|eauto]]].
  destruct (Num.truthy (Webhook.stripe_signature req)) eqn:Es; cbn [negb];
    [|split; [reflexivity|intros _; split; [reflexivity|eauto]]].
  destruct Hunsigned as [Hmissing|[message Hinvalid]]; [congruence|].
  rewrite Hinvalid. split; [reflexivity|intros _; split; [reflexivity|eauto]].
Qed.

Lemma C6_witness :
  let r := Webhook.handler Examples.verifier Examples.secrets 50 false
             Examples.forged
             (Examples.orderDb (Examples.order pending (Some "cs_1") None None))
  in
  r.1 = Examples.orderDb (Examples.order pending (Some "cs_1") None None)
  ∧ (Webhook.method Examples.forged ≠ "OPTIONS" →
     Http.is_2xx r.2 = false ∧ ∃ message, Http.body r.2 = Http.Error message).
Proof.
  apply (C6_signature_before_mutation Examples.verifier Examples.secrets 50
           false Examples.forged).
  right. eexists. vm_compute. reflexivity.
Defined.

(** C6 as the specification states it does not hold for a preflight: an
    [OPTIONS] request without a signature is answered [200 ok]. It changes
    nothing. *)
Lemma C6_counterexample :
  let db := Examples.orderDb (Examples.order pending (Some "cs_1") None None) in
  let r := Webhook.handler Examples.verifier Examples.secrets 50 false
             Examples.preflight db in
  Webhook.stripe_signature Examples.preflight = None
  ∧ r.2 = Http.jsonResponse 200 (Http.Text "ok")
  ∧ Http.is_2xx r.2 = true
  ∧ r.1 = db.
Proof. vm_compute. repeat split. Qed.

Lemma handler_accepted
      (constructEventAsync : string → string → string → string + Webhook.Event)
      (env : Env) (now : Z) (db_throws : bool) (req : Webhook.Request)
      (event : Webhook.Event) (db : Database) :
  Webhook.accepted constructEventAsync env req event →
  Webhook.handler constructEventAsync env now db_throws req db
  = match Webhook.process now db_throws event db with
    | (db', true) => (db', Http.jsonResponse 200 Http.Received)
    | (db', false) =>
        (db', Http.jsonResponse 500 (Http.Error "Webhook processing failed."))
    end.
Proof.
  intros (Hm & H1 & H2 & H3 & H4 & Hs & Hv). unfold Webhook.handler.
  rewrite Hm, H1, H2, H3, H4, Hs, Hv. reflexivity.
Qed.

Lemma process_completed (now : Z) (event : Webhook.Event) (db : Database) :
  Webhook.ev_type event = "checkout.session.completed" →
  Num.truthy (Webhook.metadata_purchase_id (Webhook.ev_object event)) = true →
  Webhook.process now false event db
  = ({| drops := drops db;
        purchases :=
          Db.update (Webhook.targets event)
            (Rows.mark_paid (Webhook.obj_id (Webhook.ev_object event))
               (Webhook.payment_intent (Webhook.ev_object event)) now)
            (purchases db) |}, true).
Proof.
  intros Ht Hp.
  unfold Webhook.process, Webhook.on_completed, Webhook.on_failed,
    Webhook.on_refunded, Webhook.andThen, Webhook.update_purchases.
  rewrite Ht, Hp. reflexivity.
Qed.

Lemma update_absorbs {A} (cond : A → bool) (set1 set2 : A → A) (rows : list A) :
  (∀ row, cond (set1 row) = cond row) →
  (∀ row, set2 (set1 row) = set2 row) →
  Db.update cond set2 (Db.update cond set1 rows) = Db.update cond set2 rows.
Proof.
  intros Hc Hs. unfold Db.update. rewrite <- list_fmap_compose.
  apply list_fmap_ext. intros _ row _. cbn.
  destruct (cond row) eqn:E.
  - now rewrite Hc, E, Hs.
  - now rewrite E.
Qed.

(** C5, as the code has it. A [checkout.session.completed] event for
    order X delivered twice, at clock readings [t1] and [t2]: both deliveries
    are acknowledged with [200 received]; after each, the orders the event is
    about are paid, with the event's session and payment intent; after the
    second their [paid_at] is [t2], the clock of the latest delivery, and the
    database is what a single delivery at [t2] would have left. The second
    delivery changes nothing when [t2 = t1]. *)
Theorem C5_duplicate_completed
  (constructEventAsync : string → string → string → string + Webhook.Event)
  (env : Env) (t1 t2 : Z) (req : Webhook.Request) (event : Webhook.Event)
  (db : Database) :
  Webhook.accepted constructEventAsync env req event →
  Webhook.ev_type event = "checkout.session.completed" →
  Num.truthy (Webhook.metadata_purchase_id (Webhook.ev_object event)) = true →
  let paid_at_time t :=
    Db.update (Webhook.targets event)
      (Rows.mark_paid (Webhook.obj_id (Webhook.ev_object event))
         (Webhook.payment_intent (Webhook.ev_object event)) t)
      (purchases db) in
  let first := Webhook.handler constructEventAsync env t1 false req db in
  let second := Webhook.handler constructEventAsync env t2 false req first.1 in
  first.2 = Http.jsonResponse 200 Http.Received
  ∧ second.2 = Http.jsonResponse 200 Http.Received
  ∧ purchases first.1 = paid_at_time t1
  ∧ purchases second.1 = paid_at_time t2
  ∧ drops second.1 = drops db
  ∧ Forall (fun row => Webhook.targets event row = true →
                       payment_status row = paid ∧ paid_at row = Some t2)
           (purchases second.1)
  ∧ (t2 = t1 → second.1 = first.1).
Proof.
  intros Hacc Htype Hpid. cbv zeta.
  rewrite (handler_accepted _ env t1 false req event db Hacc).
  rewrite (process_completed t1 event db Htype Hpid). cbn [fst snd].
  rewrite (handler_accepted _ env t2 false req event _ Hacc).
  rewrite (process_completed t2 event _ Htype Hpid). cbn [fst snd drops purchases].
  rewrite update_absorbs by reflexivity.
  repeat split.
  - unfold Db.update. apply Forall_fmap, Forall_forall. intros row _. cbn.
    destruct (Webhook.targets event row) eqn:E.
    + intros _. split; reflexivity.
    + intros H. congruence.
  - intros ->. reflexivity.
Qed.

Lemma C5_witness :
  let event := Examples.sessionEvent "checkout.session.completed" in
  let db := Examples.orderDb (Examples.order pending (Some "cs_1") None None) in
  let req := Examples.notification "checkout.session.completed" in
  let paid_at_time t :=
    Db.update (Webhook.targets event)
      (Rows.mark_paid "cs_1" (Some "pi_1") t) (purchases db) in
  let first := Webhook.handler Examples.verifier Examples.secrets 1000 false
                 req db in
  let second := Webhook.handler Examples.verifier Examples.secrets 2000 false
                  req first.1 in
  first.2 = Http.jsonResponse 200 Http.Received
  ∧ second.2 = Http.jsonResponse 200 Http.Received
  ∧ purchases first.1 = paid_at_time 1000
  ∧ purchases second.1 = paid_at_time 2000
  ∧ drops second.1 = drops db
  ∧ Forall (fun row => Webhook.targets event row = true →
                       payment_status row = paid ∧ paid_at row = Some 2000)
           (purchases second.1)
  ∧ (2000 = 1000 → second.1 = first.1).
Proof.
  apply (C5_duplicate_completed Examples.verifier Examples.secrets 1000 2000
           (Examples.notification "checkout.session.completed")
           (Examples.sessionEvent "checkout.session.completed")
           (Examples.orderDb (Examples.order pending (Some "cs_1") None None))).
  - repeat split.
  - reflexivity.
  - reflexivity.
Defined.

(** C5 as the specification states it does not hold: the duplicate
    delivery overwrites [paid_at]. Delivered at 1000 and again at 2000, the event leaves the order paid with
    [paid_at = 2000], not the 1000 set by the first delivery. *)
Lemma C5_counterexample :
  let db := Examples.orderDb (Examples.order pending (Some "cs_1") None None) in
  let req := Examples.notification "checkout.session.completed" in
  let first := Webhook.handler Examples.verifier Examples.secrets 1000 false
                 req db in
  let second := Webhook.handler Examples.verifier Examples.secrets 2000 false
                  req first.1 in
  (fun row => (payment_status row, paid_at row)) <$> purchases first.1
  = [(paid, Some 1000)]
  ∧ (fun row => (payment_status row, paid_at row)) <$> purchases second.1
    = [(paid, Some 2000)]
  ∧ paid_at <$> purchases second.1 ≠ paid_at <$> purchases first.1.
Proof. vm_compute. repeat split. discriminate. Qed.

(** ** Payment status transitions *)

Lemma evolves_refl (allowed : PurchaseRow → PurchaseRow → bool)
      (rows : list PurchaseRow) :
  (∀ row, allowed row row = true) → Lifecycle.evolves allowed rows rows.
Proof.
  intros H. unfold Lifecycle.evolves.
  induction rows; constructor; auto.
Qed.

Lemma evolves_update (allowed : PurchaseRow → PurchaseRow → bool)
      (cond : PurchaseRow → bool) (set : PurchaseRow → PurchaseRow)
      (rows : list PurchaseRow) :
  (∀ row, allowed row row = true) →
  (∀ row, purchase_id (set row) = purchase_id row) →
  (∀ row, row ∈ rows → cond row = true → allowed row (set row) = true) →
  Lifecycle.evolves allowed rows (Db.update cond set rows).
Proof.
  intros Hrefl Hid Hset. unfold Lifecycle.evolves, Db.update.
  induction rows as [|row rows IH]; cbn [fmap list_fmap]; constructor.
  - destruct (cond row) eqn:E.
    + split; [apply Hid|]. apply Hset; [left|exact E].
    + split; [reflexivity|apply Hrefl].
  - apply IH. intros r Hr. apply Hset. now right.
Qed.

Lemma code_transition_refl (row : PurchaseRow) :
  Lifecycle.code_transition row row = true.
Proof.
  unfold Lifecycle.code_transition. now destruct (payment_status row).
Qed.

Lemma on_completed_evolves (now : Z) (db_throws : bool) (event : Webhook.Event)
      (db : Database) :
  Lifecycle.evolves Lifecycle.code_transition (purchases db)
    (purchases (Webhook.on_completed now db_throws event db).1).
Proof.
  unfold Webhook.on_completed, Webhook.update_purchases, Webhook.skip.
  repeat match goal with
         | |- context [if ?b then _ else _] => destruct b
         end; cbn [fst purchases];
    try (apply evolves_refl, code_transition_refl).
  apply evolves_update;
    [apply code_transition_refl|reflexivity|].
  intros row _ _. unfold Lifecycle.code_transition. cbn.
  now destruct (payment_status row).
Qed.

Lemma on_failed_evolves (db_throws : bool) (event : Webhook.Event)
      (db : Database) :
  Lifecycle.evolves Lifecycle.code_transition (purchases db)
    (purchases (Webhook.on_failed db_throws event db).1).
Proof.
  unfold Webhook.on_failed, Webhook.update_purchases, Webhook.skip.
  repeat match goal with
         | |- context [if ?b || ?c then _ else _] => destruct (b || c)
         | |- context [if ?b then _ else _] => destruct b
         end; cbn [fst purchases];
    try (apply evolves_refl, code_transition_refl).
  apply evolves_update;
    [apply code_transition_refl|reflexivity|].
  intros row _ Hc. apply andb_true_iff in Hc as [_ Hc].
  apply negb_true_iff, bool_decide_eq_false in Hc.
  unfold Lifecycle.code_transition. cbn.
  destruct (payment_status row); congruence.
Qed.

Lemma on_refunded_evolves (db_throws : bool) (event : Webhook.Event)
      (db : Database) :
  Lifecycle.evolves Lifecycle.code_transition (purchases db)
    (purchases (Webhook.on_refunded db_throws event db).1).
Proof.
  unfold Webhook.on_refunded, Webhook.update_purchases, Webhook.skip.
  destruct (bool_decide _); [|apply evolves_refl, code_transition_refl].
  destruct (Num.truthy (Webhook.payment_intent (Webhook.ev_object event)))
    eqn:Et; [|apply evolves_refl, code_transition_refl].
  destruct db_throws; [apply evolves_refl, code_transition_refl|].
  cbn [fst purchases].
  apply evolves_update;
    [apply code_transition_refl|reflexivity|].
  intros row _ Hc. apply bool_decide_eq_true in Hc.
  unfold Lifecycle.code_transition. cbn. rewrite Hc, Et.
  now destruct (payment_status row).
Qed.

(** A handler whose event type is another one does nothing. *)
Lemma on_completed_other (now : Z) (db_throws : bool) (event : Webhook.Event) :
  Webhook.ev_type event ≠ "checkout.session.completed" →
  Webhook.on_completed now db_throws event = Webhook.skip.
Proof.
  intros H. unfold Webhook.on_completed.
  now rewrite (bool_decide_eq_false_2 _ H).
Qed.

Lemma on_failed_other (db_throws : bool) (event : Webhook.Event) :
  Webhook.ev_type event ≠ "checkout.session.async_payment_failed" →
  Webhook.ev_type event ≠ "checkout.session.expired" →
  Webhook.on_failed db_throws event = Webhook.skip.
Proof.
  intros H1 H2. unfold Webhook.on_failed.
  now rewrite (bool_decide_eq_false_2 _ H1), (bool_decide_eq_false_2 _ H2).
Qed.

Lemma on_refunded_other (db_throws : bool) (event : Webhook.Event) :
  Webhook.ev_type event ≠ "charge.refunded" →
  Webhook.on_refunded db_throws event = Webhook.skip.
Proof.
  intros H. unfold Webhook.on_refunded.
  now rewrite (bool_decide_eq_false_2 _ H).
Qed.

Lemma andThen_skip_l (t : Webhook.Try) (db : Database) :
  Webhook.andThen Webhook.skip t db = t db.
Proof. reflexivity. Qed.

Lemma andThen_skip_r (t : Webhook.Try) (db : Database) :
  Webhook.andThen t Webhook.skip db = t db.
Proof.
  unfold Webhook.andThen, Webhook.skip. now destruct (t db) as [db' []].
Qed.

(** An event is of one type, so at most one of the three updates runs. *)
Lemma process_evolves (now : Z) (db_throws : bool) (event : Webhook.Event)
      (db : Database) :
  Lifecycle.evolves Lifecycle.code_transition (purchases db)
    (purchases (Webhook.process now db_throws event db).1).
Proof.
  unfold Webhook.process.
  destruct (decide (Webhook.ev_type event = "checkout.session.completed"))
    as [E|E].
  - rewrite (on_failed_other db_throws event), (on_refunded_other db_throws event)
      by (rewrite E; discriminate).
    rewrite andThen_skip_r. apply on_completed_evolves.
  - rewrite (on_completed_other now db_throws event E), andThen_skip_l.
    destruct (decide (Webhook.ev_type event = "charge.refunded")) as [E'|E'].
    + rewrite (on_failed_other db_throws event) by (rewrite E'; discriminate).
      rewrite andThen_skip_l. apply on_refunded_evolves.
    + rewrite (on_refunded_other db_throws event E'), andThen_skip_r.
      apply on_failed_evolves.
Qed.

Lemma single_purchase_unique (pid : string) (rows : list PurchaseRow)
      (purchase row : PurchaseRow) :
  Db.single_purchase pid rows = Some purchase →
  row ∈ rows → purchase_id row = pid → row = purchase.
Proof.
  unfold Db.single_purchase. intros H Hin Hid.
  destruct (filter _ rows) as [|r [|]] eqn:E; try discriminate.
  injection H as ->.
  assert (Hrow : row ∈ filter (fun row => purchase_id row = pid) rows)
    by (apply list_elem_of_filter; auto).
  rewrite E in Hrow. now apply list_elem_of_singleton in Hrow.
Qed.

(** The gateway either leaves the purchases alone or stores a session on the
    one payable order it was called for. *)
Lemma gateway_writes (env : Env) (o : Gateway.Oracle) (req : Gateway.Request)
      (db : Database) (stripe : Gateway.Stripe) :
  (Gateway.handler env o req db stripe).1.1 = db
  ∨ ∃ pid purchase sid,
      Db.single_purchase pid (purchases db) = Some purchase
      ∧ payment_status purchase ≠ paid
      ∧ payment_status purchase ≠ refunded
      ∧ (Gateway.handler env o req db stripe).1.1
        = {| drops := drops db;
             purchases :=
               Db.update
                 (fun row => bool_decide (purchase_id row = purchase_id purchase))
                 (Rows.store_session sid) (purchases db) |}.
Proof.
  unfold Gateway.handler.
  destruct (bool_decide (Gateway.method req = "OPTIONS")); [now left|].
  destruct (negb (bool_decide (Gateway.method req = "POST"))); [now left|].
  destruct (negb _); [now left|].
  destruct (Gateway.json req) as [body|]; [|now left].
  destruct (negb (Num.truthy (Gateway.purchaseId body))); [now left|].
  destruct (Db.single_purchase _ (purchases db)) as [purchase|] eqn:Erow;
    [|now left].
  destruct (bool_decide (payment_status purchase = paid)) eqn:Epaid;
    [now left|].
  destruct (bool_decide (payment_status purchase = refunded)) eqn:Eref;
    [now left|].
  apply bool_decide_eq_false in Epaid, Eref.
  destruct (Gateway.reusable stripe purchase); [now left|].
  destruct (Num.Math_round _ <=? 0); [now left|].
  destruct (negb (Gateway.update_ok o)); [now left|].
  right. eexists _, purchase, _. split; [exact Erow|].
  split; [exact Epaid|]. split; [exact Eref|].
  destruct (negb _); reflexivity.
Qed.

Lemma gateway_evolves (env : Env) (o : Gateway.Oracle) (req : Gateway.Request)
      (db : Database) (stripe : Gateway.Stripe) :
  Lifecycle.evolves Lifecycle.code_transition (purchases db)
    (purchases (Gateway.handler env o req db stripe).1.1).
Proof.
  destruct (gateway_writes env o req db stripe)
    as [->|(pid & purchase & sid & Hrow & Hpaid & Href & ->)].
  - apply evolves_refl, code_transition_refl.
  - cbn [purchases].
    apply evolves_update; [apply code_transition_refl|reflexivity|].
    intros row Hin Hc. apply bool_decide_eq_true in Hc.
    assert (row = purchase) as ->.
    { apply (single_purchase_unique pid (purchases db)); auto.
      rewrite Hc. now apply (single_purchase_id pid (purchases db)). }
    unfold Lifecycle.code_transition. cbn.
    destruct (payment_status purchase); congruence.
Qed.

(** C3, as the code has it. A provider notification or a gateway call
    keeps the orders that exist and changes the payment status of each only
    along: pending to paid or failed; paid to refunded; failed to pending
    (the gateway reopens a failed order with a new session) or to paid (a
    completed event); pending or failed to refunded when a payment intent is
    recorded on the order. In particular a paid order stays paid or becomes
    refunded: no notification or call makes it pending or failed. Nothing is
    said of an order that is already refunded. *)
Theorem C3_payment_transitions
  (constructEventAsync : string → string → string → string + Webhook.Event)
  (w : Client.World) (a : Lifecycle.Action) :
  let before := purchases (Client.db w) in
  let after := purchases (Client.db (Lifecycle.step constructEventAsync w a)) in
  Lifecycle.evolves Lifecycle.code_transition before after
  ∧ Forall2 (fun row row' =>
               payment_status row = paid →
               payment_status row' = paid ∨ payment_status row' = refunded)
            before after.
Proof.
  cbv zeta.
  assert (H : Lifecycle.evolves Lifecycle.code_transition
                (purchases (Client.db w))
                (purchases (Client.db (Lifecycle.step constructEventAsync w a)))).
  { destruct a as [env now db_throws req|env o req]; cbn [Lifecycle.step Client.db].
    - unfold Webhook.handler.
      repeat match goal with
             | |- context [if ?b then _ else _] => destruct b
             end; cbn [fst]; try (apply evolves_refl, code_transition_refl).
      destruct (constructEventAsync _ _ _) as [message|event]; cbn [fst];
        [apply evolves_refl, code_transition_refl|].
      pose proof (process_evolves now db_throws event (Client.db w)) as H.
      now destruct (Webhook.process now db_throws event (Client.db w))
        as [db' []].
    - apply gateway_evolves. }
  split; [exact H|].
  unfold Lifecycle.evolves in H.
  eapply Forall2_impl; [exact H|].
  intros row row' [_ Ht] Hpaid. unfold Lifecycle.code_transition in Ht.
  rewrite Hpaid in Ht. destruct (payment_status row'); auto; discriminate.
Qed.

(** C3 as the specification states it does not hold. (1) An order whose
    payment failed and whose session expired is taken back to pending by a gateway call. (2) An order
    that was paid and then refunded is marked failed by a replayed
    [checkout.session.expired], and paid again by a replayed
    [checkout.session.completed]. None of these is among the transitions of
    section 3. *)
Lemma C3_counterexample :
  let statuses (w : Client.World) := payment_status <$> purchases (Client.db w) in
  let notify type :=
    Lifecycle.Notify Examples.secrets 50 false (Examples.notification type) in
  let w1 := {| Client.db :=
                 Examples.orderDb (Examples.order failed (Some "cs_1") None None);
               Client.stripe := {[ "cs_1" := Examples.session Gateway.expired ]} |}
  in
  let w2 := {| Client.db :=
                 Examples.orderDb (Examples.order pending (Some "cs_1") None None);
               Client.stripe := {[ "cs_1" := Examples.session Gateway.open ]} |}
  in
  statuses w1 = [failed]
  ∧ statuses (Lifecycle.step Examples.verifier w1
                (Lifecycle.Checkout Examples.secrets Examples.secondOracle
                   Examples.checkoutRequest)) = [pending]
  ∧ Lifecycle.spec_transition failed pending = false
  ∧ statuses <$> Lifecycle.trace Examples.verifier w2
                   [ notify "checkout.session.completed";
                     notify "charge.refunded";
                     notify "checkout.session.expired";
                     notify "checkout.session.completed" ]
    = [[paid]; [refunded]; [failed]; [paid]]
  ∧ Lifecycle.spec_transition refunded failed = false
  ∧ Lifecycle.spec_transition failed paid = false.
Proof. vm_compute. repeat split. Qed.

(** * Further properties *)

(** ** Rounding to minor units *)

Lemma Math_round_bounds (q : Qc) :
  (Num.of_Z (Num.Math_round q) - Money.half <= q)%Qc
  ∧ (q < Num.of_Z (Num.Math_round q) + Money.half)%Qc.
Proof.
  unfold Num.Math_round, Num.of_Z, Qc_of_Z, Money.half, Qcle, Qclt, Qcminus,
    Qcplus, Qcopp, Q2Qc.
  cbn [this]. rewrite !Qred_correct.
  pose proof (Qfloor_le (this q + (1 # 2))) as H1.
  pose proof (Qlt_floor (this q + (1 # 2))) as H2.
  rewrite inject_Z_plus in H2.
  set (f := inject_Z (Qfloor (this q + (1 # 2)))) in *.
  split.
  - apply (Qplus_le_l _ _ (1 # 2)).
    setoid_replace (f + - (1 # 2) + (1 # 2))%Q with f using relation Qeq
      by ring.
    exact H1.
  - apply (Qplus_lt_l _ _ (1 # 2)).
    setoid_replace (f + (1 # 2) + (1 # 2))%Q with (f + inject_Z 1)%Q
      using relation Qeq by (unfold inject_Z; ring).
    exact H2.
Qed.


Lemma Math_round_nonpos (q : Qc) :
  Num.Math_round q ≤ 0 ↔ (q < Money.half)%Qc.
Proof.
  pose proof (Math_round_bounds q) as [H1 H2].
  split; intros H.
  - eapply Qclt_le_trans; [exact H2|].
    assert (E : (Num.of_Z (Num.Math_round q) <= 0)%Qc).
    { unfold Num.of_Z, Qc_of_Z, Qcle. cbn [this].
      change (this 0%Qc) with (inject_Z 0).
      rewrite <- Zle_Qle. exact H. }
    rewrite <- (Qcplus_0_l Money.half) at 2.
    apply Qcplus_le_compat; [exact E|apply Qcle_refl].
  - destruct (Z.le_gt_cases (Num.Math_round q) 0) as [?|Hgt];
      [assumption|exfalso].
    assert (E : (1 <= Num.of_Z (Num.Math_round q))%Qc).
    { unfold Num.of_Z, Qc_of_Z, Qcle. cbn [this].
      change (this 1%Qc) with (inject_Z 1).
      rewrite <- Zle_Qle. lia. }
    assert (E2 : (Money.half <= q)%Qc).
    { eapply Qcle_trans; [|exact H1].
      unfold Qcminus.
      replace Money.half with (1 + - Money.half)%Qc at 1
        by (apply Qc_is_canon; reflexivity).
      apply Qcplus_le_compat; [exact E|apply Qcle_refl]. }
    apply (Qcle_not_lt _ _ E2 H).
Qed.


(** ** The gateway: rejections and new sessions *)

(** The state of a call that is about to create a session. *)
Lemma gateway_create_branch (env : Env) (o : Gateway.Oracle)
      (req : Gateway.Request) (db : Database) (stripe : Gateway.Stripe)
      (body : Gateway.JsonBody) (purchase : PurchaseRow) :
  Gateway.well_formed env req body →
  Db.single_purchase (default EmptyString (Gateway.purchaseId body))
                     (purchases db) = Some purchase →
  payment_status purchase ≠ paid →
  payment_status purchase ≠ refunded →
  Gateway.reusable stripe purchase = None →
  let amount := Num.Math_round (total_paid purchase * Num.of_Z 100)%Qc in
  ∃ siteUrl,
    let session := Gateway.create o siteUrl amount purchase in
    Gateway.handler env o req db stripe
    = if amount <=? 0 then
        (db, stripe,
         Http.jsonResponse 400 (Http.Error "Invalid purchase amount."))
      else if negb (Gateway.update_ok o) then
        (db, <[Gateway.fresh_id o := session]> stripe,
         Http.jsonResponse 500
           (Http.Error "Failed to store checkout session."))
      else
        let db' :=
          {| drops := drops db;
             purchases :=
               Db.update
                 (fun row => bool_decide (purchase_id row = purchase_id purchase))
                 (Rows.store_session (Gateway.fresh_id o)) (purchases db) |} in
        if negb (Num.truthy (Gateway.fresh_url o)) then
          (db', <[Gateway.fresh_id o := session]> stripe,
           Http.jsonResponse 500
             (Http.Error "Stripe did not return a checkout URL."))
        else
          (db', <[Gateway.fresh_id o := session]> stripe,
           Http.jsonResponse 200
             (Http.Checkout (default EmptyString (Gateway.fresh_url o))
                            (Gateway.fresh_id o) false)).
Proof.
  intros (Hm & H1 & H2 & H3 & Hj & Hp) Hrow Hpaid Href Hreuse. cbv zeta.
  eexists. unfold Gateway.handler.
  rewrite Hm, H1, H2, H3, Hj, Hp, Hrow, Hreuse.
  rewrite (bool_decide_eq_false_2 _ Hpaid), (bool_decide_eq_false_2 _ Href).
  reflexivity.
Qed.

(** X1. An order that is already paid, or refunded, gets no checkout
    session: the gateway answers 400 with the matching message, writes
    nothing and creates no session, whatever session the order references. *)
Theorem gateway_rejects_settled
  (env : Env) (o : Gateway.Oracle) (req : Gateway.Request) (db : Database)
  (stripe : Gateway.Stripe) (body : Gateway.JsonBody) (purchase : PurchaseRow) :
  Gateway.well_formed env req body →
  Db.single_purchase (default EmptyString (Gateway.purchaseId body))
                     (purchases db) = Some purchase →
  payment_status purchase = paid ∨ payment_status purchase = refunded →
  Gateway.handler env o req db stripe
  = (db, stripe,
     Http.jsonResponse 400
       (Http.Error
          (if bool_decide (payment_status purchase = paid)
           then "Purchase is already paid."
           else "Purchase has been refunded and cannot be repaid."))).
Proof.
  intros (Hm & H1 & H2 & H3 & Hj & Hp) Hrow Hst.
  unfold Gateway.handler. rewrite Hm, H1, H2, H3, Hj, Hp, Hrow.
  destruct Hst as [-> | ->]; reflexivity.
Qed.

Lemma gateway_rejects_settled_witness :
  Samples.answer paid (Some "cs_1") {[ "cs_1" := Examples.session Gateway.open ]}
                 Examples.secondOracle
  = (Examples.orderDb (Examples.order paid (Some "cs_1") None None),
     {[ "cs_1" := Examples.session Gateway.open ]},
     Http.jsonResponse 400 (Http.Error "Purchase is already paid.")).
Proof.
  apply (gateway_rejects_settled Examples.secrets Examples.secondOracle
           Examples.checkoutRequest
           (Examples.orderDb (Examples.order paid (Some "cs_1") None None))
           {[ "cs_1" := Examples.session Gateway.open ]}
           Examples.checkoutBody
           (Examples.order paid (Some "cs_1") None None)).
  - repeat split.
  - reflexivity.
  - left. reflexivity.
Defined.

(** X2. A payable order without a reusable session whose total is below
    half a cent (a free order in particular) cannot be checked out: the
    gateway answers 400 [Invalid purchase amount], creates no session and
    writes nothing. *)
Theorem gateway_rejects_small_amount
  (env : Env) (o : Gateway.Oracle) (req : Gateway.Request) (db : Database)
  (stripe : Gateway.Stripe) (body : Gateway.JsonBody) (purchase : PurchaseRow) :
  Gateway.well_formed env req body →
  Db.single_purchase (default EmptyString (Gateway.purchaseId body))
                     (purchases db) = Some purchase →
  payment_status purchase ≠ paid →
  payment_status purchase ≠ refunded →
  Gateway.reusable stripe purchase = None →
  (total_paid purchase * Num.of_Z 100 < Money.half)%Qc →
  Gateway.handler env o req db stripe
  = (db, stripe, Http.jsonResponse 400 (Http.Error "Invalid purchase amount.")).
Proof.
  intros Hwf Hrow Hpaid Href Hreuse Hsmall.
  destruct (gateway_create_branch env o req db stripe body purchase
              Hwf Hrow Hpaid Href Hreuse) as [siteUrl ->].
  apply Math_round_nonpos, Z.leb_le in Hsmall. now rewrite Hsmall.
Qed.

Lemma gateway_rejects_small_amount_witness :
  Gateway.handler Examples.secrets Examples.firstOracle
    Examples.checkoutRequest (Examples.orderDb Samples.freeOrder) ∅
  = (Examples.orderDb Samples.freeOrder, ∅,
     Http.jsonResponse 400 (Http.Error "Invalid purchase amount.")).
Proof.
  apply (gateway_rejects_small_amount Examples.secrets Examples.firstOracle
           Examples.checkoutRequest (Examples.orderDb Samples.freeOrder) ∅
           Examples.checkoutBody Samples.freeOrder).
  - repeat split.
  - reflexivity.
  - discriminate.
  - discriminate.
  - reflexivity.
  - reflexivity.
Defined.




(** The order of the samples is charged 1000 cents for its total of 10. *)
Example gateway_amount_of_ten :
  Gateway.cs_unit_amount
    <$> (Samples.answer pending None ∅ Examples.firstOracle).1.2 !! "cs_1"
  = Some 1000.
Proof. vm_compute. reflexivity. Qed.

(** X4. When the provider has created the session but the UPDATE of the
    order fails, the gateway answers 500 and the order is left as it was, not
    referencing the new session, while the provider keeps the new open session
    for the order. *)
Theorem gateway_store_failure
  (env : Env) (o : Gateway.Oracle) (req : Gateway.Request) (db : Database)
  (stripe : Gateway.Stripe) (body : Gateway.JsonBody) (purchase : PurchaseRow) :
  Gateway.well_formed env req body →
  Db.single_purchase (default EmptyString (Gateway.purchaseId body))
                     (purchases db) = Some purchase →
  payment_status purchase ≠ paid →
  payment_status purchase ≠ refunded →
  Gateway.reusable stripe purchase = None →
  (Money.half <= total_paid purchase * Num.of_Z 100)%Qc →
  Gateway.update_ok o = false →
  let r := Gateway.handler env o req db stripe in
  r.2 = Http.jsonResponse 500 (Http.Error "Failed to store checkout session.")
  ∧ r.1.1 = db
  ∧ ∃ session,
      r.1.2 !! Gateway.fresh_id o = Some session
      ∧ Gateway.cs_status session = Gateway.open
      ∧ Gateway.cs_purchase_id session = purchase_id purchase
      ∧ (∀ k, k ≠ Gateway.fresh_id o → r.1.2 !! k = stripe !! k).
Proof.
  intros Hwf Hrow Hpaid Href Hreuse Hamount Hfail. cbv zeta.
  destruct (gateway_create_branch env o req db stripe body purchase
              Hwf Hrow Hpaid Href Hreuse) as [siteUrl ->].
  assert (Ea : (Num.Math_round (total_paid purchase * Num.of_Z 100)%Qc <=? 0)
               = false).
  { apply Z.leb_gt. apply Z.nle_gt. intros H.
    apply Math_round_nonpos in H. exact (Qcle_not_lt _ _ Hamount H). }
  rewrite Ea, Hfail. cbn [negb fst snd].
  split; [reflexivity|]. split; [reflexivity|].
  eexists. split; [apply lookup_insert_eq|].
  split; [reflexivity|]. split; [reflexivity|].
  intros k Hk. now apply lookup_insert_ne.
Qed.

Lemma gateway_store_failure_witness :
  let r := Samples.answer pending None ∅ Samples.failingStore in
  r.2 = Http.jsonResponse 500 (Http.Error "Failed to store checkout session.")
  ∧ r.1.1 = Examples.orderDb (Examples.order pending None None None)
  ∧ ∃ session,
      r.1.2 !! "cs_9" = Some session
      ∧ Gateway.cs_status session = Gateway.open
      ∧ Gateway.cs_purchase_id session = "o1"
      ∧ (∀ k, k ≠ "cs_9" → r.1.2 !! k = (∅ : Gateway.Stripe) !! k).
Proof.
  apply (gateway_store_failure Examples.secrets Samples.failingStore
           Examples.checkoutRequest
           (Examples.orderDb (Examples.order pending None None None)) ∅
           Examples.checkoutBody (Examples.order pending None None None)).
  - repeat split.
  - reflexivity.
  - discriminate.
  - discriminate.
  - reflexivity.
  - vm_compute. discriminate.
  - reflexivity.
Defined.

(** ** The listener, event by event *)

Lemma process_failed (now : Z) (event : Webhook.Event) (db : Database) :
  Events.is_failed event = true →
  Num.truthy (Webhook.metadata_purchase_id (Webhook.ev_object event)) = true →
  Webhook.process now false event db
  = ({| drops := drops db;
        purchases :=
          Db.update (Events.failable event)
            (Rows.mark_failed (Webhook.obj_id (Webhook.ev_object event)))
            (purchases db) |}, true).
Proof.
  intros Ht Hp. unfold Events.is_failed in Ht.
  assert (Hc : Webhook.ev_type event ≠ "checkout.session.completed").
  { intros E. rewrite E in Ht. discriminate. }
  assert (Hr : Webhook.ev_type event ≠ "charge.refunded").
  { intros E. rewrite E in Ht. discriminate. }
  unfold Webhook.process.
  rewrite (on_completed_other now false event Hc), andThen_skip_l.
  rewrite (on_refunded_other false event Hr), andThen_skip_r.
  unfold Webhook.on_failed, Webhook.update_purchases. rewrite Ht, Hp.
  reflexivity.
Qed.

Lemma process_refunded (now : Z) (event : Webhook.Event) (db : Database) :
  Events.is_refunded event = true →
  Num.truthy (Webhook.payment_intent (Webhook.ev_object event)) = true →
  Webhook.process now false event db
  = ({| drops := drops db;
        purchases :=
          Db.update (Events.charged event) Rows.mark_refunded (purchases db) |},
     true).
Proof.
  intros Ht Hp. unfold Events.is_refunded in Ht.
  pose proof Ht as E. apply bool_decide_eq_true in E.
  unfold Webhook.process.
  rewrite (on_completed_other now false event),
    (on_failed_other false event) by (rewrite E; discriminate).
  rewrite !andThen_skip_l.
  unfold Webhook.on_refunded, Webhook.update_purchases. rewrite Ht, Hp.
  reflexivity.
Qed.

Lemma process_ignored (now : Z) (db_throws : bool) (event : Webhook.Event)
      (db : Database) :
  Events.names_order event = false →
  Webhook.process now db_throws event db = (db, true).
Proof.
  unfold Events.names_order, Events.is_completed, Events.is_failed,
    Events.is_refunded.
  intros H. apply orb_false_iff in H as [H1 H2].
  unfold Webhook.process, Webhook.on_completed, Webhook.on_failed,
    Webhook.on_refunded, Webhook.andThen, Webhook.skip.
  destruct (bool_decide (Webhook.ev_type event = "checkout.session.completed"));
    destruct (bool_decide (Webhook.ev_type event
                           = "checkout.session.async_payment_failed")
              || bool_decide (Webhook.ev_type event
                              = "checkout.session.expired"));
    destruct (bool_decide (Webhook.ev_type event = "charge.refunded"));
    destruct (Num.truthy (Webhook.metadata_purchase_id (Webhook.ev_object event)));
    destruct (Num.truthy (Webhook.payment_intent (Webhook.ev_object event)));
    cbn in H1, H2; try discriminate; reflexivity.
Qed.

Lemma process_throws (now : Z) (event : Webhook.Event) (db : Database) :
  Events.names_order event = true →
  Webhook.process now true event db = (db, false).
Proof.
  unfold Events.names_order, Events.is_completed, Events.is_failed,
    Events.is_refunded.
  intros H.
  unfold Webhook.process, Webhook.on_completed, Webhook.on_failed,
    Webhook.on_refunded, Webhook.andThen, Webhook.skip,
    Webhook.update_purchases.
  destruct (bool_decide (Webhook.ev_type event = "checkout.session.completed"));
    destruct (bool_decide (Webhook.ev_type event
                           = "checkout.session.async_payment_failed")
              || bool_decide (Webhook.ev_type event
                              = "checkout.session.expired"));
    destruct (bool_decide (Webhook.ev_type event = "charge.refunded"));
    destruct (Num.truthy (Webhook.metadata_purchase_id (Webhook.ev_object event)));
    destruct (Num.truthy (Webhook.payment_intent (Webhook.ev_object event)));
    cbn in H; try discriminate; reflexivity.
Qed.

(** An event that names orders is of exactly one of the three kinds. *)
Lemma names_order_cases (event : Webhook.Event) :
  Events.names_order event = true →
  (Events.is_completed event = true
   ∧ Num.truthy (Webhook.metadata_purchase_id (Webhook.ev_object event)) = true)
  ∨ (Events.is_failed event = true
     ∧ Num.truthy (Webhook.metadata_purchase_id (Webhook.ev_object event)) = true)
  ∨ (Events.is_refunded event = true
     ∧ Num.truthy (Webhook.payment_intent (Webhook.ev_object event)) = true).
Proof.
  unfold Events.names_order. intros H.
  apply orb_true_iff in H as [H|H]; apply andb_true_iff in H as [H1 H2].
  - apply orb_true_iff in H1 as [H1|H1]; auto.
  - auto.
Qed.

(** X5. An event the listener does not handle, a session event without
    a purchase id in its metadata, and a refunded charge without a payment
    intent are acknowledged with [200 received] and change nothing, also when
    the database is failing. *)
Theorem webhook_ignores_other_events
  (constructEventAsync : string → string → string → string + Webhook.Event)
  (env : Env) (now : Z) (db_throws : bool) (req : Webhook.Request)
  (event : Webhook.Event) (db : Database) :
  Webhook.accepted constructEventAsync env req event →
  Events.names_order event = false →
  Webhook.handler constructEventAsync env now db_throws req db
  = (db, Http.jsonResponse 200 Http.Received).
Proof.
  intros Hacc Hno.
  rewrite (handler_accepted _ env now db_throws req event db Hacc).
  now rewrite process_ignored.
Qed.

Lemma webhook_ignores_other_events_witness :
  Webhook.handler Examples.verifier Examples.secrets 50 true
    Samples.unknownEvent Samples.pendingDb
  = (Samples.pendingDb, Http.jsonResponse 200 Http.Received).
Proof.
  apply (webhook_ignores_other_events Examples.verifier Examples.secrets 50 true
           Samples.unknownEvent (Examples.sessionEvent "invoice.paid")).
  - repeat split.
  - reflexivity.
Defined.



Lemma Forall2_update {A} (R : A → A → Prop) (cond : A → bool) (set : A → A)
      (rows : list A) :
  (∀ row, cond row = true → R row (set row)) →
  (∀ row, cond row = false → R row row) →
  Forall2 R rows (Db.update cond set rows).
Proof.
  intros Hset Hkeep. unfold Db.update.
  induction rows as [|row rows IH]; cbn [fmap list_fmap]; constructor; auto.
  destruct (cond row) eqn:E; auto.
Qed.

(** X7. A failed or expired session never touches a paid order. With a
    purchase id in its metadata, the event is acknowledged with 200; every
    order of that id that is not paid becomes failed and takes the event's
    session id, its other fields kept; paid orders and the orders of other ids
    are left exactly as they were. *)
Theorem webhook_failed_spares_paid
  (constructEventAsync : string → string → string → string + Webhook.Event)
  (env : Env) (now : Z) (req : Webhook.Request) (event : Webhook.Event)
  (db : Database) :
  Webhook.accepted constructEventAsync env req event →
  Events.is_failed event = true →
  Num.truthy (Webhook.metadata_purchase_id (Webhook.ev_object event)) = true →
  let r := Webhook.handler constructEventAsync env now false req db in
  r.2 = Http.jsonResponse 200 Http.Received
  ∧ drops r.1 = drops db
  ∧ Forall2
      (fun row row' =>
         (payment_status row = paid → row' = row)
         ∧ (Webhook.targets event row = false → row' = row)
         ∧ (Webhook.targets event row = true → payment_status row ≠ paid →
            row' = Rows.mark_failed (Webhook.obj_id (Webhook.ev_object event))
                     row))
      (purchases db) (purchases r.1).
Proof.
  intros Hacc Ht Hp. cbv zeta.
  rewrite (handler_accepted _ env now false req event db Hacc).
  rewrite (process_failed now event db Ht Hp). cbn [fst snd drops purchases].
  split; [reflexivity|]. split; [reflexivity|].
  apply Forall2_update; unfold Events.failable; intros row Hc.
  - apply andb_true_iff in Hc as [Htar Hnp].
    apply negb_true_iff, bool_decide_eq_false in Hnp.
    repeat split; intros; congruence.
  - repeat split; intros; try reflexivity.
    apply andb_false_iff in Hc as [Hc|Hc]; [congruence|].
    apply negb_false_iff, bool_decide_eq_true in Hc. contradiction.
Qed.

Lemma webhook_failed_spares_paid_witness :
  let event := Examples.sessionEvent "checkout.session.expired" in
  let r := Webhook.handler Examples.verifier Examples.secrets 50 false
             (Examples.notification "checkout.session.expired")
             Samples.paidDb in
  r.2 = Http.jsonResponse 200 Http.Received
  ∧ drops r.1 = drops Samples.paidDb
  ∧ Forall2
      (fun row row' =>
         (payment_status row = paid → row' = row)
         ∧ (Webhook.targets event row = false → row' = row)
         ∧ (Webhook.targets event row = true → payment_status row ≠ paid →
            row' = Rows.mark_failed "cs_1" row))
      (purchases Samples.paidDb) (purchases r.1).
Proof.
  apply (webhook_failed_spares_paid Examples.verifier Examples.secrets 50
           (Examples.notification "checkout.session.expired")
           (Examples.sessionEvent "checkout.session.expired") Samples.paidDb).
  - repeat split.
  - reflexivity.
  - reflexivity.
Defined.

(** X8. A refunded charge is matched by its payment intent alone: the
    event is acknowledged with 200, every order that records that payment
    intent becomes refunded whatever its status was, its other fields kept,
    and every other order is left exactly as it was. *)
Theorem webhook_refund_by_intent
  (constructEventAsync : string → string → string → string + Webhook.Event)
  (env : Env) (now : Z) (req : Webhook.Request) (event : Webhook.Event)
  (db : Database) :
  Webhook.accepted constructEventAsync env req event →
  Events.is_refunded event = true →
  Num.truthy (Webhook.payment_intent (Webhook.ev_object event)) = true →
  let r := Webhook.handler constructEventAsync env now false req db in
  r.2 = Http.jsonResponse 200 Http.Received
  ∧ drops r.1 = drops db
  ∧ Forall2
      (fun row row' =>
         (stripe_payment_intent_id row
          = Webhook.payment_intent (Webhook.ev_object event) →
          row' = Rows.mark_refunded row)
         ∧ (stripe_payment_intent_id row
            ≠ Webhook.payment_intent (Webhook.ev_object event) →
            row' = row))
      (purchases db) (purchases r.1).
Proof.
  intros Hacc Ht Hp. cbv zeta.
  rewrite (handler_accepted _ env now false req event db Hacc).
  rewrite (process_refunded now event db Ht Hp). cbn [fst snd drops purchases].
  split; [reflexivity|]. split; [reflexivity|].
  apply Forall2_update; unfold Events.charged; intros row Hc.
  - apply bool_decide_eq_true in Hc. split; intros; [reflexivity|contradiction].
  - apply bool_decide_eq_false in Hc. split; intros; [contradiction|reflexivity].
Qed.

Lemma webhook_refund_by_intent_witness :
  let r := Webhook.handler Examples.verifier Examples.secrets 50 false
             (Examples.notification "charge.refunded") Samples.paidDb in
  r.2 = Http.jsonResponse 200 Http.Received
  ∧ drops r.1 = drops Samples.paidDb
  ∧ Forall2
      (fun row row' =>
         (stripe_payment_intent_id row = Some "pi_1" →
          row' = Rows.mark_refunded row)
         ∧ (stripe_payment_intent_id row ≠ Some "pi_1" → row' = row))
      (purchases Samples.paidDb) (purchases r.1).
Proof.
  apply (webhook_refund_by_intent Examples.verifier Examples.secrets 50
           (Examples.notification "charge.refunded") Examples.chargeEvent
           Samples.paidDb).
  - repeat split.
  - reflexivity.
  - reflexivity.
Defined.

Lemma update_twice {A} (cond : A → bool) (set : A → A) (rows : list A) :
  (∀ row, cond row = true → cond (set row) = true) →
  (∀ row, cond row = true → set (set row) = set row) →
  Db.update cond set (Db.update cond set rows) = Db.update cond set rows.
Proof.
  intros Hc Hs. unfold Db.update. rewrite <- list_fmap_compose.
  apply list_fmap_ext. intros _ row _. cbn.
  destruct (cond row) eqn:E.
  - now rewrite (Hc row E), (Hs row E).
  - now rewrite E.
Qed.

Lemma process_idempotent (now : Z) (db_throws : bool) (event : Webhook.Event)
      (db : Database) :
  Webhook.process now db_throws event
    (Webhook.process now db_throws event db).1
  = Webhook.process now db_throws event db.
Proof.
  destruct (Events.names_order event) eqn:Hn.
  2:{ now rewrite !process_ignored. }
  destruct db_throws; [now rewrite !process_throws|].
  destruct (names_order_cases event Hn) as [[Ht Hp]|[[Ht Hp]|[Ht Hp]]].
  - apply bool_decide_eq_true in Ht.
    rewrite !(process_completed now event _ Ht Hp). cbn [fst drops purchases].
    now rewrite update_absorbs by reflexivity.
  - rewrite !(process_failed now event _ Ht Hp). cbn [fst drops purchases].
    rewrite update_twice; [reflexivity| |reflexivity].
    intros row Hc. unfold Events.failable in *.
    apply andb_true_iff in Hc as [Htar _].
    apply andb_true_iff. split; [exact Htar|reflexivity].
  - rewrite !(process_refunded now event _ Ht Hp). cbn [fst drops purchases].
    rewrite update_twice; [reflexivity|intros row Hc; exact Hc|reflexivity].
Qed.

(** X9. At a fixed clock reading the listener is idempotent for every
    request: delivering the same request again gives the same answer and
    leaves the database as the first delivery left it. *)
Theorem webhook_idempotent
  (constructEventAsync : string → string → string → string + Webhook.Event)
  (env : Env) (now : Z) (db_throws : bool) (req : Webhook.Request)
  (db : Database) :
  let once := Webhook.handler constructEventAsync env now db_throws req db in
  Webhook.handler constructEventAsync env now db_throws req once.1 = once.
Proof.
  cbv zeta. unfold Webhook.handler.
  repeat match goal with
         | |- context [if ?b then _ else _] => destruct b
         end; try reflexivity.
  destruct (constructEventAsync _ _ _) as [message|event]; [reflexivity|].
  pose proof (process_idempotent now db_throws event db) as H.
  destruct (Webhook.process now db_throws event db) as [db1 ok1] eqn:E1.
  cbn [fst] in H.
  assert (Hdb : (if ok1 return Database * Http.Response
                 then (db1, Http.jsonResponse 200 Http.Received)
                 else (db1, Http.jsonResponse 500
                              (Http.Error "Webhook processing failed."))).1
                = db1) by now destruct ok1.
  rewrite Hdb, H. reflexivity.
Qed.

Lemma update_over {A} (c1 c2 : A → bool) (s1 s2 : A → A) (rows : list A) :
  (∀ row, c2 (s1 row) = c2 row) →
  (∀ row, s2 (s1 row) = s2 row) →
  (∀ row, c1 row = true → c2 row = true) →
  Db.update c2 s2 (Db.update c1 s1 rows) = Db.update c2 s2 rows.
Proof.
  intros Hc Hs Hsub. unfold Db.update. rewrite <- list_fmap_compose.
  apply list_fmap_ext. intros _ row _. cbn.
  destruct (c1 row) eqn:E1.
  - now rewrite Hc, (Hsub row E1), Hs.
  - reflexivity.
Qed.

Lemma update_blocked {A} (c1 c2 : A → bool) (s1 s2 : A → A) (rows : list A) :
  (∀ row, c1 row = true → c2 (s1 row) = false) →
  (∀ row, c1 row = false → c2 row = false) →
  Db.update c2 s2 (Db.update c1 s1 rows) = Db.update c1 s1 rows.
Proof.
  intros Hon Hoff. unfold Db.update. rewrite <- list_fmap_compose.
  apply list_fmap_ext. intros _ row _. cbn.
  destruct (c1 row) eqn:E1.
  - now rewrite (Hon row E1).
  - now rewrite (Hoff row E1).
Qed.

(** X10. A completed session wins over a failed or expired one for the
    same purchase, in either order of arrival: after both events the database
    is the one the completed event alone leaves, with the order paid. *)
Theorem webhook_completed_wins
  (constructEventAsync : string → string → string → string + Webhook.Event)
  (env : Env) (tc tf : Z) (rc rf : Webhook.Request) (ec ef : Webhook.Event)
  (db : Database) :
  Webhook.accepted constructEventAsync env rc ec →
  Webhook.accepted constructEventAsync env rf ef →
  Events.is_completed ec = true →
  Events.is_failed ef = true →
  Webhook.metadata_purchase_id (Webhook.ev_object ef)
  = Webhook.metadata_purchase_id (Webhook.ev_object ec) →
  Num.truthy (Webhook.metadata_purchase_id (Webhook.ev_object ec)) = true →
  let deliver t r d := (Webhook.handler constructEventAsync env t false r d).1 in
  deliver tc rc (deliver tf rf db) = deliver tc rc db
  ∧ deliver tf rf (deliver tc rc db) = deliver tc rc db
  ∧ Forall (fun row => Webhook.targets ec row = true →
                       payment_status row = paid)
           (purchases (deliver tc rc db)).
Proof.
  intros Hc Hf Htc Htf Hsame Hp. cbv beta zeta.
  assert (Hpf : Num.truthy (Webhook.metadata_purchase_id (Webhook.ev_object ef))
                = true) by now rewrite Hsame.
  assert (Htar : ∀ row, Webhook.targets ef row = Webhook.targets ec row)
    by (intros row; unfold Webhook.targets; now rewrite Hsame).
  apply bool_decide_eq_true in Htc.
  rewrite !(handler_accepted _ env tc false rc ec _ Hc).
  rewrite !(handler_accepted _ env tf false rf ef _ Hf).
  rewrite !(process_completed tc ec _ Htc Hp).
  rewrite !(process_failed tf ef _ Htf Hpf).
  cbn [fst snd drops purchases].
  rewrite ?(process_completed tc ec _ Htc Hp).
  rewrite ?(process_failed tf ef _ Htf Hpf).
  cbn [fst snd drops purchases].
  split; [|split].
  - f_equal. apply update_over; try reflexivity.
    intros row H. unfold Events.failable in H.
    apply andb_true_iff in H as [H _]. now rewrite <- Htar.
  - f_equal. apply update_blocked; intros row H; unfold Events.failable.
    + apply andb_false_iff. right. reflexivity.
    + apply andb_false_iff. left. now rewrite Htar.
  - unfold Db.update. apply Forall_fmap, Forall_forall. intros row _. cbn.
    destruct (Webhook.targets ec row) eqn:E; [reflexivity|congruence].
Qed.

Lemma webhook_completed_wins_witness :
  let deliver t r d :=
    (Webhook.handler Examples.verifier Examples.secrets t false r d).1 in
  let rc := Examples.notification "checkout.session.completed" in
  let rf := Examples.notification "checkout.session.expired" in
  deliver 2000 rc (deliver 1000 rf Samples.pendingDb)
  = deliver 2000 rc Samples.pendingDb
  ∧ deliver 1000 rf (deliver 2000 rc Samples.pendingDb)
    = deliver 2000 rc Samples.pendingDb
  ∧ Forall (fun row =>
              Webhook.targets
                (Examples.sessionEvent "checkout.session.completed") row = true →
              payment_status row = paid)
           (purchases (deliver 2000 rc Samples.pendingDb)).
Proof.
  apply (webhook_completed_wins Examples.verifier Examples.secrets 2000 1000
           (Examples.notification "checkout.session.completed")
           (Examples.notification "checkout.session.expired")
           (Examples.sessionEvent "checkout.session.completed")
           (Examples.sessionEvent "checkout.session.expired")
           Samples.pendingDb).
  - repeat split.
  - repeat split.
  - reflexivity.
  - reflexivity.
  - reflexivity.
  - reflexivity.
Defined.

(** ** What no notification and no gateway call changes *)

Lemma same_order_refl (row : PurchaseRow) : Events.same_order row row.
Proof. unfold Events.same_order. now destruct row. Qed.

Lemma same_order_set (row : PurchaseRow) (st : PaymentStatus)
      (session intent : option string) (paidAt : option Z) :
  Events.same_order row (Rows.set_payment row st session intent paidAt).
Proof. reflexivity. Qed.

Lemma frame_update (cond : PurchaseRow → bool) (set : PurchaseRow → PurchaseRow)
      (rows : list PurchaseRow) :
  (∀ row, Events.same_order row (set row)) →
  Forall2 Events.same_order rows (Db.update cond set rows).
Proof.
  intros H. apply Forall2_update; intros; [apply H|apply same_order_refl].
Qed.

Lemma frame_refl (rows : list PurchaseRow) :
  Forall2 Events.same_order rows rows.
Proof. induction rows; constructor; auto using same_order_refl. Qed.

Lemma process_frame (now : Z) (db_throws : bool) (event : Webhook.Event)
      (db : Database) :
  drops (Webhook.process now db_throws event db).1 = drops db
  ∧ Forall2 Events.same_order (purchases db)
      (purchases (Webhook.process now db_throws event db).1).
Proof.
  destruct (Events.names_order event) eqn:Hn.
  2:{ rewrite process_ignored by exact Hn. split; [reflexivity|apply frame_refl]. }
  destruct db_throws.
  { rewrite process_throws by exact Hn. split; [reflexivity|apply frame_refl]. }
  destruct (names_order_cases event Hn) as [[Ht Hp]|[[Ht Hp]|[Ht Hp]]].
  - apply bool_decide_eq_true in Ht.
    rewrite (process_completed now event _ Ht Hp).
    split; [reflexivity|]. apply frame_update. intros; apply same_order_set.
  - rewrite (process_failed now event _ Ht Hp).
    split; [reflexivity|]. apply frame_update. intros; apply same_order_set.
  - rewrite (process_refunded now event _ Ht Hp).
    split; [reflexivity|]. apply frame_update. intros; apply same_order_set.
Qed.

(** X11. Whatever notification reaches the listener and whatever call
    reaches the gateway, the table of drops is untouched (no stock is given
    back when a payment fails, expires or is refunded), no order appears or
    disappears, and every order keeps all its fields except the four payment
    fields: status, session id, payment intent and [paid_at]. In particular
    [total_paid] and [quantity] of an order never change. *)
Theorem payment_fields_only
  (constructEventAsync : string → string → string → string + Webhook.Event)
  (w : Client.World) (a : Lifecycle.Action) :
  let w' := Lifecycle.step constructEventAsync w a in
  drops (Client.db w') = drops (Client.db w)
  ∧ Forall2 Events.same_order (purchases (Client.db w)) (purchases (Client.db w'))
  ∧ Forall2 (fun row row' => total_paid row' = total_paid row
                             ∧ quantity row' = quantity row
                             ∧ purchase_id row' = purchase_id row)
            (purchases (Client.db w)) (purchases (Client.db w')).
Proof.
  cbv zeta.
  assert (H : drops (Client.db (Lifecycle.step constructEventAsync w a))
              = drops (Client.db w)
              ∧ Forall2 Events.same_order (purchases (Client.db w))
                  (purchases (Client.db (Lifecycle.step constructEventAsync w a)))).
  { destruct a as [env now db_throws req|env o req];
      cbn [Lifecycle.step Client.db].
    - unfold Webhook.handler.
      repeat match goal with
             | |- context [if ?b then _ else _] => destruct b
             end; cbn [fst]; try (split; [reflexivity|apply frame_refl]).
      destruct (constructEventAsync _ _ _) as [message|event]; cbn [fst];
        [split; [reflexivity|apply frame_refl]|].
      pose proof (process_frame now db_throws event (Client.db w)) as H.
      now destruct (Webhook.process now db_throws event (Client.db w))
        as [db' []].
    - destruct (gateway_writes env o req (Client.db w) (Client.stripe w))
        as [->|(pid & purchase & sid & _ & _ & _ & ->)].
      + split; [reflexivity|apply frame_refl].
      + split; [reflexivity|]. cbn [purchases].
        apply frame_update. intros; apply same_order_set. }
  destruct H as [H1 H2]. split; [exact H1|]. split; [exact H2|].
  eapply Forall2_impl; [exact H2|].
  intros row row' ->. repeat split.
Qed.

(** ** Toggling options *)

Lemma filter_not_picked (option : ModifierOption) (l : list ModifierOption) :
  existsb (fun o => bool_decide (mo_id o = mo_id option)) l = false →
  filter (fun o => mo_id o ≠ mo_id option) l = l.
Proof.
  induction l as [|o l IH]; [reflexivity|]. cbn [existsb].
  intros H. apply orb_false_iff in H as [H1 H2].
  apply bool_decide_eq_false in H1.
  rewrite filter_cons_True by exact H1. now rewrite IH.
Qed.

Lemma picked_app (option : ModifierOption) (l : list ModifierOption) :
  existsb (fun o => bool_decide (mo_id o = mo_id option)) (l ++ [option]) = true.
Proof.
  rewrite existsb_app. apply orb_true_iff. right. cbn.
  now rewrite bool_decide_eq_true_2.
Qed.

(** X12. Picking an option that was not selected and clicking it again
    undoes the pick in a multi-select group with room: the group's selection
    is what it was. In a single-select group the two clicks always leave the
    group empty, so a pick that the first click replaced is not restored. *)
Theorem toggle_twice
  (itemId groupId : string) (option : ModifierOption) (maxSelect : Z)
  (prev : Selections) :
  existsb (fun o => bool_decide (mo_id o = mo_id option))
          (Selection.groupSelections prev itemId groupId) = false →
  let twice :=
    Selection.toggleOption itemId groupId option maxSelect
      (Selection.toggleOption itemId groupId option maxSelect prev) in
  (maxSelect = 1 → Selection.groupSelections twice itemId groupId = [])
  ∧ (maxSelect ≠ 1 → Selection.selected prev itemId groupId < maxSelect →
     Selection.groupSelections twice itemId groupId
     = Selection.groupSelections prev itemId groupId).
Proof.
  intros Hnot. cbv zeta. rewrite !groupSelections_toggle_same. cbv zeta.
  rewrite Hnot. unfold Selection.selected.
  set (old := Selection.groupSelections prev itemId groupId) in *.
  split.
  - intros ->. cbn [Z.eqb Pos.eqb existsb].
    rewrite bool_decide_eq_true_2 by reflexivity. cbn [orb].
    rewrite filter_cons_False by (intros H; now apply H). reflexivity.
  - intros Hne Hroom.
    replace (maxSelect =? 1) with false by (symmetry; now apply Z.eqb_neq).
    replace (Z.of_nat (length old) <? maxSelect) with true
      by (symmetry; now apply Z.ltb_lt).
    rewrite picked_app, filter_app, (filter_not_picked option old Hnot).
    rewrite filter_cons_False by (intros H; now apply H).
    now rewrite filter_nil, app_nil_r.
Qed.

Lemma toggle_twice_witness :
  let twice :=
    Selection.toggleOption "i1" "g1" Examples.fries 3
      (Selection.toggleOption "i1" "g1" Examples.fries 3 Examples.twoPicks) in
  (3 = 1 → Selection.groupSelections twice "i1" "g1" = [])
  ∧ (3 ≠ 1 → Selection.selected Examples.twoPicks "i1" "g1" < 3 →
     Selection.groupSelections twice "i1" "g1"
     = Selection.groupSelections Examples.twoPicks "i1" "g1").
Proof.
  apply (toggle_twice "i1" "g1" Examples.fries 3 Examples.twoPicks).
  vm_compute. reflexivity.
Defined.

(** X13. No option is selected twice: if the ids of the options selected
    in a group are pairwise different, they still are after any click on any
    option of that group. *)
Theorem toggle_keeps_ids_distinct
  (itemId groupId : string) (option : ModifierOption) (maxSelect : Z)
  (prev : Selections) :
  NoDup (mo_id <$> Selection.groupSelections prev itemId groupId) →
  NoDup (mo_id <$> Selection.groupSelections
                     (Selection.toggleOption itemId groupId option maxSelect prev)
                     itemId groupId).
Proof.
  intros Hnd. rewrite groupSelections_toggle_same. cbv zeta.
  set (old := Selection.groupSelections prev itemId groupId) in *.
  destruct (existsb _ old) eqn:Ep.
  - eapply sublist_NoDup; [exact Hnd|apply fmap_sublist, sublist_filter].
  - destruct (maxSelect =? 1); [cbn; apply NoDup_singleton|].
    destruct (Z.of_nat (length old) <? maxSelect); [|exact Hnd].
    rewrite fmap_app. apply NoDup_app. split; [exact Hnd|].
    split; [|cbn; apply NoDup_singleton].
    intros id Hin Hin'. cbn in Hin'. apply list_elem_of_singleton in Hin'.
    subst id. apply list_elem_of_fmap in Hin as (o & Ho & Hino).
    assert (Hex : existsb (fun o => bool_decide (mo_id o = mo_id option)) old
                  = true).
    { apply existsb_exists. exists o. split; [now apply list_elem_of_In|].
      now apply bool_decide_eq_true. }
    congruence.
Qed.

Lemma toggle_keeps_ids_distinct_witness :
  NoDup (mo_id <$> Selection.groupSelections
                     (Selection.toggleOption "i1" "g1" Examples.fries 3
                        Examples.twoPicks) "i1" "g1").
Proof.
  apply (toggle_keeps_ids_distinct "i1" "g1" Examples.fries 3 Examples.twoPicks).
  apply (bool_decide_unpack _). vm_compute. exact I.
Defined.

(** ** Validation is exact *)

Lemma validateGroups_None (selections : Selections) (item : MenuItem)
      (groups : list ModifierGroup) :
  Selection.validateGroups selections item groups = None ↔
  ∀ group, group ∈ groups → ¬ Selection.lacking selections item group.
Proof.
  split.
  - intros Hnone group Hin Hlack.
    destruct (validateGroups_lacking selections item groups group Hin Hlack)
      as (g' & _ & _ & Hv). congruence.
  - intros Hall.
    destruct (Selection.validateGroups selections item groups) as [m|] eqn:E;
      [|reflexivity].
    apply validateGroups_Some in E as (g & Hin & Hl & _).
    destruct (Hall g Hin Hl).
Qed.

(** X14. [validateSelections] lets an order through exactly when no
    modifier group of any menu item lacks selections: a complete selection is
    never held back, and an incomplete one never passes. *)
Theorem validateSelections_exact (drop : Drop) (selections : Selections) :
  Selection.validateSelections drop selections = None ↔
  ∀ item group, item ∈ menu_items drop → group ∈ modifierGroups item →
                ¬ Selection.lacking selections item group.
Proof.
  unfold Selection.validateSelections.
  induction (menu_items drop) as [|i rest IH]; cbn [Selection.validateItems].
  - split; [intros _ item group Hin; inversion Hin|reflexivity].
  - destruct (Selection.validateGroups selections i (modifierGroups i))
      as [m|] eqn:E.
    + split; [discriminate|]. intros Hall.
      apply validateGroups_Some in E as (g & Hin & Hl & _).
      destruct (Hall i g ltac:(left) Hin Hl).
    + rewrite IH. split.
      * intros H item group Hi Hg.
        apply elem_of_cons in Hi as [->|Hi]; [|now apply H].
        now apply (proj1 (validateGroups_None selections i _) E).
      * intros H item group Hi Hg. apply H; [now right|exact Hg].
Qed.

(** ** The total of the page against the total of [savePurchase] *)











(** ** What the clicks of a page can reach *)











(** Three burgers with ketchup and mayo: the page shows 48, [savePurchase]
    sends 45. *)
Example totals_of_three_burgers :
  Pricing.orderTotal (Examples.burgerDrop 0 2) (Page.clicks Samples.twoClicks)
    3 false (Examples.money 1) = Examples.money 48
  ∧ Reservation.savePurchase_total (Examples.burgerDrop 0 2)
      Samples.burgerPayload = Examples.money 45.
Proof. split; apply Qc_is_canon; vm_compute; reflexivity. Qed.

(** ** Signs of the amounts *)

Lemma Qc_0_le_plus (a b : Qc) : (0 <= a)%Qc → (0 <= b)%Qc → (0 <= a + b)%Qc.
Proof.
  intros Ha Hb. rewrite <- (Qcplus_0_l 0). now apply Qcplus_le_compat.
Qed.

Lemma Qc_0_le_mult (a b : Qc) : (0 <= a)%Qc → (0 <= b)%Qc → (0 <= a * b)%Qc.
Proof.
  intros Ha Hb. rewrite <- (Qcmult_0_l b). now apply Qcmult_le_compat_r.
Qed.

Lemma Qc_0_le_of_Z (z : Z) : 0 ≤ z → (0 <= Num.of_Z z)%Qc.
Proof.
  intros H. unfold Num.of_Z, Qc_of_Z, Qcle. cbn [this].
  change (this 0%Qc) with (inject_Z 0). now rewrite <- Zle_Qle.
Qed.

Lemma Num_sum_nonneg (l : list Qc) :
  Forall (fun x => (0 <= x)%Qc) l → (0 <= Num.sum l)%Qc.
Proof.
  unfold Num.sum. induction 1; cbn [foldr]; [apply Qcle_refl|].
  now apply Qc_0_le_plus.
Qed.

Lemma surcharges_nonneg (selections : Selections) (item : MenuItem) :
  Keys.nonnegative_picks selections →
  (0 <= Pricing.spec_selectedSurcharges selections item)%Qc.
Proof.
  intros Hpicks. unfold Pricing.spec_selectedSurcharges.
  apply Num_sum_nonneg, Forall_fmap, Forall_forall. intros o Ho. cbn.
  apply list_elem_of_In, in_concat in Ho as (opts & Hopts & Ho).
  apply list_elem_of_In in Hopts, Ho.
  apply list_elem_of_fmap in Hopts as ([g opts'] & -> & Hin).
  destruct (selections !! mi_id item) as [m|] eqn:E; cbn [default] in Hin.
  - apply elem_of_map_to_list in Hin.
    pose proof (Hpicks _ _ _ _ E Hin) as Hall.
    rewrite Forall_forall in Hall. now apply Hall.
  - rewrite map_to_list_empty in Hin. inversion Hin.
Qed.

(** X17. When no price, fee, rate or surcharge is negative and the
    quantity is not negative, no amount of the page is negative, and the order
    total is at least the subtotal. *)
Theorem totals_nonnegative
  (drop : Drop) (selections : Selections) (q : Z) (delivery : bool) (fee : Qc) :
  Keys.nonnegative drop →
  Keys.nonnegative_picks selections →
  0 ≤ q →
  (0 <= fee)%Qc →
  (0 <= Pricing.unitPrice drop selections)%Qc
  ∧ (0 <= Pricing.calculatedSubtotal drop selections q)%Qc
  ∧ (0 <= Pricing.deliveryFee drop delivery)%Qc
  ∧ (0 <= Pricing.bookingFee q fee)%Qc
  ∧ (0 <= Pricing.taxAmount drop selections q delivery fee)%Qc
  ∧ (Pricing.calculatedSubtotal drop selections q
     <= Pricing.orderTotal drop selections q delivery fee)%Qc.
Proof.
  intros (Hprice & Hdeliv & Hrate & Hbase) Hpicks Hq Hfee.
  assert (Hunit : (0 <= Pricing.unitPrice drop selections)%Qc).
  { rewrite unitPrice_spec. unfold Pricing.spec_unitPrice.
    destruct (menu_items drop) as [|item items]; [exact Hprice|].
    apply Num_sum_nonneg, Forall_fmap.
    eapply Forall_impl; [exact Hbase|]. intros i Hi. cbn.
    apply Qc_0_le_plus; [exact Hi|now apply surcharges_nonneg]. }
  pose proof (Qc_0_le_of_Z q Hq) as HqQ.
  assert (Hsub : (0 <= Pricing.calculatedSubtotal drop selections q)%Qc)
    by (now apply Qc_0_le_mult).
  assert (Hd : (0 <= Pricing.deliveryFee drop delivery)%Qc)
    by (unfold Pricing.deliveryFee; destruct delivery;
        [exact Hdeliv|apply Qcle_refl]).
  assert (Hb : (0 <= Pricing.bookingFee q fee)%Qc) by (now apply Qc_0_le_mult).
  assert (Ht : (0 <= Pricing.taxAmount drop selections q delivery fee)%Qc).
  { unfold Pricing.taxAmount. apply Qc_0_le_mult; [|exact Hrate].
    repeat apply Qc_0_le_plus; assumption. }
  repeat split; try assumption.
  unfold Pricing.orderTotal.
  set (s := Pricing.calculatedSubtotal drop selections q) in *.
  replace s with (s + 0)%Qc at 1 by ring.
  replace (s + Pricing.deliveryFee drop delivery + Pricing.bookingFee q fee
           + Pricing.taxAmount drop selections q delivery fee)%Qc
    with (s + (Pricing.deliveryFee drop delivery + Pricing.bookingFee q fee
               + Pricing.taxAmount drop selections q delivery fee))%Qc by ring.
  apply Qcplus_le_compat; [apply Qcle_refl|].
  repeat apply Qc_0_le_plus; assumption.
Qed.

Lemma flat_nonnegative : Keys.nonnegative Examples.flatDrop.
Proof. repeat split; try discriminate. constructor. Defined.

Lemma totals_nonnegative_witness :
  (0 <= Pricing.unitPrice Examples.flatDrop ∅)%Qc
  ∧ (0 <= Pricing.calculatedSubtotal Examples.flatDrop ∅ 2)%Qc
  ∧ (0 <= Pricing.deliveryFee Examples.flatDrop false)%Qc
  ∧ (0 <= Pricing.bookingFee 2 (Examples.money 1))%Qc
  ∧ (0 <= Pricing.taxAmount Examples.flatDrop ∅ 2 false (Examples.money 1))%Qc
  ∧ (Pricing.calculatedSubtotal Examples.flatDrop ∅ 2
     <= Pricing.orderTotal Examples.flatDrop ∅ 2 false (Examples.money 1))%Qc.
Proof.
  apply (totals_nonnegative Examples.flatDrop ∅ 2 false (Examples.money 1)).
  - exact flat_nonnegative.
  - intros i m g opts H. rewrite lookup_empty in H. discriminate.
  - lia.
  - discriminate.
Defined.

(** ** The quantity controls *)

Lemma quantity_step_positive (remaining : Z) (s : Quantity.State)
      (e : Quantity.Event) :
  1 ≤ Quantity.qty s → 1 ≤ Quantity.qty (Quantity.step remaining s e).
Proof.
  intros Hs. unfold Quantity.step, Quantity.effect.
  assert (H : 1 ≤ Quantity.qty (Quantity.handle remaining s e)).
  { destruct e as [| |value|]; cbn [Quantity.handle].
    - destruct (Quantity.qty s <=? 1); cbn; lia.
    - cbn. lia.
    - destruct (Quantity.digits value); cbn; lia.
    - destruct (Quantity.digits (Quantity.qtyInput s)) eqn:E; [cbn; lia|].
      destruct (Quantity.parseInt _ <? 1) eqn:E1; [cbn; lia|].
      apply Z.ltb_ge in E1. cbn. exact E1. }
  destruct (bool_decide _); exact H.
Qed.

(** X18. Whatever the customer does with the quantity controls (the
    minus and plus buttons, typing, leaving the field), the quantity stays at
    least 1, so the click on Reserve and Pay never answers that the quantity
    must be at least 1. *)
Theorem quantity_stays_positive
  (remaining : Z) (events : list Quantity.Event)
  (a : Client.Ambient) (ui : Client.DropDetail) (w : Client.World) :
  Client.qty ui = Quantity.qty (Quantity.run remaining events) →
  1 ≤ Quantity.qty (Quantity.run remaining events)
  ∧ (Client.handlePurchaseClick a ui w).2
    ≠ Client.QtyError "Quantity must be at least 1.".
Proof.
  intros Hq.
  assert (H : 1 ≤ Quantity.qty (Quantity.run remaining events)).
  { unfold Quantity.run.
    assert (H0 : 1 ≤ Quantity.qty Quantity.initial) by (cbn; lia).
    generalize dependent Quantity.initial. clear Hq.
    induction events as [|e events IH]; intros s Hs; cbn [fold_left].
    - exact Hs.
    - apply IH. now apply quantity_step_positive. }
  split; [exact H|].
  unfold Client.handlePurchaseClick.
  destruct (Selection.validateSelections _ _); [discriminate|].
  replace (Client.qty ui <? 1) with false
    by (symmetry; apply Z.ltb_ge; lia).
  destruct (quantity_remaining (Client.drop ui) <? Client.qty ui);
    [cbn; discriminate|].
  destruct (Client.user ui) as [u|]; [|discriminate].
  destruct (negb (Client.deliveryRequested ui)); [|discriminate].
  destruct (Client.handleConfirmCheckout _ _ _ _ _ _) as [w' [f|url]];
    discriminate.
Qed.

Lemma quantity_stays_positive_witness :
  let events := [Quantity.Change "0"; Quantity.Blur; Quantity.Minus] in
  1 ≤ Quantity.qty (Quantity.run 5 events)
  ∧ (Client.handlePurchaseClick Examples.ambient
       (Examples.page 0 2 Examples.twoPicks) (Examples.world 0 2)).2
    ≠ Client.QtyError "Quantity must be at least 1.".
Proof.
  apply (quantity_stays_positive 5
           [Quantity.Change "0"; Quantity.Blur; Quantity.Minus]
           Examples.ambient (Examples.page 0 2 Examples.twoPicks)
           (Examples.world 0 2)).
  reflexivity.
Defined.

(** X19. When the quantity field loses focus on a page with stock, the
    quantity is at least 1 and the stock error is shown exactly when the
    quantity exceeds the stock. *)
Theorem quantity_blur_exact (remaining : Z) (s : Quantity.State) :
  1 ≤ remaining →
  let s' := Quantity.step remaining s Quantity.Blur in
  1 ≤ Quantity.qty s'
  ∧ (Quantity.qtyError s' = None ↔ Quantity.qty s' ≤ remaining).
Proof.
  intros Hstock. cbv zeta. unfold Quantity.step, Quantity.effect.
  assert (H : 1 ≤ Quantity.qty (Quantity.handle remaining s Quantity.Blur)
              ∧ (Quantity.qtyError (Quantity.handle remaining s Quantity.Blur)
                 = None
                 ↔ Quantity.qty (Quantity.handle remaining s Quantity.Blur)
                   ≤ remaining)).
  { cbn [Quantity.handle].
    destruct (Quantity.digits (Quantity.qtyInput s)) eqn:E;
      [cbn; split; [lia|split; [lia|reflexivity]]|].
    destruct (Quantity.parseInt _ <? 1) eqn:E1;
      [cbn; split; [lia|split; [lia|reflexivity]]|].
    apply Z.ltb_ge in E1. cbn [Quantity.qty Quantity.qtyError].
    split; [exact E1|]. unfold Quantity.stockError.
    destruct (remaining <? Quantity.parseInt _) eqn:E2.
    - apply Z.ltb_lt in E2. split; [discriminate|lia].
    - apply Z.ltb_ge in E2. split; [intros _; exact E2|reflexivity]. }
  destruct (bool_decide _); exact H.
Qed.

Lemma quantity_blur_exact_witness :
  let s' := Quantity.step 5 (Quantity.step 5 Quantity.initial
                               (Quantity.Change "12")) Quantity.Blur in
  1 ≤ Quantity.qty s'
  ∧ (Quantity.qtyError s' = None ↔ Quantity.qty s' ≤ 5).
Proof.
  apply (quantity_blur_exact 5
           (Quantity.step 5 Quantity.initial (Quantity.Change "12"))).
  lia.
Defined.

(** The plus button raises the quantity past the stock without an error;
    typing a zero leaves the field showing 0 while the quantity is 1. *)
Example quantity_quirks :
  (let s := Quantity.run 2 [Quantity.Plus; Quantity.Plus] in
   Quantity.qty s = 3 ∧ Quantity.qtyError s = None)
  ∧ (let s := Quantity.run 2 [Quantity.Change "0"; Quantity.Blur] in
     Quantity.qty s = 1 ∧ Quantity.qtyInput s = "0").
Proof. vm_compute. repeat split. Qed.

(** ** Reward tiers *)

Lemma find_first {A} (f : A → bool) (l : list A) (x : A) :
  List.find f l = Some x →
  ∃ l1 l2, l = l1 ++ x :: l2 ∧ f x = true ∧ Forall (fun y => f y = false) l1.
Proof.
  induction l as [|a l IH]; cbn [List.find]; [discriminate|].
  destruct (f a) eqn:E.
  - intros [= <-]. exists [], l. repeat split; auto.
  - intros H. destruct (IH H) as (l1 & l2 & -> & Hx & Hall).
    exists (a :: l1), l2. repeat split; auto.
Qed.

Lemma find_last {A} (f : A → bool) (l : list A) (x : A) :
  List.find f (rev l) = Some x →
  ∃ l1 l2, l = l1 ++ x :: l2 ∧ f x = true ∧ Forall (fun y => f y = false) l2.
Proof.
  intros H. apply find_first in H as (r1 & r2 & Hr & Hx & Hall).
  exists (rev r2), (rev r1). split; [|split; [exact Hx|]].
  - rewrite <- (rev_involutive l), Hr, rev_app_distr. cbn [rev].
    now rewrite <- app_assoc.
  - apply Forall_forall. intros y Hy. rewrite Forall_forall in Hall.
    apply Hall. apply list_elem_of_In. apply list_elem_of_In in Hy.
    now apply in_rev.
Qed.

Lemma find_none_iff {A} (f : A → bool) (l : list A) :
  List.find f l = None ↔ ∀ x, x ∈ l → f x = false.
Proof.
  split.
  - intros H x Hx. apply (find_none f l H). now apply list_elem_of_In.
  - intros H. destruct (List.find f l) as [x|] eqn:E; [|reflexivity].
    apply find_some in E as [Hin Hx]. apply list_elem_of_In in Hin.
    rewrite (H x Hin) in Hx. discriminate.
Qed.

Lemma sorted_split (ts l1 l2 : list Tiers.QuantityTier) (x : Tiers.QuantityTier) :
  Tiers.ascending ts → ts = l1 ++ x :: l2 →
  Forall (fun y => Tiers.threshold y ≤ Tiers.threshold x) l1
  ∧ Forall (fun y => Tiers.threshold x ≤ Tiers.threshold y) l2.
Proof.
  unfold Tiers.ascending. intros Hs ->.
  induction l1 as [|a l1 IH]; cbn [app] in Hs.
  - apply StronglySorted_inv in Hs as [_ H]. split; [constructor|exact H].
  - apply StronglySorted_inv in Hs as [Hs Ha].
    destruct (IH Hs) as [H1 H2]. split; [|exact H2].
    constructor; [|exact H1].
    rewrite Forall_forall in Ha. apply Ha. rewrite elem_of_app.
    right. left.
Qed.

(** X20. With thresholds that do not decrease along the list: the next
    tier is the nearest one not yet reached (so the banner asks for a positive
    number of packages more), the current tier is the highest one reached, no
    next tier means every tier is reached, and no current tier means none
    is. *)
Theorem tiers_bracket (ts : list Tiers.QuantityTier) (qty : Z) :
  Tiers.ascending ts →
  (∀ n, Tiers.nextTier (Some ts) qty = Some n →
        n ∈ ts ∧ 0 < Tiers.threshold n - qty
        ∧ ∀ t, t ∈ ts → qty < Tiers.threshold t →
               Tiers.threshold n ≤ Tiers.threshold t)
  ∧ (∀ c, Tiers.currentTier (Some ts) qty = Some c →
          c ∈ ts ∧ Tiers.threshold c ≤ qty
          ∧ ∀ t, t ∈ ts → Tiers.threshold t ≤ qty →
                 Tiers.threshold t ≤ Tiers.threshold c)
  ∧ (Tiers.nextTier (Some ts) qty = None ↔
     ∀ t, t ∈ ts → Tiers.threshold t ≤ qty)
  ∧ (Tiers.currentTier (Some ts) qty = None ↔
     ∀ t, t ∈ ts → qty < Tiers.threshold t).
Proof.
  intros Hs. unfold Tiers.nextTier, Tiers.currentTier.
  change (default [] (Some ts)) with ts.
  split; [|split; [|split]].
  - intros n Hn. apply find_first in Hn as (l1 & l2 & Hts & Hx & Hall).
    apply Z.ltb_lt in Hx.
    destruct (sorted_split ts l1 l2 n Hs Hts) as [_ Hafter].
    split; [rewrite Hts, elem_of_app; right; left|].
    split; [lia|]. intros t Ht Hq. rewrite Hts in Ht.
    apply elem_of_app in Ht as [Ht|Ht].
    + rewrite Forall_forall in Hall. specialize (Hall t Ht).
      apply Z.ltb_ge in Hall. lia.
    + apply elem_of_cons in Ht as [->|Ht]; [lia|].
      rewrite Forall_forall in Hafter. now apply Hafter.
  - intros c Hc. apply find_last in Hc as (l1 & l2 & Hts & Hx & Hall).
    apply Z.leb_le in Hx.
    destruct (sorted_split ts l1 l2 c Hs Hts) as [Hbefore _].
    split; [rewrite Hts, elem_of_app; right; left|].
    split; [exact Hx|]. intros t Ht Hq. rewrite Hts in Ht.
    apply elem_of_app in Ht as [Ht|Ht].
    + rewrite Forall_forall in Hbefore. now apply Hbefore.
    + apply elem_of_cons in Ht as [->|Ht]; [lia|].
      rewrite Forall_forall in Hall. specialize (Hall t Ht).
      apply Z.leb_gt in Hall. lia.
  - rewrite find_none_iff. split; intros H t Ht.
    + specialize (H t Ht). now apply Z.ltb_ge in H.
    + apply Z.ltb_ge. now apply H.
  - rewrite find_none_iff. split; intros H t Ht.
    + assert (Hin : t ∈ rev ts)
        by (apply list_elem_of_In, in_rev; rewrite rev_involutive;
            now apply list_elem_of_In).
      specialize (H t Hin). now apply Z.leb_gt in H.
    + apply Z.leb_gt. apply H. apply list_elem_of_In, in_rev in Ht.
      now apply list_elem_of_In.
Qed.

Lemma sample_tiers_ascending : Tiers.ascending Samples.tiers.
Proof.
  repeat constructor. cbn. lia.
Defined.

Lemma tiers_bracket_witness :
  (∀ n, Tiers.nextTier (Some Samples.tiers) 4 = Some n →
        n ∈ Samples.tiers ∧ 0 < Tiers.threshold n - 4
        ∧ ∀ t, t ∈ Samples.tiers → 4 < Tiers.threshold t →
               Tiers.threshold n ≤ Tiers.threshold t)
  ∧ (∀ c, Tiers.currentTier (Some Samples.tiers) 4 = Some c →
          c ∈ Samples.tiers ∧ Tiers.threshold c ≤ 4
          ∧ ∀ t, t ∈ Samples.tiers → Tiers.threshold t ≤ 4 →
                 Tiers.threshold t ≤ Tiers.threshold c)
  ∧ (Tiers.nextTier (Some Samples.tiers) 4 = None ↔
     ∀ t, t ∈ Samples.tiers → Tiers.threshold t ≤ 4)
  ∧ (Tiers.currentTier (Some Samples.tiers) 4 = None ↔
     ∀ t, t ∈ Samples.tiers → 4 < Tiers.threshold t).
Proof.
  apply (tiers_bracket Samples.tiers 4). exact sample_tiers_ascending.
Defined.

(** With four packages in the cart the first tier is unlocked and one more
    package reaches the second. *)
Example tiers_at_four :
  Tiers.reward <$> Tiers.currentTier (Some Samples.tiers) 4 = Some "Free drink"
  ∧ Tiers.threshold <$> Tiers.nextTier (Some Samples.tiers) 4 = Some 5.
Proof. split; reflexivity. Qed.

(** ** Users *)

Lemma before_at_free (s : string) : Auth.has_at (Auth.before_at s) = false.
Proof.
  induction s as [|c s IH]; [reflexivity|]. cbn [Auth.before_at].
  destruct (bool_decide (c = Ascii.ascii_of_nat 64)) eqn:E; [reflexivity|].
  cbn [Auth.has_at]. now rewrite E, IH.
Qed.

Lemma or_else_truthy (s : option string) (v : string) :
  Num.or_else s None = Some v → v ≠ EmptyString.
Proof.
  unfold Num.or_else. destruct s as [[|c s]|]; cbn; congruence.
Qed.

Lemma session_name (su : Auth.SessionUser) :
  Auth.name (Auth.mapSessionToUser su) ≠ EmptyString
  ∧ Auth.has_at (Auth.name (Auth.mapSessionToUser su)) = false.
Proof.
  cbn [Auth.mapSessionToUser Auth.name].
  destruct (Num.or_else (Auth.before_at <$> Auth.su_email su) None)
    as [v|] eqn:E; cbn [default].
  - split; [exact (or_else_truthy _ _ E)|].
    unfold Num.or_else in E.
    destruct (Auth.su_email su) as [e|]; [|discriminate].
    change (Auth.before_at <$> Some e) with (Some (Auth.before_at e)) in E.
    destruct (Num.truthy (Some (Auth.before_at e))); [|discriminate].
    injection E as <-. apply before_at_free.
  - split; [discriminate|reflexivity].
Qed.

(** X21. The user [getCurrentUser] returns always has a display name
    that is not empty, and is a vendor or an administrator only if the single
    profile row of the session's user says so: without such a row the user is
    neither, and the name, taken from the e-mail address, contains no at
    sign. *)
Theorem current_user_privileges
  (session : Auth.SessionResult) (profiles : list Auth.Profile) (u : Auth.User) :
  Auth.getCurrentUser session profiles = inr (Some u) →
  Auth.name u ≠ EmptyString
  ∧ ∃ su, session = Auth.Session su
          ∧ Auth.id u = Auth.su_id su
          ∧ match Auth.getProfile (Auth.su_id su) profiles with
            | Some profile =>
                Auth.pf_id profile = Auth.su_id su
                ∧ Auth.isAdmin u = Auth.is_admin profile
                ∧ Auth.isVendor u = Auth.is_vendor profile
            | None =>
                Auth.isAdmin u = false ∧ Auth.isVendor u = false
                ∧ Auth.has_at (Auth.name u) = false
            end.
Proof.
  unfold Auth.getCurrentUser.
  destruct session as [| |su]; try discriminate.
  destruct (Auth.getProfile (Auth.su_id su) profiles) as [profile|] eqn:E;
    intros [= <-].
  - split.
    + cbn [Auth.mapProfileToUser Auth.name].
      destruct (Auth.pf_name profile) as [|c s]; cbn; discriminate.
    + exists su. split; [reflexivity|]. rewrite E.
      unfold Auth.getProfile in E.
      destruct (filter _ profiles) as [|p [|]] eqn:Ef; try discriminate.
      injection E as ->.
      assert (Hin : profile ∈ filter (fun p => Auth.pf_id p = Auth.su_id su)
                      profiles) by (rewrite Ef; left).
      apply list_elem_of_filter in Hin as [Hid _].
      cbn. rewrite Hid. repeat split.
  - split; [apply session_name|].
    exists su. split; [reflexivity|]. rewrite E.
    repeat split. apply session_name.
Qed.

Lemma current_user_privileges_witness :
  let u := Auth.mapSessionToUser Samples.guest in
  Auth.name u ≠ EmptyString
  ∧ ∃ su, Auth.Session Samples.guest = Auth.Session su
          ∧ Auth.id u = Auth.su_id su
          ∧ match Auth.getProfile (Auth.su_id su) [] with
            | Some profile =>
                Auth.pf_id profile = Auth.su_id su
                ∧ Auth.isAdmin u = Auth.is_admin profile
                ∧ Auth.isVendor u = Auth.is_vendor profile
            | None =>
                Auth.isAdmin u = false ∧ Auth.isVendor u = false
                ∧ Auth.has_at (Auth.name u) = false
            end.
Proof.
  apply (current_user_privileges (Auth.Session Samples.guest) []
           (Auth.mapSessionToUser Samples.guest)).
  reflexivity.
Defined.

(** The guest of the samples is shown as "lee". *)
Example guest_name : Auth.name (Auth.mapSessionToUser Samples.guest) = "lee".
Proof. reflexivity. Qed.

(** ** Input checks *)

Lemma Forall_dropWhile (P : N → Prop) (p : N → bool) (s : list N) :
  Forall P s → Forall P (Security.dropWhile p s).
Proof.
  induction 1 as [|x s Hx Hs IH]; cbn; [constructor|].
  destruct (p x); [exact IH | constructor; assumption].
Qed.

Lemma Forall_trim (P : N → Prop) (s : list N) :
  Forall P s → Forall P (Security.trim s).
Proof.
  intros H. unfold Security.trim.
  apply Forall_rev, Forall_dropWhile, Forall_rev, Forall_dropWhile, H.
Qed.

Lemma Forall_replace (P : N → Prop) (c : N) (by_ s : list N) :
  Forall P by_ → Forall (fun x => x ≠ c → P x) s →
  Forall P (Security.replace c by_ s).
Proof.
  intros Hby. unfold Security.replace.
  induction 1 as [|x s Hx Hs IH]; cbn; [constructor|].
  apply Forall_app. split; [|exact IH].
  destruct (N.eqb_spec x c) as [->|Hne]; [exact Hby|].
  constructor; [auto | constructor].
Qed.

Lemma Forall_remove_angles (s : list N) :
  Forall (fun x => x ≠ Security.lt_sign ∧ x ≠ Security.gt_sign)
    (Security.remove_angles s).
Proof.
  unfold Security.remove_angles. apply List.Forall_forall. intros x Hx.
  apply filter_In in Hx. destruct Hx as [_ Hx].
  apply negb_true_iff, orb_false_iff in Hx. destruct Hx as [H1 H2].
  apply N.eqb_neq in H1, H2. split; assumption.
Qed.

Lemma replaced_clean (s : list N) :
  Forall (fun c => Security.markup c = false)
    (Security.replace Security.slash Security.slash_entity
       (Security.replace Security.single_quote Security.apos_entity
          (Security.replace Security.double_quote Security.quot_entity
             (Security.replace Security.ampersand Security.amp_entity
                (Security.remove_angles s))))).
Proof.
  apply Forall_replace; [repeat constructor|].
  apply Forall_replace; [repeat constructor; intros _; reflexivity|].
  apply Forall_replace; [repeat constructor; intros _ _; reflexivity|].
  apply Forall_replace; [repeat constructor; intros _ _ _; reflexivity|].
  eapply Forall_impl; [apply Forall_remove_angles|].
  intros x [H1 H2] _ H3 H4 H5. unfold Security.markup.
  apply N.eqb_neq in H1, H2, H3, H4, H5.
  rewrite H1, H2, H3, H4, H5. reflexivity.
Qed.

Lemma sanitize_clean (s : list N) :
  Forall (fun c => Security.markup c = false) (Security.sanitizeInput s).
Proof.
  destruct s as [|x s]; [constructor|].
  unfold Security.sanitizeInput. apply Forall_trim, replaced_clean.
Qed.

Lemma dropWhile_head (p : N → bool) (s : list N) (c : N) :
  head (Security.dropWhile p s) = Some c → p c = false.
Proof.
  induction s as [|x s IH]; cbn; [discriminate|].
  destruct (p x) eqn:E; [exact IH|].
  cbn. intros [= <-]. exact E.
Qed.

Lemma dropWhile_suffix (p : N → bool) (s : list N) :
  ∃ k, s = k ++ Security.dropWhile p s.
Proof.
  induction s as [|x s [k IH]]; cbn; [exists []; reflexivity|].
  destruct (p x).
  - exists (x :: k). cbn. f_equal. exact IH.
  - exists []. reflexivity.
Qed.

Lemma dropWhile_id (p : N → bool) (s : list N) :
  (∀ c, head s = Some c → p c = false) → Security.dropWhile p s = s.
Proof.
  destruct s as [|x s]; [reflexivity|]. intros H. cbn.
  rewrite (H x eq_refl). reflexivity.
Qed.

Lemma head_rev (s : list N) : head (rev s) = last s.
Proof.
  induction s as [|x s IH] using rev_ind; [reflexivity|].
  rewrite rev_app_distr, last_snoc. reflexivity.
Qed.

Lemma last_rev (s : list N) : last (rev s) = head s.
Proof. rewrite <- head_rev, rev_involutive. reflexivity. Qed.

Lemma head_app_some (a b : list N) (c : N) :
  head a = Some c → head (a ++ b) = Some c.
Proof. destruct a; [discriminate | exact id]. Qed.

Lemma trim_last (s : list N) (c : N) :
  last (Security.trim s) = Some c → Security.is_space c = false.
Proof.
  unfold Security.trim. rewrite last_rev. apply dropWhile_head.
Qed.

Lemma trim_head (s : list N) (c : N) :
  head (Security.trim s) = Some c → Security.is_space c = false.
Proof.
  unfold Security.trim. intros H.
  set (a := Security.dropWhile Security.is_space s) in *.
  destruct (dropWhile_suffix Security.is_space (rev a)) as [k Hk].
  set (b := Security.dropWhile Security.is_space (rev a)) in *.
  assert (Ha : a = rev b ++ rev k).
  { rewrite <- rev_app_distr, <- Hk, rev_involutive. reflexivity. }
  apply (dropWhile_head Security.is_space s). fold a.
  rewrite Ha. apply head_app_some, H.
Qed.

Lemma trim_id (s : list N) :
  (∀ c, head s = Some c → Security.is_space c = false) →
  (∀ c, last s = Some c → Security.is_space c = false) →
  Security.trim s = s.
Proof.
  intros Hh Hl. unfold Security.trim.
  rewrite (dropWhile_id _ s Hh).
  rewrite dropWhile_id; [apply rev_involutive|].
  intros c. rewrite head_rev. apply Hl.
Qed.

Lemma trim_idem (s : list N) :
  Security.trim (Security.trim s) = Security.trim s.
Proof. apply trim_id; [apply trim_head | apply trim_last]. Qed.

Lemma remove_angles_id (s : list N) :
  Forall (fun c => Security.markup c = false) s →
  Security.remove_angles s = s.
Proof.
  unfold Security.remove_angles.
  induction 1 as [|x s Hx Hs IH]; cbn; [reflexivity|].
  unfold Security.markup in Hx.
  repeat (apply orb_false_iff in Hx; destruct Hx as [Hx ?]).
  rewrite Hx. replace (x =? Security.gt_sign)%N with false by congruence.
  cbn. f_equal. exact IH.
Qed.

Lemma replace_id (c : N) (by_ s : list N) :
  Forall (fun x => x ≠ c) s → Security.replace c by_ s = s.
Proof.
  unfold Security.replace.
  induction 1 as [|x s Hx Hs IH]; cbn; [reflexivity|].
  apply N.eqb_neq in Hx. rewrite Hx. cbn. f_equal. exact IH.
Qed.

Lemma markup_cases (c : N) :
  Security.markup c = false →
  c ≠ Security.lt_sign ∧ c ≠ Security.gt_sign ∧ c ≠ Security.double_quote
  ∧ c ≠ Security.single_quote ∧ c ≠ Security.slash.
Proof.
  unfold Security.markup. intros H.
  repeat (apply orb_false_iff in H; destruct H as [H ?]).
  repeat split; apply N.eqb_neq; assumption.
Qed.

Lemma sanitize_id (s : list N) :
  Forall (fun c => Security.markup c = false ∧ c ≠ Security.ampersand) s →
  Security.trim s = s →
  Security.sanitizeInput s = s.
Proof.
  intros H Ht. destruct s as [|x s]; [reflexivity|].
  unfold Security.sanitizeInput.
  rewrite remove_angles_id
    by (eapply Forall_impl; [exact H | intros ? [? _]; assumption]).
  rewrite (replace_id Security.ampersand)
    by (eapply Forall_impl; [exact H | intros ? [_ ?]; assumption]).
  rewrite (replace_id Security.double_quote)
    by (eapply Forall_impl; [exact H |
        intros ? [Hm _]; apply markup_cases in Hm; tauto]).
  rewrite (replace_id Security.single_quote)
    by (eapply Forall_impl; [exact H |
        intros ? [Hm _]; apply markup_cases in Hm; tauto]).
  rewrite (replace_id Security.slash)
    by (eapply Forall_impl; [exact H |
        intros ? [Hm _]; apply markup_cases in Hm; tauto]).
  exact Ht.
Qed.

(** The number of code units that are not white space. *)
Lemma solid_dropWhile (s : list N) :
  length (List.filter (fun c => negb (Security.is_space c))
            (Security.dropWhile Security.is_space s))
  = length (List.filter (fun c => negb (Security.is_space c)) s).
Proof.
  induction s as [|x s IH]; [reflexivity|]. cbn.
  destruct (Security.is_space x) eqn:E; cbn; [exact IH|].
  rewrite E. reflexivity.
Qed.

Lemma solid_trim (s : list N) :
  length (List.filter (fun c => negb (Security.is_space c)) (Security.trim s))
  = length (List.filter (fun c => negb (Security.is_space c)) s).
Proof.
  unfold Security.trim.
  rewrite filter_rev, length_rev, solid_dropWhile, filter_rev, length_rev.
  apply solid_dropWhile.
Qed.

Lemma solid_replace (c : N) (by_ s : list N) :
  Security.is_space c = false →
  (1 <= length (List.filter (fun c => negb (Security.is_space c)) by_))%nat →
  (length (List.filter (fun c => negb (Security.is_space c)) s)
   <= length (List.filter (fun c => negb (Security.is_space c))
                (Security.replace c by_ s)))%nat.
Proof.
  intros Hc Hby. unfold Security.replace.
  induction s as [|x s IH]; [reflexivity|]. cbn [flat_map].
  rewrite List.filter_app, length_app.
  destruct (N.eqb_spec x c) as [->|Hne]; cbn [List.filter].
  - rewrite Hc. cbn. lia.
  - destruct (Security.is_space x); cbn; lia.
Qed.

Lemma solid_replace_grows (c : N) (by_ s : list N) :
  Security.is_space c = false →
  (2 <= length (List.filter (fun c => negb (Security.is_space c)) by_))%nat →
  In c s →
  (length (List.filter (fun c => negb (Security.is_space c)) s)
   < length (List.filter (fun c => negb (Security.is_space c))
               (Security.replace c by_ s)))%nat.
Proof.
  intros Hc Hby. induction s as [|x s IH]; [intros []|].
  intros Hin.
  change (Security.replace c by_ (x :: s))
    with ((if (x =? c)%N then by_ else [x]) ++ Security.replace c by_ s).
  rewrite List.filter_app, length_app.
  assert (Hle := solid_replace c by_ s Hc ltac:(lia)).
  destruct (N.eqb_spec x c) as [->|Hne]; cbn [List.filter].
  - rewrite Hc. cbn. lia.
  - destruct Hin as [->|Hin]; [congruence|]. specialize (IH Hin).
    destruct (Security.is_space x); cbn; lia.
Qed.

(** X22: whatever the input, the text [sanitizeInput] returns contains none
    of the characters [<], [>], the double quote, the single quote and the
    slash, and neither starts nor ends with white space. *)
Theorem sanitize_output_clean (input : list N) :
  Forall (fun c => Security.markup c = false) (Security.sanitizeInput input)
  ∧ (∀ c, head (Security.sanitizeInput input) = Some c →
          Security.is_space c = false)
  ∧ (∀ c, last (Security.sanitizeInput input) = Some c →
          Security.is_space c = false).
Proof.
  split; [apply sanitize_clean|].
  destruct input as [|x s]; [split; intros c; discriminate|].
  unfold Security.sanitizeInput. split; intros c.
  - apply trim_head.
  - apply trim_last.
Qed.

(** X23: the texts [sanitizeInput] leaves unchanged are exactly those without
    [<], [>], [&], quotes and slashes and without white space at either end.
    A text with an ampersand is therefore escaped again on each pass. *)
Theorem sanitize_fixed_points (s : list N) :
  Security.sanitizeInput s = s
  ↔ Forall (fun c => Security.markup c = false ∧ c ≠ Security.ampersand) s
    ∧ Security.trim s = s.
Proof.
  split; [|intros [H Ht]; apply sanitize_id; assumption].
  intros Hfix.
  assert (Hclean : Forall (fun c => Security.markup c = false) s).
  { rewrite <- Hfix. apply sanitize_clean. }
  assert (Htrim : Security.trim s = s).
  { destruct s as [|x s]; [reflexivity|].
    rewrite <- Hfix at 1. unfold Security.sanitizeInput.
    rewrite trim_idem. exact Hfix. }
  split; [|exact Htrim].
  apply List.Forall_forall. intros c Hc.
  split; [exact (proj1 (List.Forall_forall _ _) Hclean c Hc)|].
  intros ->. destruct s as [|x s]; [destruct Hc|].
  unfold Security.sanitizeInput in Hfix.
  rewrite (remove_angles_id _ Hclean) in Hfix.
  apply (f_equal (fun t =>
    length (List.filter (fun c => negb (Security.is_space c)) t))) in Hfix.
  rewrite solid_trim in Hfix.
  assert (H1 := solid_replace_grows Security.ampersand Security.amp_entity
                  (x :: s) eq_refl ltac:(cbn; lia) Hc).
  set (s1 := Security.replace Security.ampersand Security.amp_entity (x :: s))
    in *.
  assert (H2 := solid_replace Security.double_quote Security.quot_entity s1
                  eq_refl ltac:(cbn; lia)).
  set (s2 := Security.replace Security.double_quote Security.quot_entity s1)
    in *.
  assert (H3 := solid_replace Security.single_quote Security.apos_entity s2
                  eq_refl ltac:(cbn; lia)).
  set (s3 := Security.replace Security.single_quote Security.apos_entity s2)
    in *.
  assert (H4 := solid_replace Security.slash Security.slash_entity s3
                  eq_refl ltac:(cbn; lia)).
  lia.
Qed.

Example sanitize_twice :
  Security.sanitizeInput Samples.markupName
  = [98; 84; 111; 109; 32; 38; 97; 109; 112; 59; 32; 38; 113; 117; 111; 116;
     59; 67; 111; 38; 113; 117; 111; 116; 59; 38; 35; 120; 50; 70; 59; 98]%N
  ∧ Security.sanitizeInput (Security.sanitizeInput [Security.ampersand])
    = [38; 97; 109; 112; 59; 97; 109; 112; 59]%N.
Proof. split; reflexivity. Qed.

Lemma split_at_sound (c : N) (s a b : list N) :
  Security.split_at c s = Some (a, b) → s = a ++ c :: b ∧ ¬ In c a.
Proof.
  revert a. induction s as [|x s IH]; intros a; cbn; [discriminate|].
  destruct (N.eqb_spec x c) as [->|Hne].
  - intros [= <- <-]. split; [reflexivity | intros []].
  - destruct (Security.split_at c s) as [[a' b']|]; [|discriminate].
    intros [= <- <-]. destruct (IH a' eq_refl) as [-> Hin].
    split; [reflexivity|]. intros [?|?]; [congruence | auto].
Qed.

Lemma split_at_complete (c : N) (a b : list N) :
  ¬ In c a → Security.split_at c (a ++ c :: b) = Some (a, b).
Proof.
  induction a as [|x a IH]; intros Hin; cbn.
  - rewrite N.eqb_refl. reflexivity.
  - destruct (N.eqb_spec x c) as [->|Hne]; [destruct Hin; now left|].
    rewrite IH; [reflexivity|]. intros ?. apply Hin. now right.
Qed.

Lemma forallb_rev (p : N → bool) (s : list N) :
  forallb p (rev s) = forallb p s.
Proof.
  induction s as [|x s IH]; [reflexivity|]. cbn.
  rewrite forallb_app, IH. cbn. rewrite andb_true_r. apply andb_comm.
Qed.

Lemma forallb_excludes (p : N → bool) (c : N) (s : list N) :
  p c = false → forallb p s = true → ¬ In c s.
Proof.
  intros Hc Hs Hin. rewrite forallb_forall in Hs.
  rewrite (Hs c Hin) in Hc. discriminate.
Qed.

Lemma nonempty_true (s : list N) :
  negb (bool_decide (s = [])) = true ↔ s ≠ [].
Proof.
  rewrite negb_true_iff, bool_decide_eq_false. reflexivity.
Qed.

Lemma email_parts (email : list N) :
  Security.validateEmail email = true
  ↔ ∃ l d t,
      email = l ++ Security.at_sign :: d ++ Security.dot :: t
      ∧ l ≠ [] ∧ forallb Security.local_char l = true
      ∧ d ≠ [] ∧ forallb Security.domain_char d = true
      ∧ (2 <= length t <= 6)%nat ∧ forallb Security.letter t = true.
Proof.
  unfold Security.validateEmail. split.
  - destruct (Security.split_at Security.at_sign email) as [[l rest]|] eqn:E1;
      [|discriminate].
    destruct (Security.split_at Security.dot (rev rest)) as [[t d]|] eqn:E2;
      [|discriminate].
    apply split_at_sound in E1, E2. destruct E1 as [-> _], E2 as [E2 _].
    apply (f_equal (@rev N)) in E2.
    rewrite rev_involutive, rev_app_distr in E2. cbn in E2.
    rewrite <- app_assoc in E2. cbn in E2. subst rest.
    rewrite !andb_true_iff, !nonempty_true, !Nat.leb_le.
    intros [[[[[[Hl Hlc] Hd] Hdc] H2] H6] Ht].
    exists l, (rev d), (rev t). rewrite !forallb_rev, !length_rev.
    repeat split; try assumption.
    intros H. apply Hd. apply (f_equal (@rev N)) in H.
    rewrite rev_involutive in H. exact H.
  - intros (l & d & t & -> & Hl & Hlc & Hd & Hdc & [H2 H6] & Ht).
    assert (E1 : Security.split_at Security.at_sign
                   (l ++ Security.at_sign :: d ++ Security.dot :: t)
                 = Some (l, d ++ Security.dot :: t)).
    { apply split_at_complete.
      apply (forallb_excludes Security.local_char); [reflexivity | exact Hlc]. }
    rewrite E1.
    assert (E2 : Security.split_at Security.dot (rev (d ++ Security.dot :: t))
                 = Some (rev t, rev d)).
    { rewrite rev_app_distr. cbn. rewrite <- app_assoc. cbn.
      apply split_at_complete.
      apply (forallb_excludes Security.letter); [reflexivity|].
      rewrite forallb_rev. exact Ht. }
    rewrite E2. rewrite !forallb_rev, !length_rev.
    rewrite !andb_true_iff, !nonempty_true, !Nat.leb_le.
    repeat split; try assumption.
    intros H. apply Hd. apply (f_equal (@rev N)) in H.
    rewrite rev_involutive in H. exact H.
Qed.

(** A code unit that may occur in an accepted address. *)
Lemma address_char_plain (c : N) :
  Security.local_char c = true ∨ c = Security.at_sign →
  (Security.markup c = false ∧ c ≠ Security.ampersand)
  ∧ Security.is_space c = false.
Proof.
  intros H.
  assert (Hc : (45 <= c <= 122)%N ∧ c ≠ 47%N ∧ c ≠ 60%N ∧ c ≠ 62%N).
  { destruct H as [H| ->]; [|vm_compute; repeat split; congruence].
    unfold Security.local_char, Security.alnum, Security.letter,
      Security.within in H.
    rewrite !orb_true_iff, !andb_true_iff, !N.leb_le, !N.eqb_eq in H. lia. }
  destruct Hc as (Hr & H47 & H60 & H62).
  repeat split.
  - unfold Security.markup, Security.lt_sign, Security.gt_sign,
      Security.double_quote, Security.single_quote, Security.slash.
    rewrite !orb_false_iff, !N.eqb_neq. lia.
  - unfold Security.ampersand. lia.
  - unfold Security.is_space, Security.within.
    rewrite !orb_false_iff, !andb_false_iff, !N.leb_gt, !N.eqb_neq. lia.
Qed.

Lemma class_inclusions (c : N) :
  (Security.letter c = true → Security.domain_char c = true)
  ∧ (Security.domain_char c = true → Security.local_char c = true).
Proof.
  unfold Security.domain_char, Security.local_char, Security.alnum.
  split; intros H.
  - rewrite H. rewrite orb_true_r. reflexivity.
  - rewrite !orb_true_iff in *. tauto.
Qed.

Lemma email_chars (email : list N) :
  Security.validateEmail email = true →
  Forall (fun c => Security.local_char c = true ∨ c = Security.at_sign) email.
Proof.
  intros H. apply email_parts in H.
  destruct H as (l & d & t & -> & _ & Hl & _ & Hd & _ & Ht).
  rewrite forallb_forall in Hl, Hd, Ht.
  apply List.Forall_forall. intros c Hc.
  apply in_app_or in Hc. destruct Hc as [Hc|[<-|Hc]]; [left; auto | now right|].
  apply in_app_or in Hc. destruct Hc as [Hc|[<-|Hc]].
  - left. apply class_inclusions. auto.
  - left. reflexivity.
  - left. apply class_inclusions, class_inclusions. auto.
Qed.

Lemma email_unchanged (email : list N) :
  Security.validateEmail email = true → Security.sanitizeInput email = email.
Proof.
  intros H. apply email_chars in H.
  assert (Hp : Forall (fun c => (Security.markup c = false
                                 ∧ c ≠ Security.ampersand)
                                ∧ Security.is_space c = false) email).
  { eapply Forall_impl; [exact H | apply address_char_plain]. }
  clear H. apply sanitize_id.
  - eapply Forall_impl; [exact Hp | intros ? [? _]; assumption].
  - rewrite List.Forall_forall in Hp.
    apply trim_id; intros c Hc; apply (Hp c).
    + destruct email; [discriminate|]. injection Hc as ->. now left.
    + apply list_elem_of_In. apply last_Some in Hc. destruct Hc as [k ->].
      apply elem_of_app. right. left.
Qed.

(** X24: [validateEmail] accepts exactly the texts made of a non-empty run of
    letters, digits, [.], [_] and [-], an at sign, a non-empty run of letters,
    digits, [.] and [-], a dot, and two to six letters; so an accepted
    address has exactly one at sign and needs no sanitizing. *)
Theorem validateEmail_shape (email : list N) :
  Security.validateEmail email = true
  ↔ ∃ l d t,
      email = l ++ Security.at_sign :: d ++ Security.dot :: t
      ∧ l ≠ [] ∧ forallb Security.local_char l = true
      ∧ d ≠ [] ∧ forallb Security.domain_char d = true
      ∧ (2 <= length t <= 6)%nat ∧ forallb Security.letter t = true
      ∧ Security.sanitizeInput email = email.
Proof.
  split.
  - intros H. assert (Hs := email_unchanged email H).
    apply email_parts in H. destruct H as (l & d & t & H).
    exists l, d, t. intuition.
  - intros (l & d & t & H). apply email_parts. exists l, d, t. intuition.
Qed.

Lemma dropWhile_keeps (p : N → bool) (c : N) (s : list N) :
  In c s → p c = false → In c (Security.dropWhile p s).
Proof.
  intros Hin Hc. induction s as [|x s IH]; [destruct Hin|]. cbn.
  destruct (p x) eqn:E; [|exact Hin].
  destruct Hin as [->|Hin]; [congruence | auto].
Qed.

Lemma trim_keeps (c : N) (s : list N) :
  In c s → Security.is_space c = false → In c (Security.trim s).
Proof.
  intros Hin Hc. unfold Security.trim.
  apply in_rev. rewrite rev_involutive.
  apply dropWhile_keeps; [|exact Hc].
  apply -> in_rev. apply dropWhile_keeps; assumption.
Qed.

Lemma replace_keeps (c a : N) (by_ s : list N) :
  In a s → a ≠ c → In a (Security.replace c by_ s).
Proof.
  intros Hin Hne. unfold Security.replace. apply in_flat_map.
  exists a. split; [exact Hin|].
  apply N.eqb_neq in Hne. rewrite Hne. now left.
Qed.

Lemma replace_marks (c a : N) (by_ s : list N) :
  In c s → In a by_ → In a (Security.replace c by_ s).
Proof.
  intros Hin Ha. unfold Security.replace. apply in_flat_map.
  exists c. split; [exact Hin|]. rewrite N.eqb_refl. exact Ha.
Qed.

Lemma replace_length (c : N) (by_ s : list N) :
  (1 <= length by_)%nat →
  (length s <= length (Security.replace c by_ s))%nat.
Proof.
  intros Hby. unfold Security.replace.
  induction s as [|x s IH]; [reflexivity|]. cbn [flat_map].
  rewrite length_app. destruct (x =? c)%N; cbn; lia.
Qed.

Lemma absent (c : N) (s : list N) : ¬ In c s → Forall (fun x => x ≠ c) s.
Proof.
  intros H. apply List.Forall_forall. intros x Hx ->. exact (H Hx).
Qed.

(** When the sanitized text has no ampersand, nothing was escaped. *)
Lemma sanitize_unescaped (s : list N) :
  ¬ In Security.ampersand (Security.sanitizeInput s) →
  Security.sanitizeInput s = Security.trim (Security.remove_angles s).
Proof.
  destruct s as [|x s]; [reflexivity|].
  unfold Security.sanitizeInput.
  set (u := Security.remove_angles (x :: s)).
  set (r1 := Security.replace Security.ampersand Security.amp_entity u).
  set (r2 := Security.replace Security.double_quote Security.quot_entity r1).
  set (r3 := Security.replace Security.single_quote Security.apos_entity r2).
  set (r4 := Security.replace Security.slash Security.slash_entity r3).
  intros Hno.
  assert (H4 : ¬ In Security.ampersand r4).
  { intros H. apply Hno. apply trim_keeps; [exact H | reflexivity]. }
  assert (S3 : ¬ In Security.slash r3).
  { intros H. apply H4. apply replace_marks; [exact H | now left]. }
  assert (H3 : ¬ In Security.ampersand r3).
  { intros H. apply H4. apply replace_keeps; [exact H | discriminate]. }
  assert (S2 : ¬ In Security.single_quote r2).
  { intros H. apply H3. apply replace_marks; [exact H | now left]. }
  assert (H2 : ¬ In Security.ampersand r2).
  { intros H. apply H3. apply replace_keeps; [exact H | discriminate]. }
  assert (S1 : ¬ In Security.double_quote r1).
  { intros H. apply H2. apply replace_marks; [exact H | now left]. }
  assert (H1 : ¬ In Security.ampersand r1).
  { intros H. apply H2. apply replace_keeps; [exact H | discriminate]. }
  assert (S0 : ¬ In Security.ampersand u).
  { intros H. apply H1. apply replace_marks; [exact H | now left]. }
  assert (E1 : r1 = u) by (apply replace_id, absent, S0).
  assert (E2 : r2 = r1) by (apply replace_id, absent, S1).
  assert (E3 : r3 = r2) by (apply replace_id, absent, S2).
  assert (E4 : r4 = r3) by (apply replace_id, absent, S3).
  congruence.
Qed.

Lemma last_app_some (a b : list N) (c : N) :
  last b = Some c → last (a ++ b) = Some c.
Proof.
  intros H. apply last_Some in H. destruct H as [k ->].
  rewrite app_assoc. apply last_snoc.
Qed.

Lemma sanitize_trimmed (s : list N) :
  Forall (fun c => Security.markup c = false) s →
  (∀ c, head s = Some c → Security.is_space c = false) →
  (∀ c, last s = Some c → Security.is_space c = false) →
  Security.sanitizeInput s
  = Security.replace Security.ampersand Security.amp_entity s.
Proof.
  intros Hclean Hhead Hlast. destruct s as [|x r]; [reflexivity|].
  unfold Security.sanitizeInput. remember (x :: r) as s eqn:E.
  rewrite (remove_angles_id _ Hclean).
  set (t := Security.replace Security.ampersand Security.amp_entity s).
  assert (Ht : Forall (fun c => Security.markup c = false) t).
  { apply Forall_replace; [repeat constructor|].
    eapply Forall_impl; [exact Hclean | auto]. }
  rewrite (replace_id Security.double_quote)
    by (eapply Forall_impl; [exact Ht |
        intros ? Hm; apply markup_cases in Hm; tauto]).
  rewrite (replace_id Security.single_quote)
    by (eapply Forall_impl; [exact Ht |
        intros ? Hm; apply markup_cases in Hm; tauto]).
  rewrite (replace_id Security.slash)
    by (eapply Forall_impl; [exact Ht |
        intros ? Hm; apply markup_cases in Hm; tauto]).
  apply trim_id; intros c; subst t.
  - rewrite E. cbn.
    destruct (N.eqb_spec x Security.ampersand) as [_|_]; cbn.
    + intros [= <-]. reflexivity.
    + intros [= <-]. apply Hhead. rewrite E. reflexivity.
  - destruct (last s) as [y|] eqn:El.
    + apply last_Some in El. destruct El as [k Hk]. rewrite Hk.
      unfold Security.replace. rewrite flat_map_app. cbn [flat_map].
      rewrite app_nil_r.
      destruct (N.eqb_spec y Security.ampersand) as [_|_].
      * rewrite (last_app_some _ Security.amp_entity 59%N eq_refl).
        intros [= <-]. reflexivity.
      * rewrite last_snoc. intros [= <-]. apply Hlast. reflexivity.
    + apply last_None in El. congruence.
Qed.

(** A second pass over a sanitized text escapes its ampersands again and
    changes nothing else. *)
Lemma sanitize_again (s : list N) :
  Security.sanitizeInput (Security.sanitizeInput s)
  = Security.replace Security.ampersand Security.amp_entity
      (Security.sanitizeInput s).
Proof.
  apply sanitize_trimmed; [apply sanitize_clean| |].
  - destruct s; [discriminate|]. intros c. apply trim_head.
  - destruct s; [discriminate|]. intros c. apply trim_last.
Qed.

Lemma sanitize_again_length (s : list N) :
  (length (Security.sanitizeInput s)
   <= length (Security.sanitizeInput (Security.sanitizeInput s)))%nat.
Proof.
  rewrite sanitize_again. apply replace_length. cbn. lia.
Qed.

(** X25: when [validateStepOne] accepts a form, the values it stores are the
    sanitized inputs: the name has at least two code units, the e-mail is an
    address [validateEmail] accepts and is the typed text without its angle
    brackets and surrounding white space, the address has at least five code
    units when delivery is requested, and no stored field contains [<], [>],
    a quote or a slash. Validating the stored form again accepts it and
    keeps the e-mail. *)
Theorem validateStepOne_accepts (formData stored : Security.FormData)
    (deliveryRequested : bool) :
  Security.validateStepOne formData deliveryRequested = inr stored →
  stored = {| Security.fd_name :=
                Security.sanitizeInput (Security.fd_name formData);
              Security.fd_email :=
                Security.trim
                  (Security.remove_angles (Security.fd_email formData));
              Security.fd_deliveryAddress :=
                Security.sanitizeInput
                  (Security.fd_deliveryAddress formData) |}
  ∧ (2 <= length (Security.fd_name stored))%nat
  ∧ Security.validateEmail (Security.fd_email stored) = true
  ∧ (deliveryRequested = true →
     (5 <= length (Security.fd_deliveryAddress stored))%nat)
  ∧ Forall (fun c => Security.markup c = false)
      (Security.fd_name stored ++ Security.fd_email stored
       ++ Security.fd_deliveryAddress stored)
  ∧ Security.validateStepOne stored deliveryRequested
    = inr {| Security.fd_name :=
               Security.sanitizeInput (Security.fd_name stored);
             Security.fd_email := Security.fd_email stored;
             Security.fd_deliveryAddress :=
               Security.sanitizeInput (Security.fd_deliveryAddress stored) |}.
Proof.
  unfold Security.validateStepOne at 1. cbv zeta.
  destruct (length (Security.sanitizeInput (Security.fd_name formData)) <? 2)%nat
    eqn:Hn; [discriminate|].
  destruct (Security.validateEmail
              (Security.sanitizeInput (Security.fd_email formData)))
    eqn:He; [|discriminate]. cbn [negb].
  destruct (deliveryRequested
            && (length (Security.sanitizeInput
                          (Security.fd_deliveryAddress formData)) <? 5)%nat)
    eqn:Ha; [discriminate|].
  intros [= <-]. cbn [Security.fd_name Security.fd_email
                       Security.fd_deliveryAddress].
  apply Nat.ltb_ge in Hn.
  assert (Hd : deliveryRequested = true →
               (5 <= length (Security.sanitizeInput
                               (Security.fd_deliveryAddress formData)))%nat).
  { intros ->. cbn [andb] in Ha. apply Nat.ltb_ge in Ha. exact Ha. }
  assert (Hfix := email_unchanged _ He).
  split; [|split; [exact Hn | split; [exact He | split; [exact Hd | split]]]].
  - f_equal. apply sanitize_unescaped. intros Hin.
    apply email_chars in He. rewrite List.Forall_forall in He.
    apply He in Hin. apply address_char_plain in Hin.
    destruct Hin as [[_ Hamp] _]. apply Hamp. reflexivity.
  - apply Forall_app. split; [apply sanitize_clean|].
    apply Forall_app. split; apply sanitize_clean.
  - unfold Security.validateStepOne. cbv zeta.
    cbn [Security.fd_name Security.fd_email Security.fd_deliveryAddress].
    rewrite Hfix, He. cbn [negb].
    assert (Hn2 := sanitize_again_length (Security.fd_name formData)).
    assert (Ha2 := sanitize_again_length
                     (Security.fd_deliveryAddress formData)).
    replace (length (Security.sanitizeInput (Security.sanitizeInput
               (Security.fd_name formData))) <? 2)%nat with false
      by (symmetry; apply Nat.ltb_ge; lia).
    destruct deliveryRequested; cbn [andb]; [|reflexivity].
    specialize (Hd eq_refl).
    replace (length (Security.sanitizeInput (Security.sanitizeInput
               (Security.fd_deliveryAddress formData))) <? 5)%nat with false
      by (symmetry; apply Nat.ltb_ge; lia).
    reflexivity.
Qed.

Lemma validateStepOne_accepts_witness :
  Security.validateStepOne Samples.bracketForm true = inr Samples.storedForm
  ∧ Security.fd_email Samples.storedForm = Samples.anaEmail
  ∧ Security.validateStepOne Samples.storedForm true
    = inr {| Security.fd_name :=
               Security.sanitizeInput (Security.fd_name Samples.storedForm);
             Security.fd_email := Samples.anaEmail;
             Security.fd_deliveryAddress :=
               Security.sanitizeInput
                 (Security.fd_deliveryAddress Samples.storedForm) |}.
Proof.
  split; [reflexivity|]. split; [reflexivity|].
  exact (proj2 (proj2 (proj2 (proj2 (proj2
    (validateStepOne_accepts Samples.bracketForm Samples.storedForm true
       eq_refl)))))).
Defined.

(** An address between angle brackets passes; a name of one letter, an
    address without a dot after the at sign and a short delivery address do
    not. *)
Example validateStepOne_rejections :
  Security.validateStepOne
    {| Security.fd_name := [65]%N; Security.fd_email := Samples.anaEmail;
       Security.fd_deliveryAddress := [] |} false
  = inl "Please enter a valid name."
  ∧ Security.validateStepOne
      {| Security.fd_name := Samples.anaName;
         Security.fd_email := [97; 64; 98]%N;
         Security.fd_deliveryAddress := [] |} false
    = inl "Please enter a valid email address."
  ∧ Security.validateStepOne Samples.anaForm true
    = inl "Please enter a valid delivery address."
  ∧ Security.validateStepOne Samples.anaForm false
    = inr {| Security.fd_name := [65; 110; 97]%N;
             Security.fd_email := Samples.anaEmail;
             Security.fd_deliveryAddress := [] |}.
Proof. repeat split; reflexivity. Qed.
